(** * LoongArch LVZ: CSR mediation, GID-tagged TLB helpers and VM exit

    A shallow embedding of the LVZ helpers of target/loongarch
    (tlb_helper.c, cpu_helper.c, op_helper.c, the CSR helpers and the LVZ
    instruction helpers, with the inline predicates of cpu.h) and the
    properties of the specification that concern them.

    Machine integers are [Z] with every narrowing conversion written out.
    [CPULoongArchState] is a record; a helper is a function from the state
    to an [outcome]: it returns, it raises an architectural exception
    (do_raise_exception leaves the helper by longjmp, the state keeps what
    was stored before), or it touches [env->tlb] outside the array. *)

From Stdlib Require Import ZArith Bool List Lia.
Import ListNotations.
Local Open Scope Z_scope.

(** ** Fixed-width integers and bit fields (qemu/bitops.h, hw/registerfields.h) *)

Definition u8  (x : Z) : Z := x mod 2 ^ 8.
Definition u16 (x : Z) : Z := x mod 2 ^ 16.
Definition u32 (x : Z) : Z := x mod 2 ^ 32.
Definition u64 (x : Z) : Z := x mod 2 ^ 64.

(** Conversion to [int]: the value modulo 2^32, read as two's complement. *)
Definition s32 (x : Z) : Z :=
  let y := u32 x in if y <? 2 ^ 31 then y else y - 2 ^ 32.

(** [MAKE_64BIT_MASK(shift, length)] is
    [((~0ULL) >> (64 - (length))) << (shift)]. *)
Definition MAKE_64BIT_MASK (shift length : Z) : Z :=
  u64 (Z.shiftl (Z.ones length) shift).

(** [extract64(value, start, length)] is
    [(value >> start) & (~0ULL >> (64 - length))]. *)
Definition extract64 (value start length : Z) : Z :=
  Z.land (Z.shiftr value start) (Z.ones length).

(** [deposit64(value, start, length, fieldval)]:
    [mask = (~0ULL >> (64 - length)) << start;
     return (value & ~mask) | ((fieldval << start) & mask)]. *)
Definition deposit64 (value start length fieldval : Z) : Z :=
  let mask := Z.shiftl (Z.ones length) start in
  Z.lor (Z.land value (Z.lnot mask)) (Z.land (Z.shiftl fieldval start) mask).

(** [FIELD(reg, field, shift, length)] declares a bit field. *)
Record Field : Type := FIELD { f_shift : Z; f_len : Z }.

Definition FIELD_EX64 (storage : Z) (f : Field) : Z :=
  extract64 storage (f_shift f) (f_len f).
Definition FIELD_DP64 (storage : Z) (f : Field) (val : Z) : Z :=
  deposit64 storage (f_shift f) (f_len f) val.
Definition FIELD_EX32 (storage : Z) (f : Field) : Z :=
  extract64 storage (f_shift f) (f_len f).

(** The mask of the bits a field occupies. *)
Definition field_mask (f : Field) : Z := Z.shiftl (Z.ones (f_len f)) (f_shift f).

(** A field fits a 64-bit register; two fields share no bit. *)
Definition field_wf (f : Field) : bool :=
  (0 <=? f_shift f) && (1 <=? f_len f) && (f_shift f + f_len f <=? 64).
Definition field_disjoint (f g : Field) : bool :=
  (f_shift f + f_len f <=? f_shift g) || (f_shift g + f_len g <=? f_shift f).

(** A C integer used as a condition. *)
Definition truthy (x : Z) : bool := negb (x =? 0).

(** ** Constants and fields of cpu.h *)

Definition EXCODE (code subcode : Z) : Z := Z.lor (Z.shiftl subcode 6) code.
Definition EXCCODE_INE : Z := EXCODE 13 0.
Definition EXCCODE_IPE : Z := EXCODE 14 0.
Definition EXCCODE_HVC : Z := EXCODE 22 0.

Definition VMEXIT_MMIO : Z := 1.
Definition VMEXIT_INT : Z := 2.
Definition VMEXIT_TIMER : Z := 3.
Definition VMEXIT_IOCSR : Z := 4.
Definition VMEXIT_CSRR : Z := 5.
Definition VMEXIT_CSRW : Z := 6.
Definition VMEXIT_CSRX : Z := 7.
Definition VMEXIT_HYPERCALL : Z := 8.
Definition VMEXIT_CPUCFG : Z := 9.
Definition VMEXIT_TLB : Z := 10.
Definition VMEXIT_CACHE : Z := 11.

Definition CPUCFG1_ARCH : Field := FIELD 0 2.
Definition CPUCFG1_ARCH_LA64 : Z := 2.
Definition CPUCFG2_LVZ : Field := FIELD 10 1.

Definition CSR_CRMD_PLV : Field := FIELD 0 2.
Definition CSR_CRMD_IE : Field := FIELD 2 1.
Definition CSR_CRMD_DA : Field := FIELD 3 1.
Definition CSR_CRMD_PG : Field := FIELD 4 1.

Definition LOONGARCH_STLB : Z := 2048.
Definition LOONGARCH_MTLB : Z := 64.
Definition LOONGARCH_TLB_MAX : Z := LOONGARCH_STLB + LOONGARCH_MTLB.

Definition TLB_MISC_E : Field := FIELD 0 1.
Definition TLB_MISC_ASID : Field := FIELD 1 10.
Definition TLB_MISC_VPPN : Field := FIELD 13 35.
Definition TLB_MISC_PS : Field := FIELD 48 6.
Definition TLB_MISC_GID : Field := FIELD 54 8.
Definition R_TLB_MISC_VPPN_SHIFT : Z := f_shift TLB_MISC_VPPN.

Definition IRQ_TIMER : Z := 11.

(** ** The registers of the two CSR banks

    [CPULoongArchState] holds every register below twice, as [CSR_x] and as
    [GCSR_x]; [SAVE i] and [DMW i] are the elements of the arrays
    [CSR_SAVE[16]] and [CSR_DMW[4]]. *)
Inductive csr_reg : Type :=
| CRMD | PRMD | EUEN | MISC | ECFG | ESTAT | ERA | BADV | BADI | EENTRY
| TLBIDX | TLBEHI | TLBELO0 | TLBELO1 | ASID | PGDL | PGDH | PGD | PWCL | PWCH
| STLBPS | RVACFG | CPUID | PRCFG1 | PRCFG2 | PRCFG3
| SAVE (i : Z)
| TID | TCFG | TVAL | CNTC | TICLR | LLBCTL | IMPCTL1 | IMPCTL2
| TLBRENTRY | TLBRBADV | TLBRERA | TLBRSAVE | TLBRELO0 | TLBRELO1 | TLBREHI
| TLBRPRMD
| MERRCTL | MERRINFO1 | MERRINFO2 | MERRENTRY | MERRERA | MERRSAVE | CTAG
| DMW (i : Z)
| DBG | DERA | DSAVE.

Definition csr_reg_eq_dec (a b : csr_reg) : {a = b} + {a <> b}.
Proof. decide equality; apply Z.eq_dec. Defined.

(** ** cpu-csr.h and cpu-param.h

    cpu-csr.h, which every helper includes, and cpu-param.h are not among
    the sources.  What the helpers take from them is a parameter of the
    development: the bit fields of the control registers, the width of a
    virtual address and the numbering of the CSRs.
    [csr_of n] is the register that [LOONGARCH_CSR_x == n] names in a
    [switch] over the CSR number, [gcsr_of n] the same for
    [LOONGARCH_GCSR_x]; [None] is a number none of the labels has. *)
Class CsrLayout : Type := {
  CSR_GSTAT_VM : Field;
  CSR_GSTAT_PVM : Field;
  CSR_GSTAT_GID : Field;
  CSR_GCFG_SITP : Field;
  CSR_GCFG_SITO : Field;
  CSR_GCFG_TITP : Field;
  CSR_GCFG_TITO : Field;
  CSR_MISC_VA32 : Field;
  CSR_PRMD_PPLV : Field;
  CSR_PRMD_PIE : Field;
  CSR_ESTAT_ECODE : Field;
  CSR_TLBIDX_INDEX : Field;
  CSR_TLBIDX_PS : Field;
  CSR_TLBIDX_NE : Field;
  CSR_TLBEHI_32_VPPN : Field;
  CSR_TLBEHI_64_VPPN : Field;
  TLBENTRY_V : Field;
  TLBENTRY_G : Field;
  CSR_ASID_ASID : Field;
  CSR_STLBPS_PS : Field;
  CSR_TLBRERA_ISTLBR : Field;
  CSR_TLBRERA_PC : Field;
  CSR_TLBREHI_PS : Field;
  CSR_TLBREHI_32_VPPN : Field;
  CSR_TLBREHI_64_VPPN : Field;
  CSR_TLBRPRMD_PPLV : Field;
  CSR_TLBRPRMD_PIE : Field;
  TARGET_VIRT_ADDR_SPACE_BITS : Z;
  csr_of : Z -> option csr_reg;
  gcsr_of : Z -> option csr_reg
}.

(** What the helpers rely on in that header: every field lies inside its
    64-bit register, the fields of one register that a helper writes one
    after the other are disjoint, and the widths are those the data model
    gives ([GSTAT{VM:1, PVM:1, GID:8}], a saved [PPLV] as wide as
    [CRMD.PLV], one bit for [PIE], [NE] and [ISTLBR], an exception code
    field that holds [EXCCODE_HVC], an index that fits [int], a virtual page
    number at bit 13 as in [TLB_MISC]). *)
Definition layout_fields `{CsrLayout} : list Field :=
  [ CSR_GSTAT_VM; CSR_GSTAT_PVM; CSR_GSTAT_GID;
    CSR_GCFG_SITP; CSR_GCFG_SITO; CSR_GCFG_TITP; CSR_GCFG_TITO;
    CSR_MISC_VA32; CSR_PRMD_PPLV; CSR_PRMD_PIE; CSR_ESTAT_ECODE;
    CSR_TLBIDX_INDEX; CSR_TLBIDX_PS; CSR_TLBIDX_NE;
    CSR_TLBEHI_32_VPPN; CSR_TLBEHI_64_VPPN; TLBENTRY_V; TLBENTRY_G;
    CSR_ASID_ASID; CSR_STLBPS_PS; CSR_TLBRERA_ISTLBR; CSR_TLBRERA_PC;
    CSR_TLBREHI_PS; CSR_TLBREHI_32_VPPN; CSR_TLBREHI_64_VPPN;
    CSR_TLBRPRMD_PPLV; CSR_TLBRPRMD_PIE ].

Definition layout_disjoint `{CsrLayout} : list (Field * Field) :=
  [ (CSR_GSTAT_VM, CSR_GSTAT_PVM); (CSR_GSTAT_VM, CSR_GSTAT_GID);
    (CSR_GSTAT_PVM, CSR_GSTAT_GID);
    (CSR_PRMD_PPLV, CSR_PRMD_PIE);
    (CSR_TLBRPRMD_PPLV, CSR_TLBRPRMD_PIE);
    (CSR_TLBIDX_INDEX, CSR_TLBIDX_PS); (CSR_TLBIDX_INDEX, CSR_TLBIDX_NE);
    (CSR_TLBIDX_PS, CSR_TLBIDX_NE);
    (CSR_TLBRERA_ISTLBR, CSR_TLBRERA_PC) ].

Definition layout_widths `{CsrLayout} : bool :=
  (f_len CSR_GSTAT_VM =? 1) && (f_len CSR_GSTAT_PVM =? 1) &&
  (f_len CSR_GSTAT_GID =? 8) &&
  (f_len CSR_PRMD_PPLV =? 2) && (f_len CSR_PRMD_PIE =? 1) &&
  (f_len CSR_TLBRPRMD_PPLV =? 2) && (f_len CSR_TLBRPRMD_PIE =? 1) &&
  (5 <=? f_len CSR_ESTAT_ECODE) &&
  (f_len CSR_TLBIDX_NE =? 1) && (f_len CSR_TLBIDX_INDEX <=? 31) &&
  (f_len CSR_TLBRERA_ISTLBR =? 1) &&
  (f_shift CSR_TLBEHI_64_VPPN =? 13) && (f_len CSR_TLBEHI_64_VPPN <=? 35) &&
  (f_shift CSR_TLBEHI_32_VPPN =? 13) && (f_len CSR_TLBEHI_32_VPPN <=? 35).

Definition layout_ok `{CsrLayout} : bool :=
  forallb field_wf layout_fields &&
  forallb (fun p => field_disjoint (fst p) (snd p)) layout_disjoint &&
  layout_widths.

(** ** CPU state (cpu.h) *)

Record LoongArchTLB : Type := mkTLB {
  tlb_misc : Z;
  tlb_entry0 : Z;
  tlb_entry1 : Z
}.

Record VMExitContext : Type := mkCtx {
  fault_gpa : Z;
  fault_gva : Z;
  gid : Z;
  exit_reason : Z;
  access_type : Z;
  is_tlb_refill : bool
}.

(** [CSR r] is the field [CSR_r] and [GCSR r] the field [GCSR_r] of the C
    structure; the LVZ control registers exist once.  [tlb] is the array
    [tlb[LOONGARCH_TLB_MAX]]: only the indices [0 .. LOONGARCH_TLB_MAX - 1]
    are storage, see [tlb_in_bounds].  The last three fields are what the
    helpers reach outside [env]: [cpu_index] of the CPUState, the value the
    constant timer returns when it is read, and the level of the timer
    interrupt line. *)
Record CPULoongArchState : Type := mkEnv {
  pc : Z;
  cpucfg : Z -> Z;
  CSR : csr_reg -> Z;
  CSR_GSTAT : Z;
  CSR_GCFG : Z;
  CSR_GINTC : Z;
  CSR_GCNTC : Z;
  GCSR : csr_reg -> Z;
  CSR_GTLBC : Z;
  CSR_TRGP : Z;
  vm_exit_ctx : VMExitContext;
  lvz_enabled : bool;
  lladdr : Z;
  tlb : Z -> LoongArchTLB;
  cpu_index : Z;
  constant_timer_ticks : Z;
  timer_irq : Z
}.

(** Assignments to one field of the state. *)
Definition with_pc (v : Z) (e : CPULoongArchState) : CPULoongArchState :=
  mkEnv v (cpucfg e) (CSR e) (CSR_GSTAT e) (CSR_GCFG e) (CSR_GINTC e)
        (CSR_GCNTC e) (GCSR e) (CSR_GTLBC e) (CSR_TRGP e) (vm_exit_ctx e)
        (lvz_enabled e) (lladdr e) (tlb e) (cpu_index e)
        (constant_timer_ticks e) (timer_irq e).
Definition with_CSR (v : csr_reg -> Z) (e : CPULoongArchState) : CPULoongArchState :=
  mkEnv (pc e) (cpucfg e) v (CSR_GSTAT e) (CSR_GCFG e) (CSR_GINTC e)
        (CSR_GCNTC e) (GCSR e) (CSR_GTLBC e) (CSR_TRGP e) (vm_exit_ctx e)
        (lvz_enabled e) (lladdr e) (tlb e) (cpu_index e)
        (constant_timer_ticks e) (timer_irq e).
Definition with_CSR_GSTAT (v : Z) (e : CPULoongArchState) : CPULoongArchState :=
  mkEnv (pc e) (cpucfg e) (CSR e) v (CSR_GCFG e) (CSR_GINTC e)
        (CSR_GCNTC e) (GCSR e) (CSR_GTLBC e) (CSR_TRGP e) (vm_exit_ctx e)
        (lvz_enabled e) (lladdr e) (tlb e) (cpu_index e)
        (constant_timer_ticks e) (timer_irq e).
Definition with_GCSR (v : csr_reg -> Z) (e : CPULoongArchState) : CPULoongArchState :=
  mkEnv (pc e) (cpucfg e) (CSR e) (CSR_GSTAT e) (CSR_GCFG e) (CSR_GINTC e)
        (CSR_GCNTC e) v (CSR_GTLBC e) (CSR_TRGP e) (vm_exit_ctx e)
        (lvz_enabled e) (lladdr e) (tlb e) (cpu_index e)
        (constant_timer_ticks e) (timer_irq e).
Definition with_CSR_TRGP (v : Z) (e : CPULoongArchState) : CPULoongArchState :=
  mkEnv (pc e) (cpucfg e) (CSR e) (CSR_GSTAT e) (CSR_GCFG e) (CSR_GINTC e)
        (CSR_GCNTC e) (GCSR e) (CSR_GTLBC e) v (vm_exit_ctx e)
        (lvz_enabled e) (lladdr e) (tlb e) (cpu_index e)
        (constant_timer_ticks e) (timer_irq e).
Definition with_vm_exit_ctx (v : VMExitContext) (e : CPULoongArchState) : CPULoongArchState :=
  mkEnv (pc e) (cpucfg e) (CSR e) (CSR_GSTAT e) (CSR_GCFG e) (CSR_GINTC e)
        (CSR_GCNTC e) (GCSR e) (CSR_GTLBC e) (CSR_TRGP e) v
        (lvz_enabled e) (lladdr e) (tlb e) (cpu_index e)
        (constant_timer_ticks e) (timer_irq e).
Definition with_lladdr (v : Z) (e : CPULoongArchState) : CPULoongArchState :=
  mkEnv (pc e) (cpucfg e) (CSR e) (CSR_GSTAT e) (CSR_GCFG e) (CSR_GINTC e)
        (CSR_GCNTC e) (GCSR e) (CSR_GTLBC e) (CSR_TRGP e) (vm_exit_ctx e)
        (lvz_enabled e) v (tlb e) (cpu_index e)
        (constant_timer_ticks e) (timer_irq e).
Definition with_tlb (v : Z -> LoongArchTLB) (e : CPULoongArchState) : CPULoongArchState :=
  mkEnv (pc e) (cpucfg e) (CSR e) (CSR_GSTAT e) (CSR_GCFG e) (CSR_GINTC e)
        (CSR_GCNTC e) (GCSR e) (CSR_GTLBC e) (CSR_TRGP e) (vm_exit_ctx e)
        (lvz_enabled e) (lladdr e) v (cpu_index e)
        (constant_timer_ticks e) (timer_irq e).
Definition with_timer_irq (v : Z) (e : CPULoongArchState) : CPULoongArchState :=
  mkEnv (pc e) (cpucfg e) (CSR e) (CSR_GSTAT e) (CSR_GCFG e) (CSR_GINTC e)
        (CSR_GCNTC e) (GCSR e) (CSR_GTLBC e) (CSR_TRGP e) (vm_exit_ctx e)
        (lvz_enabled e) (lladdr e) (tlb e) (cpu_index e)
        (constant_timer_ticks e) v.

(** [bank[r] = v] for a register of a CSR bank, [tlb[i] = t] for an entry. *)
Definition bank_set (b : csr_reg -> Z) (r : csr_reg) (v : Z) : csr_reg -> Z :=
  fun r' => if csr_reg_eq_dec r' r then v else b r'.
Definition tlb_set (a : Z -> LoongArchTLB) (i : Z) (t : LoongArchTLB) : Z -> LoongArchTLB :=
  fun j => if j =? i then t else a j.

Definition set_CSR (r : csr_reg) (v : Z) (e : CPULoongArchState) : CPULoongArchState :=
  with_CSR (bank_set (CSR e) r v) e.
Definition set_GCSR (r : csr_reg) (v : Z) (e : CPULoongArchState) : CPULoongArchState :=
  with_GCSR (bank_set (GCSR e) r v) e.

(** The indices that [env->tlb] has. *)
Definition tlb_in_bounds (i : Z) : bool := (0 <=? i) && (i <? LOONGARCH_TLB_MAX).

(** ** Helpers as state transformers *)

Inductive outcome (A : Type) : Type :=
| Done (a : A) (env : CPULoongArchState)
| Raised (exception : Z) (env : CPULoongArchState)
| OutOfBounds (index : Z).
Arguments Done {A} a env.
Arguments Raised {A} exception env.
Arguments OutOfBounds {A} index.

Definition M (A : Type) : Type := CPULoongArchState -> outcome A.

Definition ret {A} (a : A) : M A := fun env => Done a env.
Definition bind {A B} (m : M A) (k : A -> M B) : M B :=
  fun env =>
    match m env with
    | Done a env' => k a env'
    | Raised x env' => Raised x env'
    | OutOfBounds i => OutOfBounds i
    end.
Definition get : M CPULoongArchState := fun env => Done env env.
Definition modify (f : CPULoongArchState -> CPULoongArchState) : M unit :=
  fun env => Done tt (f env).

(** [do_raise_exception(env, exception, pc)] does not return. *)
Definition do_raise_exception {A} (exception : Z) : M A :=
  fun env => Raised exception env.

(** Reading and writing [env->tlb[index]]. *)
Definition tlb_load (index : Z) : M LoongArchTLB :=
  fun env => if tlb_in_bounds index then Done (tlb env index) env
             else OutOfBounds index.
Definition tlb_store (index : Z) (t : LoongArchTLB) : M unit :=
  fun env => if tlb_in_bounds index
             then Done tt (with_tlb (tlb_set (tlb env) index t) env)
             else OutOfBounds index.

Declare Scope helper_scope.
Delimit Scope helper_scope with helper.
Notation "x <- m ;; k" := (bind m (fun x => k))
  (at level 61, m at next level, right associativity) : helper_scope.
Notation "m ;; k" := (bind m (fun _ => k))
  (at level 61, right associativity) : helper_scope.
Local Open Scope helper_scope.

(** [for (i = lo; i < hi; i++) body(i)]. *)
Fixpoint for_range (n : nat) (i : Z) (body : Z -> M unit) : M unit :=
  match n with
  | O => ret tt
  | S n' => body i ;; for_range n' (i + 1) body
  end.
Definition for_loop (lo hi : Z) (body : Z -> M unit) : M unit :=
  for_range (Z.to_nat (hi - lo)) lo body.

(** A loop that returns from the function at the first index where [probe]
    finds something. *)
Fixpoint search_range (n : nat) (i : Z) (probe : Z -> M (option Z)) : M (option Z) :=
  match n with
  | O => ret None
  | S n' =>
      r <- probe i ;;
      match r with
      | Some idx => ret (Some idx)
      | None => search_range n' (i + 1) probe
      end
  end.
Definition search_loop (lo hi : Z) (probe : Z -> M (option Z)) : M (option Z) :=
  search_range (Z.to_nat (hi - lo)) lo probe.

(** The state a helper leaves behind, when it leaves one. *)
Definition final_env {A} (o : outcome A) : option CPULoongArchState :=
  match o with
  | Done _ env => Some env
  | Raised _ env => Some env
  | OutOfBounds _ => None
  end.

Section Model.
Context `{L : CsrLayout}.

(** ** Inline predicates of cpu.h *)

Definition is_la64 (env : CPULoongArchState) : bool :=
  FIELD_EX32 (cpucfg env 1) CPUCFG1_ARCH =? CPUCFG1_ARCH_LA64.

Definition is_va32 (env : CPULoongArchState) : bool :=
  let va32 := negb (is_la64 env) in
  let plv := FIELD_EX64 (CSR env CRMD) CSR_CRMD_PLV in
  if (1 <=? plv) &&
     truthy (Z.land (FIELD_EX64 (CSR env MISC) CSR_MISC_VA32) (Z.shiftl 1 plv))
  then true else va32.

Definition set_pc (value : Z) (env : CPULoongArchState) : CPULoongArchState :=
  if is_va32 env then with_pc (u32 value) env else with_pc value env.

Definition has_lvz_capability (env : CPULoongArchState) : bool :=
  truthy (FIELD_EX32 (cpucfg env 2) CPUCFG2_LVZ).

Definition is_guest_mode (env : CPULoongArchState) : bool :=
  has_lvz_capability env && truthy (FIELD_EX64 (CSR_GSTAT env) CSR_GSTAT_VM).

Definition get_guest_id (env : CPULoongArchState) : Z :=
  u8 (FIELD_EX64 (CSR_GSTAT env) CSR_GSTAT_GID).

Definition is_virtualization_mode_active (env : CPULoongArchState) : bool :=
  has_lvz_capability env && lvz_enabled env.

Definition is_guest_execution_context (env : CPULoongArchState) : bool :=
  is_virtualization_mode_active env && is_guest_mode env.

Definition is_hypervisor_execution_context (env : CPULoongArchState) : bool :=
  is_virtualization_mode_active env && negb (is_guest_mode env).

Definition TARGET_VIRT_MASK : Z := MAKE_64BIT_MASK 0 TARGET_VIRT_ADDR_SPACE_BITS.

(** ** tlb_helper.c *)

Definition get_current_guest_id (env : CPULoongArchState) : Z :=
  if is_guest_mode env then get_guest_id env else 0.

Definition tlb_entry_matches_guest (env : CPULoongArchState) (t : LoongArchTLB) : bool :=
  if negb (has_lvz_capability env) then true
  else
    let current_gid := get_current_guest_id env in
    let entry_gid := u8 (FIELD_EX64 (tlb_misc t) TLB_MISC_GID) in
    entry_gid =? current_gid.

Definition get_effective_csr (r : csr_reg) (env : CPULoongArchState) : Z :=
  if is_guest_mode env then GCSR env r else CSR env r.
Definition set_effective_csr (r : csr_reg) (value : Z) (env : CPULoongArchState)
  : CPULoongArchState :=
  if is_guest_mode env then set_GCSR r value env else set_CSR r value env.

Definition get_effective_csr_asid := get_effective_csr ASID.
Definition get_effective_csr_tlbehi := get_effective_csr TLBEHI.
Definition get_effective_csr_tlbelo0 := get_effective_csr TLBELO0.
Definition get_effective_csr_tlbelo1 := get_effective_csr TLBELO1.
Definition get_effective_csr_tlbidx := get_effective_csr TLBIDX.
Definition set_effective_csr_tlbidx := set_effective_csr TLBIDX.
Definition set_effective_csr_tlbehi := set_effective_csr TLBEHI.
Definition set_effective_csr_tlbelo0 := set_effective_csr TLBELO0.
Definition set_effective_csr_tlbelo1 := set_effective_csr TLBELO1.
Definition set_effective_csr_asid := set_effective_csr ASID.

(** [invalidate_tlb_entry] reads the entry and asks the emulator to drop the
    cached translations of its pages ([tlb_flush_range_by_mmuidx]); that
    cache is not part of [CPULoongArchState]. *)
Definition invalidate_tlb_entry (index : Z) : M unit :=
  t <- tlb_load index ;; ret tt.

Definition fill_tlb_entry (index : Z) : M unit :=
  t <- tlb_load index ;;
  env <- get ;;
  let istlbr := truthy (FIELD_EX64 (CSR env TLBRERA) CSR_TLBRERA_ISTLBR) in
  let csr_ps :=
    if istlbr then u8 (FIELD_EX64 (CSR env TLBREHI) CSR_TLBREHI_PS)
    else u8 (FIELD_EX64 (get_effective_csr_tlbidx env) CSR_TLBIDX_PS) in
  let csr_vppn :=
    if istlbr then
      if is_la64 env then FIELD_EX64 (CSR env TLBREHI) CSR_TLBREHI_64_VPPN
      else FIELD_EX64 (CSR env TLBREHI) CSR_TLBREHI_32_VPPN
    else
      if is_la64 env then FIELD_EX64 (get_effective_csr_tlbehi env) CSR_TLBEHI_64_VPPN
      else FIELD_EX64 (get_effective_csr_tlbehi env) CSR_TLBEHI_32_VPPN in
  let lo0 := if istlbr then CSR env TLBRELO0 else get_effective_csr_tlbelo0 env in
  let lo1 := if istlbr then CSR env TLBRELO1 else get_effective_csr_tlbelo1 env in
  let misc := tlb_misc t in
  (* Only MTLB has the ps fields *)
  let misc := if LOONGARCH_STLB <=? index
              then FIELD_DP64 misc TLB_MISC_PS csr_ps else misc in
  let misc := FIELD_DP64 misc TLB_MISC_VPPN csr_vppn in
  let misc := FIELD_DP64 misc TLB_MISC_E 1 in
  let csr_asid := u16 (FIELD_EX64 (get_effective_csr_asid env) CSR_ASID_ASID) in
  let misc := FIELD_DP64 misc TLB_MISC_ASID csr_asid in
  let misc := if has_lvz_capability env
              then FIELD_DP64 misc TLB_MISC_GID (get_current_guest_id env)
              else misc in
  tlb_store index (mkTLB misc lo0 lo1).

(** [get_random_tlb(low, high)]; [val] is what
    [qemu_guest_getrandom_nofail] delivered. *)
Definition get_random_tlb (val low high : Z) : Z :=
  u32 (u32 val mod u32 (high - low + 1) + low).

(** One probe of [loongarch_tlb_search_guest]: the entry at [idx], compared
    at page size [ps].  A shift by an amount outside [0 .. 63] is undefined
    in C; here it has the value of [Z.shiftr]. *)
Definition search_probe (vaddr csr_asid current_gid : Z) (mtlb : bool)
    (stlb_ps idx : Z) : M (option Z) :=
  t <- tlb_load idx ;;
  env <- get ;;
  let tlb_e := u8 (FIELD_EX64 (tlb_misc t) TLB_MISC_E) in
  if negb (truthy tlb_e) then ret None
  else if has_lvz_capability env &&
          negb (u8 (FIELD_EX64 (tlb_misc t) TLB_MISC_GID) =? current_gid)
  then ret None
  else
    let tlb_vppn := FIELD_EX64 (tlb_misc t) TLB_MISC_VPPN in
    let tlb_ps := if mtlb then u8 (FIELD_EX64 (tlb_misc t) TLB_MISC_PS) else stlb_ps in
    let tlb_asid := u16 (FIELD_EX64 (tlb_misc t) TLB_MISC_ASID) in
    let tlb_g := u8 (FIELD_EX64 (tlb_entry0 t) TLBENTRY_G) in
    let compare_shift := tlb_ps + 1 - R_TLB_MISC_VPPN_SHIFT in
    let vpn := Z.shiftr (Z.land vaddr TARGET_VIRT_MASK) (tlb_ps + 1) in
    if ((tlb_g =? 1) || (tlb_asid =? csr_asid)) &&
       (vpn =? Z.shiftr tlb_vppn compare_shift)
    then ret (Some idx) else ret None.

Definition loongarch_tlb_search_guest (vaddr : Z) : M (option Z) :=
  env <- get ;;
  let current_gid := get_current_guest_id env in
  let csr_asid := u16 (FIELD_EX64 (get_effective_csr_asid env) CSR_ASID_ASID) in
  let stlb_ps := u8 (FIELD_EX64 (CSR env STLBPS) CSR_STLBPS_PS) in
  let vpn := Z.shiftr (Z.land vaddr TARGET_VIRT_MASK) (stlb_ps + 1) in
  let stlb_idx := u16 (Z.land vpn 255) in
  (* Search STLB *)
  r <- search_loop 0 8 (fun i =>
         search_probe vaddr csr_asid current_gid false stlb_ps (i * 256 + stlb_idx)) ;;
  match r with
  | Some index => ret (Some index)
  | None =>
      (* Search MTLB *)
      search_loop LOONGARCH_STLB LOONGARCH_TLB_MAX (fun i =>
        search_probe vaddr csr_asid current_gid true stlb_ps i)
  end.

Definition set_tlbidx_field (f : Field) (v : Z) : M unit :=
  modify (fun env =>
    set_effective_csr_tlbidx (FIELD_DP64 (get_effective_csr_tlbidx env) f v) env).

Definition helper_tlbsrch : M unit :=
  env <- get ;;
  let search_ehi :=
    if truthy (FIELD_EX64 (CSR env TLBRERA) CSR_TLBRERA_ISTLBR)
    then CSR env TLBREHI else get_effective_csr_tlbehi env in
  r <- loongarch_tlb_search_guest search_ehi ;;
  match r with
  | Some index =>
      set_tlbidx_field CSR_TLBIDX_INDEX index ;;
      set_tlbidx_field CSR_TLBIDX_NE 0
  | None => set_tlbidx_field CSR_TLBIDX_NE 1
  end.

(** The branch of [helper_tlbrd] for an entry that is disabled or belongs
    to another guest. *)
Definition tlbrd_invalid : M unit :=
  set_tlbidx_field CSR_TLBIDX_NE 1 ;;
  modify (fun env =>
    set_effective_csr_asid (FIELD_DP64 (get_effective_csr_asid env) CSR_ASID_ASID 0) env) ;;
  modify (set_effective_csr_tlbehi 0) ;;
  modify (set_effective_csr_tlbelo0 0) ;;
  modify (set_effective_csr_tlbelo1 0) ;;
  set_tlbidx_field CSR_TLBIDX_PS 0.

Definition helper_tlbrd : M unit :=
  env <- get ;;
  let index := s32 (FIELD_EX64 (get_effective_csr_tlbidx env) CSR_TLBIDX_INDEX) in
  t <- tlb_load index ;;
  if negb (tlb_entry_matches_guest env t) then tlbrd_invalid
  else
    let tlb_ps :=
      if LOONGARCH_STLB <=? index then u8 (FIELD_EX64 (tlb_misc t) TLB_MISC_PS)
      else u8 (FIELD_EX64 (CSR env STLBPS) CSR_STLBPS_PS) in
    let tlb_e := u8 (FIELD_EX64 (tlb_misc t) TLB_MISC_E) in
    if negb (truthy tlb_e) then tlbrd_invalid
    else
      set_tlbidx_field CSR_TLBIDX_NE 0 ;;
      set_tlbidx_field CSR_TLBIDX_PS (Z.land tlb_ps 63) ;;
      modify (set_effective_csr_tlbehi
                (u64 (Z.shiftl (FIELD_EX64 (tlb_misc t) TLB_MISC_VPPN)
                               R_TLB_MISC_VPPN_SHIFT))) ;;
      modify (set_effective_csr_tlbelo0 (tlb_entry0 t)) ;;
      modify (set_effective_csr_tlbelo1 (tlb_entry1 t)).

(** [env->tlb[index].tlb_misc = FIELD_DP64(env->tlb[index].tlb_misc, TLB_MISC, E, 0)]. *)
Definition tlb_clear_e (index : Z) : M unit :=
  t <- tlb_load index ;;
  tlb_store index (mkTLB (FIELD_DP64 (tlb_misc t) TLB_MISC_E 0)
                         (tlb_entry0 t) (tlb_entry1 t)).

Definition helper_tlbwr : M unit :=
  env <- get ;;
  let index := s32 (FIELD_EX64 (get_effective_csr_tlbidx env) CSR_TLBIDX_INDEX) in
  (* Always invalidate old entry before writing new one *)
  (if index <? LOONGARCH_TLB_MAX then invalidate_tlb_entry index else ret tt) ;;
  if truthy (FIELD_EX64 (get_effective_csr_tlbidx env) CSR_TLBIDX_NE)
  then tlb_clear_e index
  else fill_tlb_entry index.

(** The index [helper_tlbfill] chooses; [val] is the random value. *)
Definition tlbfill_index (val : Z) (env : CPULoongArchState) : Z :=
  let istlbr := truthy (FIELD_EX64 (CSR env TLBRERA) CSR_TLBRERA_ISTLBR) in
  let entryhi := if istlbr then CSR env TLBREHI else get_effective_csr_tlbehi env in
  let pagesize :=
    if istlbr then u16 (FIELD_EX64 (CSR env TLBREHI) CSR_TLBREHI_PS)
    else u16 (FIELD_EX64 (get_effective_csr_tlbidx env) CSR_TLBIDX_PS) in
  let stlb_ps := u16 (FIELD_EX64 (CSR env STLBPS) CSR_STLBPS_PS) in
  if pagesize =? stlb_ps then
    (* Only write into STLB bits [47:13] *)
    let address :=
      Z.land entryhi
        (u64 (Z.lnot (MAKE_64BIT_MASK 0 (f_shift CSR_TLBEHI_64_VPPN)))) in
    (* Choose one set ramdomly *)
    let set := get_random_tlb val 0 7 in
    (* Index in one set *)
    let stlb_idx := Z.land (Z.shiftr address (stlb_ps + 1)) 255 in
    set * 256 + stlb_idx
  else
    (* Only write into MTLB *)
    get_random_tlb val LOONGARCH_STLB (LOONGARCH_TLB_MAX - 1).

Definition helper_tlbfill (val : Z) : M unit :=
  env <- get ;;
  let index := tlbfill_index val env in
  (* Always invalidate old entry before filling new one *)
  invalidate_tlb_entry index ;;
  fill_tlb_entry index.

(** The body that [helper_tlbclr], [helper_tlbflush] and the [invtlb]
    helpers run on one entry: clear [E] when [cond] holds of the state and
    the entry. *)
Definition clear_if (cond : CPULoongArchState -> Z -> LoongArchTLB -> bool)
    (idx : Z) : M unit :=
  t <- tlb_load idx ;;
  env <- get ;;
  if cond env idx t
  then tlb_store idx (mkTLB (FIELD_DP64 (tlb_misc t) TLB_MISC_E 0)
                            (tlb_entry0 t) (tlb_entry1 t))
  else ret tt.

Definition tlbclr_cond (csr_asid : Z) (env : CPULoongArchState) (i : Z)
    (t : LoongArchTLB) : bool :=
  (* Only clear entries belonging to current guest *)
  if negb (tlb_entry_matches_guest env t) then false
  else
    let tlb_asid := u16 (FIELD_EX64 (tlb_misc t) TLB_MISC_ASID) in
    let tlb_g := u16 (FIELD_EX64 (tlb_entry0 t) TLBENTRY_G) in
    negb (truthy tlb_g) && (tlb_asid =? csr_asid).

Definition helper_tlbclr : M unit :=
  env <- get ;;
  let csr_asid := u16 (FIELD_EX64 (get_effective_csr_asid env) CSR_ASID_ASID) in
  let index := s32 (FIELD_EX64 (get_effective_csr_tlbidx env) CSR_TLBIDX_INDEX) in
  if index <? LOONGARCH_STLB then
    (* STLB. One line per operation *)
    for_loop 0 8 (fun i => clear_if (tlbclr_cond csr_asid) (i * 256 + Z.rem index 256))
  else if index <? LOONGARCH_TLB_MAX then
    (* All MTLB entries *)
    for_loop LOONGARCH_STLB LOONGARCH_TLB_MAX (clear_if (tlbclr_cond csr_asid))
  else ret tt.

Definition tlbflush_cond (env : CPULoongArchState) (i : Z) (t : LoongArchTLB) : bool :=
  tlb_entry_matches_guest env t.

Definition helper_tlbflush : M unit :=
  env <- get ;;
  let index := s32 (FIELD_EX64 (get_effective_csr_tlbidx env) CSR_TLBIDX_INDEX) in
  if index <? LOONGARCH_STLB then
    for_loop 0 8 (fun i => clear_if tlbflush_cond (i * 256 + Z.rem index 256))
  else if index <? LOONGARCH_TLB_MAX then
    for_loop LOONGARCH_STLB LOONGARCH_TLB_MAX (clear_if tlbflush_cond)
  else ret tt.

Definition helper_invtlb_all : M unit :=
  for_loop 0 LOONGARCH_TLB_MAX (clear_if tlbflush_cond).

Definition invtlb_all_g_cond (g : Z) (env : CPULoongArchState) (i : Z)
    (t : LoongArchTLB) : bool :=
  let tlb_g := u8 (FIELD_EX64 (tlb_entry0 t) TLBENTRY_G) in
  (tlb_g =? g) && tlb_entry_matches_guest env t.

Definition helper_invtlb_all_g (g : Z) : M unit :=
  for_loop 0 LOONGARCH_TLB_MAX (clear_if (invtlb_all_g_cond g)).

Definition invtlb_all_asid_cond (asid : Z) (env : CPULoongArchState) (i : Z)
    (t : LoongArchTLB) : bool :=
  let tlb_g := u8 (FIELD_EX64 (tlb_entry0 t) TLBENTRY_G) in
  let tlb_asid := u16 (FIELD_EX64 (tlb_misc t) TLB_MISC_ASID) in
  negb (truthy tlb_g) && (tlb_asid =? asid) && tlb_entry_matches_guest env t.

Definition helper_invtlb_all_asid (info : Z) : M unit :=
  let asid := u16 (Z.land info (field_mask CSR_ASID_ASID)) in
  for_loop 0 LOONGARCH_TLB_MAX (clear_if (invtlb_all_asid_cond asid)).

(** The page comparison of the two [invtlb_page] helpers; [or_g] tells them
    apart.  [compare_shift] is a [uint8_t]. *)
Definition invtlb_page_cond (or_g : bool) (asid addr : Z)
    (env : CPULoongArchState) (i : Z) (t : LoongArchTLB) : bool :=
  let tlb_g := u8 (FIELD_EX64 (tlb_entry0 t) TLBENTRY_G) in
  let tlb_asid := u16 (FIELD_EX64 (tlb_misc t) TLB_MISC_ASID) in
  (* Only check entries belonging to current guest *)
  if negb (tlb_entry_matches_guest env t) then false
  else
    let tlb_ps :=
      if LOONGARCH_STLB <=? i then u8 (FIELD_EX64 (tlb_misc t) TLB_MISC_PS)
      else u8 (FIELD_EX64 (CSR env STLBPS) CSR_STLBPS_PS) in
    let tlb_vppn := FIELD_EX64 (tlb_misc t) TLB_MISC_VPPN in
    let vpn := Z.shiftr (Z.land addr TARGET_VIRT_MASK) (tlb_ps + 1) in
    let compare_shift := u8 (tlb_ps + 1 - R_TLB_MISC_VPPN_SHIFT) in
    (if or_g then truthy tlb_g || (tlb_asid =? asid)
     else negb (truthy tlb_g) && (tlb_asid =? asid)) &&
    (vpn =? Z.shiftr tlb_vppn compare_shift).

Definition helper_invtlb_page_asid (info addr : Z) : M unit :=
  let asid := u16 (Z.land info 1023) in
  for_loop 0 LOONGARCH_TLB_MAX (clear_if (invtlb_page_cond false asid addr)).

Definition helper_invtlb_page_asid_or_g (info addr : Z) : M unit :=
  let asid := u16 (Z.land info 1023) in
  for_loop 0 LOONGARCH_TLB_MAX (clear_if (invtlb_page_cond true asid addr)).

(** ** cpu_helper.c: the VM-exit controller *)

Definition helper_vm_exit_cpu (exit_reason : Z) : M unit :=
  env <- get ;;
  (* Only process VM exit in guest execution context *)
  if negb (is_guest_execution_context env) then ret tt
  else
    (* Save current guest state in VM exit context *)
    modify (fun env =>
      with_vm_exit_ctx
        (mkCtx 0 (pc env) (get_guest_id env) exit_reason 0 false) env) ;;
    (* Save current virtualization mode state in PVM *)
    modify (fun env =>
      let vm_bit := FIELD_EX64 (CSR_GSTAT env) CSR_GSTAT_VM in
      with_CSR_GSTAT (FIELD_DP64 (CSR_GSTAT env) CSR_GSTAT_PVM vm_bit) env) ;;
    (* Clear VM bit to enter hypervisor mode *)
    modify (fun env =>
      with_CSR_GSTAT (FIELD_DP64 (CSR_GSTAT env) CSR_GSTAT_VM 0) env) ;;
    (* Save current privilege level and interrupt state for guest *)
    modify (fun env =>
      let crmd := CSR env CRMD in
      let guest_prmd := GCSR env PRMD in
      let guest_prmd :=
        FIELD_DP64 guest_prmd CSR_PRMD_PPLV (FIELD_EX64 crmd CSR_CRMD_PLV) in
      let guest_prmd :=
        FIELD_DP64 guest_prmd CSR_PRMD_PIE (FIELD_EX64 crmd CSR_CRMD_IE) in
      set_GCSR PRMD guest_prmd env) ;;
    (* Save guest's current PC in guest ERA *)
    modify (fun env => set_GCSR ERA (pc env) env) ;;
    (* Update guest exception status with VM exit code *)
    modify (fun env =>
      set_GCSR ESTAT (FIELD_DP64 (GCSR env ESTAT) CSR_ESTAT_ECODE EXCCODE_HVC) env) ;;
    (* Set hypervisor privilege level and disable interrupts *)
    modify (fun env => set_CSR CRMD (FIELD_DP64 (CSR env CRMD) CSR_CRMD_PLV 0) env) ;;
    modify (fun env => set_CSR CRMD (FIELD_DP64 (CSR env CRMD) CSR_CRMD_IE 0) env) ;;
    (* Trigger exception to hypervisor *)
    do_raise_exception EXCCODE_HVC.

Definition helper_vm_exit_with_fault (exit_reason fault_gva fault_gpa access_type : Z)
  : M unit :=
  env <- get ;;
  if negb (is_guest_execution_context env) then ret tt
  else
    (* Save detailed fault information *)
    modify (fun env =>
      with_vm_exit_ctx
        (mkCtx fault_gpa fault_gva (get_guest_id env) exit_reason access_type
               (exit_reason =? VMEXIT_TLB)) env) ;;
    (* Update guest BADV with fault address *)
    modify (set_CSR BADV fault_gva) ;;
    modify (set_GCSR BADV fault_gva) ;;
    (* For second-level translation faults, save GPA in TRGP *)
    (if (exit_reason =? VMEXIT_MMIO) || (exit_reason =? VMEXIT_TLB)
     then modify (with_CSR_TRGP fault_gpa) else ret tt) ;;
    (* Call standard VM exit handler *)
    helper_vm_exit_cpu exit_reason.

(** ** op_helper.c *)

Definition helper_ertn : M unit :=
  env <- get ;;
  let is_guest := is_guest_execution_context env in
  p <- (if truthy (FIELD_EX64 (CSR env TLBRERA) CSR_TLBRERA_ISTLBR) then
          (* TLB refill exception return *)
          let tlbrprmd := if is_guest then GCSR env TLBRPRMD else CSR env TLBRPRMD in
          let tlbrera := if is_guest then GCSR env TLBRERA else CSR env TLBRERA in
          let csr_pplv := FIELD_EX64 tlbrprmd CSR_TLBRPRMD_PPLV in
          let csr_pie := FIELD_EX64 tlbrprmd CSR_TLBRPRMD_PIE in
          (* PC is stored right-shifted by 2 in TLBRERA.PC field *)
          let return_address := u64 (Z.shiftl (FIELD_EX64 tlbrera CSR_TLBRERA_PC) 2) in
          modify (fun env =>
            set_CSR TLBRERA (FIELD_DP64 (CSR env TLBRERA) CSR_TLBRERA_ISTLBR 0) env) ;;
          modify (fun env =>
            set_CSR CRMD (FIELD_DP64 (CSR env CRMD) CSR_CRMD_DA 0) env) ;;
          modify (fun env =>
            set_CSR CRMD (FIELD_DP64 (CSR env CRMD) CSR_CRMD_PG 1) env) ;;
          modify (set_pc return_address) ;;
          ret (csr_pplv, csr_pie)
        else
          (* Normal exception return *)
          let prmd := if is_guest then GCSR env PRMD else CSR env PRMD in
          let csr_pplv := FIELD_EX64 prmd CSR_PRMD_PPLV in
          let csr_pie := FIELD_EX64 prmd CSR_PRMD_PIE in
          let return_address := if is_guest then GCSR env ERA else CSR env ERA in
          modify (set_pc return_address) ;;
          ret (csr_pplv, csr_pie)) ;;
  (* Restore privilege level and interrupt enable *)
  modify (fun env => set_CSR CRMD (FIELD_DP64 (CSR env CRMD) CSR_CRMD_PLV (fst p)) env) ;;
  modify (fun env => set_CSR CRMD (FIELD_DP64 (CSR env CRMD) CSR_CRMD_IE (snd p)) env) ;;
  (* Handle virtualization mode state transition *)
  (if is_guest then
     (* Restore previous virtualization mode from GSTAT.PVM *)
     modify (fun env =>
       let pvm := FIELD_EX64 (CSR_GSTAT env) CSR_GSTAT_PVM in
       with_CSR_GSTAT (FIELD_DP64 (CSR_GSTAT env) CSR_GSTAT_VM pvm) env)
   else ret tt) ;;
  modify (with_lladdr 1).

Definition helper_vm_exit (exit_reason : Z) : M unit :=
  env <- get ;;
  (* Save guest state before VM exit *)
  if is_guest_execution_context env then
    (* Clear VM bit to enter hypervisor mode *)
    modify (fun env =>
      with_CSR_GSTAT
        (FIELD_DP64 (CSR_GSTAT env) CSR_GSTAT_PVM
                    (FIELD_EX64 (CSR_GSTAT env) CSR_GSTAT_VM)) env) ;;
    modify (fun env =>
      with_CSR_GSTAT (FIELD_DP64 (CSR_GSTAT env) CSR_GSTAT_VM 0) env) ;;
    (* Save exit reason for hypervisor *)
    modify (fun env =>
      let c := vm_exit_ctx env in
      with_vm_exit_ctx
        (mkCtx (fault_gpa c) (CSR env BADV) (gid c) exit_reason
               (access_type c) (is_tlb_refill c)) env) ;;
    (* Trigger VM exit exception to hypervisor *)
    do_raise_exception EXCCODE_HVC
  else ret tt.

Definition helper_vm_enter : M unit :=
  env <- get ;;
  if is_hypervisor_execution_context env then
    (* Set VM bit to enter guest mode *)
    modify (fun env =>
      with_CSR_GSTAT (FIELD_DP64 (CSR_GSTAT env) CSR_GSTAT_VM 1) env)
  else ret tt.

(** ** CSR helpers *)

(** The register a CSR number names; the elements of [CSR_SAVE] and
    [CSR_DMW] are the numbers [LOONGARCH_CSR_SAVE(0) .. LOONGARCH_CSR_SAVE(15)]
    and [LOONGARCH_CSR_DMW(0) .. LOONGARCH_CSR_DMW(3)]. *)
Definition in_array (r : option csr_reg) : option csr_reg :=
  match r with
  | Some (SAVE i) => if (0 <=? i) && (i <=? 15) then r else None
  | Some (DMW i) => if (0 <=? i) && (i <=? 3) then r else None
  | _ => r
  end.
Definition decode_csr (csr : Z) : option csr_reg := in_array (csr_of csr).




Definition helper_csrwr_estat (val : Z) : M Z :=
  env <- get ;;
  let old_v := CSR env ESTAT in
  (* Only IS[1:0] can be written *)
  modify (fun env => set_CSR ESTAT (deposit64 (CSR env ESTAT) 0 2 val) env) ;;
  ret old_v.

Definition helper_csrwr_asid (val : Z) : M Z :=
  env <- get ;;
  let old_v := CSR env ASID in
  (* Only ASID filed of CSR_ASID can be written *)
  modify (fun env => set_CSR ASID (deposit64 (CSR env ASID) 0 10 val) env) ;;
  ret old_v.

(** Modelled from the spec: cpu_loongarch_store_constant_timer_config is not
    among the sources.  In section 4.2 a write is [write(csr, val) -> old]
    with the bank as storage target: the store puts [val] in [CSR_TCFG];
    arming the host timer is outside the state. *)
Definition cpu_loongarch_store_constant_timer_config (val : Z) : M unit :=
  modify (set_CSR TCFG val).

Definition helper_csrwr_tcfg (val : Z) : M Z :=
  env <- get ;;
  let old_v := CSR env TCFG in
  cpu_loongarch_store_constant_timer_config val ;;
  ret old_v.

(** Modelled from the spec: loongarch_cpu_set_irq is not among the sources.
    Section 5: [CSR_TICLR] clears a timer IRQ; the call sets the level of
    the interrupt line. *)
Definition loongarch_cpu_set_irq (irq level : Z) : M unit :=
  if irq =? IRQ_TIMER then modify (with_timer_irq level) else ret tt.

Definition helper_csrwr_ticlr (val : Z) : M Z :=
  let old_v := 0 in
  (if truthy (Z.land val 1) then loongarch_cpu_set_irq IRQ_TIMER 0 else ret tt) ;;
  ret old_v.

(** Helper function to check CSR access permissions in virtualization mode *)
Definition check_csr_access_permission (env : CPULoongArchState) (csr : Z)
    (is_write : bool) : bool :=
  (* If not in guest mode, allow all CSR access *)
  if negb (is_guest_mode env) then true
  (* In guest mode, check if LVZ is supported *)
  else if negb (has_lvz_capability env) then false
  else
    match decode_csr csr with
    (* Standard CSRs that guests can access *)
    | Some (CRMD | PRMD | EUEN | MISC | ECFG | ERA | BADV | BADI | EENTRY) => true
    (* TLB-related CSRs *)
    | Some (TLBIDX | TLBEHI | TLBELO0 | TLBELO1 | ASID | PGDL | PGDH | PGD
           | PWCL | PWCH | STLBPS | RVACFG) => true
    (* Timer-related CSRs - check guest config *)
    | Some (TID | TCFG | TVAL | CNTC) =>
        if is_write then truthy (FIELD_EX64 (CSR_GCFG env) CSR_GCFG_TITO)
        else truthy (FIELD_EX64 (CSR_GCFG env) CSR_GCFG_TITP)
    (* Timer clear always needs hypervisor intervention *)
    | Some TICLR => false
    (* Interrupt-related CSRs - check guest config *)
    | Some ESTAT =>
        if is_write then truthy (FIELD_EX64 (CSR_GCFG env) CSR_GCFG_SITO)
        else truthy (FIELD_EX64 (CSR_GCFG env) CSR_GCFG_SITP)
    (* Configuration CSRs: read-only for guests *)
    | Some (CPUID | PRCFG1 | PRCFG2 | PRCFG3) => negb is_write
    (* Save registers *)
    | Some (SAVE _) => true
    (* LLB control *)
    | Some LLBCTL => true
    (* Privileged CSRs that require VM exit *)
    | Some (TLBRENTRY | TLBRBADV | TLBRERA | TLBRSAVE | TLBRELO0 | TLBRELO1
           | TLBREHI | TLBRPRMD | MERRCTL | MERRINFO1 | MERRINFO2 | MERRENTRY
           | MERRERA | MERRSAVE | CTAG) => false
    (* Direct mapping windows *)
    | Some (DMW _) => true
    (* Implementation dependent CSRs *)
    | Some (IMPCTL1 | IMPCTL2) => false
    (* Debug CSRs *)
    | Some (DBG | DERA | DSAVE) => false
    (* Unknown CSR, deny access *)
    | None => false
    end.

(** Trigger VM exit for CSR access that requires hypervisor intervention:
    [csr], [is_write] and [val] are cast to void. *)
Definition trigger_csr_vm_exit {A} (csr : Z) (is_write : bool) (val : Z) : M A :=
  (* Set VM mode to exit to hypervisor *)
  modify (fun env =>
    with_CSR_GSTAT (FIELD_DP64 (CSR_GSTAT env) CSR_GSTAT_VM 0) env) ;;
  (* Generate hypervisor exception *)
  do_raise_exception EXCCODE_HVC.



(** The registers whose [case] in [helper_csrwr_with_lvz] is
    [old_val = env->CSR_x; env->CSR_x = val; return old_val]. *)
Definition csrwr_direct (r : csr_reg) : bool :=
  match r with
  | CRMD | PRMD | EUEN | MISC | ECFG | ERA | BADV | BADI | EENTRY
  | TLBIDX | TLBEHI | TLBELO0 | TLBELO1 | PGDL | PGDH | PGD | PWCL | PWCH
  | STLBPS | RVACFG | TID | CNTC | LLBCTL | IMPCTL1 | IMPCTL2
  | SAVE _ | DMW _ => true
  | _ => false
  end.

Definition helper_csrwr_with_lvz (val : Z) (csr : Z) : M Z :=
  env <- get ;;
  (* Check access permission *)
  if negb (check_csr_access_permission env csr true)
  then trigger_csr_vm_exit csr true val
  else
    match decode_csr csr with
    (* Handle special CSRs that need custom logic *)
    | Some ESTAT => helper_csrwr_estat val
    | Some ASID => helper_csrwr_asid val
    | Some TCFG => helper_csrwr_tcfg val
    | Some TICLR => helper_csrwr_ticlr val
    (* Standard CSR writes *)
    | Some r =>
        if csrwr_direct r then modify (set_CSR r val) ;; ret (CSR env r)
        else (* Unknown CSR, trigger VM exit *) trigger_csr_vm_exit csr true val
    | None => trigger_csr_vm_exit csr true val
    end.


(** ** LVZ instruction helpers *)

(** Helper function to get guest CSR pointer: the field [GCSR_r], or NULL. *)
Definition get_guest_csr_ptr (csr : Z) : option csr_reg := in_array (gcsr_of csr).

(** Helper function to trigger VM exit; [reason] and [info] are not used. *)
Definition trigger_vm_exit {A} (reason info : Z) : M A :=
  (* Set VM exit reason in GSTAT register *)
  modify (fun env =>
    with_CSR_GSTAT (FIELD_DP64 (CSR_GSTAT env) CSR_GSTAT_VM 0) env) ;;
  (* Generate a hypervisor exception to exit to hypervisor *)
  do_raise_exception EXCCODE_HVC.

Definition helper_gcsrrd (csr : Z) : M Z :=
  env <- get ;;
  (* Check if we're in guest mode *)
  if negb (is_guest_mode env) then do_raise_exception EXCCODE_IPE
  else
    match get_guest_csr_ptr csr with
    | None => (* Invalid CSR number, trigger VM exit *)
        trigger_vm_exit VMEXIT_CSRR csr
    | Some r =>
        match r with
        | ESTAT =>
            (* Check guest interrupt configuration: SITP bit *)
            if negb (truthy (Z.land (CSR_GCFG env) (Z.shiftl 1 6)))
            then trigger_vm_exit VMEXIT_CSRR csr else ret (GCSR env r)
        | TCFG | TVAL =>
            (* TITP bit *)
            if negb (truthy (Z.land (CSR_GCFG env) (Z.shiftl 1 8)))
            then trigger_vm_exit VMEXIT_TIMER csr else ret (GCSR env r)
        | _ => ret (GCSR env r)
        end
    end.

Definition helper_gcsrwr (val : Z) (csr : Z) : M Z :=
  env <- get ;;
  if negb (is_guest_mode env) then do_raise_exception EXCCODE_IPE
  else
    match get_guest_csr_ptr csr with
    | None => trigger_vm_exit VMEXIT_CSRW csr
    | Some r =>
        let old_val := GCSR env r in
        let write := modify (set_GCSR r val) ;; ret old_val in
        match r with
        | ESTAT =>
            (* SITO bit *)
            if negb (truthy (Z.land (CSR_GCFG env) (Z.shiftl 1 7)))
            then trigger_vm_exit VMEXIT_CSRW csr else write
        | TCFG =>
            (* TITO bit *)
            if negb (truthy (Z.land (CSR_GCFG env) (Z.shiftl 1 9)))
            then trigger_vm_exit VMEXIT_TIMER csr else write
        | TICLR =>
            (* Timer clear always needs special handling *)
            trigger_vm_exit VMEXIT_TIMER csr
        | _ => write
        end
    end.

Definition helper_gcsrxchg (rj rd : Z) (csr : Z) : M Z :=
  env <- get ;;
  if negb (is_guest_mode env) then do_raise_exception EXCCODE_IPE
  else
    match get_guest_csr_ptr csr with
    | None => trigger_vm_exit VMEXIT_CSRX csr
    | Some r =>
        let old_val := GCSR env r in
        let new_val := Z.lor (Z.land old_val (Z.lnot rd)) (Z.land rj rd) in
        let write := modify (set_GCSR r new_val) ;; ret old_val in
        match r with
        | ESTAT =>
            if negb (truthy (Z.land (CSR_GCFG env) (Z.shiftl 1 7)))
            then trigger_vm_exit VMEXIT_CSRX csr else write
        | TCFG =>
            if negb (truthy (Z.land (CSR_GCFG env) (Z.shiftl 1 9)))
            then trigger_vm_exit VMEXIT_TIMER csr else write
        | _ => write
        end
    end.

Definition helper_gtlbclr : M unit :=
  env <- get ;;
  if negb (is_guest_mode env) then do_raise_exception EXCCODE_IPE
  else if negb (has_lvz_capability env) then do_raise_exception EXCCODE_IPE
  else (* In guest mode, TLB operations may need VM exit *)
    trigger_vm_exit VMEXIT_TLB 0.

Definition helper_gtlbflush : M unit :=
  env <- get ;;
  if negb (is_guest_mode env) then do_raise_exception EXCCODE_IPE
  else if negb (has_lvz_capability env) then do_raise_exception EXCCODE_IPE
  else trigger_vm_exit VMEXIT_TLB 1.

Definition helper_gtlbwr : M unit :=
  env <- get ;;
  if negb (is_guest_mode env) then do_raise_exception EXCCODE_IPE
  else if negb (has_lvz_capability env) then do_raise_exception EXCCODE_IPE
  else
    let index := u32 (FIELD_EX64 (GCSR env TLBIDX) CSR_TLBIDX_INDEX) in
    if LOONGARCH_TLB_MAX <=? index then ret tt
    else
      let gid := get_guest_id env in
      (* Write guest CSR values to TLB entry with guest ID *)
      let misc := 0 in
      let misc := FIELD_DP64 misc TLB_MISC_VPPN (Z.shiftr (GCSR env TLBEHI) 13) in
      let misc := FIELD_DP64 misc TLB_MISC_ASID
                             (FIELD_EX64 (GCSR env ASID) CSR_ASID_ASID) in
      let misc := FIELD_DP64 misc TLB_MISC_GID gid in
      let misc := FIELD_DP64 misc TLB_MISC_PS
                             (FIELD_EX64 (GCSR env TLBIDX) CSR_TLBIDX_PS) in
      let misc := FIELD_DP64 misc TLB_MISC_E 1 in
      tlb_store index (mkTLB misc (GCSR env TLBELO0) (GCSR env TLBELO1)).

(** Hypervisor call helper *)
Definition helper_hvcl (code : Z) : M unit :=
  env <- get ;;
  (* Check if we're in guest mode *)
  if negb (is_guest_mode env) then
    (* HVCL from host mode should be treated as illegal instruction *)
    do_raise_exception EXCCODE_INE
  (* Check if LVZ capability is available *)
  else if negb (has_lvz_capability env) then do_raise_exception EXCCODE_INE
  else
    (* HVCL instruction causes a VM exit to hypervisor with hypercall reason *)
    trigger_vm_exit VMEXIT_HYPERCALL code.

End Model.

(** ** A layout to run the helpers on

    The field positions and CSR numbers of the LoongArch register layout
    (status bits [VM], [PVM] at bits 0 and 1 and [GID] at bits 16..23 of
    [GSTAT]; [SITP], [SITO], [TITP], [TITO] at bits 6..9 of [GCFG], the bits
    the guest CSR helpers test by number).  No theorem assumes it: it is the
    layout at which examples are evaluated. *)
Definition la_csr_of (n : Z) : option csr_reg :=
  if (48 <=? n) && (n <=? 63) then Some (SAVE (n - 48))
  else if (384 <=? n) && (n <=? 387) then Some (DMW (n - 384))
  else
    match n with
    | 0 => Some CRMD | 1 => Some PRMD | 2 => Some EUEN | 3 => Some MISC
    | 4 => Some ECFG | 5 => Some ESTAT | 6 => Some ERA | 7 => Some BADV
    | 8 => Some BADI | 12 => Some EENTRY
    | 16 => Some TLBIDX | 17 => Some TLBEHI | 18 => Some TLBELO0
    | 19 => Some TLBELO1 | 24 => Some ASID | 25 => Some PGDL | 26 => Some PGDH
    | 27 => Some PGD | 28 => Some PWCL | 29 => Some PWCH | 30 => Some STLBPS
    | 31 => Some RVACFG | 32 => Some CPUID | 33 => Some PRCFG1
    | 34 => Some PRCFG2 | 35 => Some PRCFG3
    | 64 => Some TID | 65 => Some TCFG | 66 => Some TVAL | 67 => Some CNTC
    | 68 => Some TICLR | 96 => Some LLBCTL | 128 => Some IMPCTL1
    | 129 => Some IMPCTL2
    | 136 => Some TLBRENTRY | 137 => Some TLBRBADV | 138 => Some TLBRERA
    | 139 => Some TLBRSAVE | 140 => Some TLBRELO0 | 141 => Some TLBRELO1
    | 142 => Some TLBREHI | 143 => Some TLBRPRMD
    | 144 => Some MERRCTL | 145 => Some MERRINFO1 | 146 => Some MERRINFO2
    | 147 => Some MERRENTRY | 148 => Some MERRERA | 149 => Some MERRSAVE
    | 152 => Some CTAG
    | 1280 => Some DBG | 1281 => Some DERA | 1282 => Some DSAVE
    | _ => None
    end.

Definition la_layout : CsrLayout := {|
  CSR_GSTAT_VM := FIELD 0 1;
  CSR_GSTAT_PVM := FIELD 1 1;
  CSR_GSTAT_GID := FIELD 16 8;
  CSR_GCFG_SITP := FIELD 6 1;
  CSR_GCFG_SITO := FIELD 7 1;
  CSR_GCFG_TITP := FIELD 8 1;
  CSR_GCFG_TITO := FIELD 9 1;
  CSR_MISC_VA32 := FIELD 0 4;
  CSR_PRMD_PPLV := FIELD 0 2;
  CSR_PRMD_PIE := FIELD 2 1;
  CSR_ESTAT_ECODE := FIELD 16 6;
  CSR_TLBIDX_INDEX := FIELD 0 12;
  CSR_TLBIDX_PS := FIELD 24 6;
  CSR_TLBIDX_NE := FIELD 31 1;
  CSR_TLBEHI_32_VPPN := FIELD 13 19;
  CSR_TLBEHI_64_VPPN := FIELD 13 35;
  TLBENTRY_V := FIELD 0 1;
  TLBENTRY_G := FIELD 6 1;
  CSR_ASID_ASID := FIELD 0 10;
  CSR_STLBPS_PS := FIELD 0 5;
  CSR_TLBRERA_ISTLBR := FIELD 0 1;
  CSR_TLBRERA_PC := FIELD 2 62;
  CSR_TLBREHI_PS := FIELD 0 6;
  CSR_TLBREHI_32_VPPN := FIELD 13 19;
  CSR_TLBREHI_64_VPPN := FIELD 13 35;
  CSR_TLBRPRMD_PPLV := FIELD 0 2;
  CSR_TLBRPRMD_PIE := FIELD 2 1;
  TARGET_VIRT_ADDR_SPACE_BITS := 48;
  csr_of := la_csr_of;
  gcsr_of := la_csr_of
|}.

(** Sample states: a 64-bit CPU with LVZ ([cpucfg[1].ARCH = 2],
    [cpucfg[2].LVZ = 1]), every register zero, the TLB empty, but for
    [GSTAT] and what [host] / [guest] list. *)
Definition no_entry : LoongArchTLB := mkTLB 0 0 0.
Definition sample_cpucfg (i : Z) : Z :=
  if i =? 1 then 2 else if i =? 2 then 1024 else 0.
Definition sample_env (gstat : Z) (csrs gcsrs : list (csr_reg * Z))
    (entries : list (Z * LoongArchTLB)) : CPULoongArchState :=
  mkEnv 4096 sample_cpucfg
        (fold_right (fun p b => bank_set b (fst p) (snd p)) (fun _ => 0) csrs)
        gstat 0 0 0
        (fold_right (fun p b => bank_set b (fst p) (snd p)) (fun _ => 0) gcsrs)
        0 0 (mkCtx 0 0 0 0 0 false) true 0
        (fold_right (fun p a => tlb_set a (fst p) (snd p)) (fun _ => no_entry) entries)
        0 0 1.

(** In guest mode as guest 3 ([GSTAT.VM = 1], [GSTAT.GID = 3], [PVM = 0]),
    the timer interrupt pending. *)
Definition guest3 : Z := 3 * 2 ^ 16 + 1.

(** ** Vocabulary of the statements *)

(** Everything but the exit bookkeeping ([GSTAT] and [vm_exit_ctx]) is the
    same in two states. *)
Definition same_outside_exit (e e' : CPULoongArchState) : Prop :=
  pc e' = pc e /\ cpucfg e' = cpucfg e /\ CSR e' = CSR e /\
  CSR_GCFG e' = CSR_GCFG e /\ CSR_GINTC e' = CSR_GINTC e /\
  CSR_GCNTC e' = CSR_GCNTC e /\ GCSR e' = GCSR e /\
  CSR_GTLBC e' = CSR_GTLBC e /\ CSR_TRGP e' = CSR_TRGP e /\
  lvz_enabled e' = lvz_enabled e /\ lladdr e' = lladdr e /\
  tlb e' = tlb e /\ cpu_index e' = cpu_index e /\
  constant_timer_ticks e' = constant_timer_ticks e /\
  timer_irq e' = timer_irq e.

Section Vocabulary.
Context `{L : CsrLayout}.

(** [env'] is in the mode of [env], and has the entries of [env] wherever
    the entry does not belong to the context [env] runs in. *)
Definition foreign_kept (env env' : CPULoongArchState) : Prop :=
  cpucfg env' = cpucfg env /\ CSR_GSTAT env' = CSR_GSTAT env /\
  forall i, tlb_entry_matches_guest env (tlb env i) = false ->
            tlb env' i = tlb env i.

(** [GSTAT.VM] and [GSTAT.PVM] in the state a helper leaves. *)
Definition vm_pvm_after {A} (o : outcome A) : option (Z * Z) :=
  option_map (fun env => (FIELD_EX64 (CSR_GSTAT env) CSR_GSTAT_VM,
                          FIELD_EX64 (CSR_GSTAT env) CSR_GSTAT_PVM))
             (final_env o).

End Vocabulary.

(** What a helper leaves in [env->tlb[i]] and in the exit context. *)
Definition entry_after {A} (o : outcome A) (i : Z) : option LoongArchTLB :=
  option_map (fun env => tlb env i) (final_env o).
Definition exit_reason_after {A} (o : outcome A) : option Z :=
  option_map (fun env => exit_reason (vm_exit_ctx env)) (final_env o).
Definition raised {A} (o : outcome A) : option Z :=
  match o with
  | Raised x _ => Some x
  | _ => None
  end.

(** ** Sample states *)

(** Guest 3 with [TLBIDX.INDEX = 5]; entry 5 of the TLB is enabled and
    tagged with GID 7. *)
Definition guest3_env : CPULoongArchState :=
  sample_env guest3 [] [(TLBIDX, 5)] [(5, mkTLB (7 * 2 ^ 54 + 1) 0 0)].

(** Host mode in a TLB refill ([TLBRERA.ISTLBR = 1]) with [TLBIDX.INDEX = 5],
    [TLBELO0 = 5] and [TLBRELO0 = 9]. *)
Definition refill_env : CPULoongArchState :=
  sample_env 0 [(TLBRERA, 1); (TLBIDX, 5); (TLBELO0, 5); (TLBRELO0, 9)] [] [].

(** Host mode in a TLB refill with [STLBPS.PS = TLBIDX.PS = TLBREHI.PS = 14],
    [TLBEHI = 0] and an address in [TLBREHI] whose bits 15..22 are [0xab]. *)
Definition refill_fill_env : CPULoongArchState :=
  sample_env 0 [(TLBRERA, 1); (STLBPS, 14); (TLBIDX, 14 * 2 ^ 24);
                (TLBEHI, 0); (TLBREHI, 171 * 2 ^ 15 + 14)] [] [].

(** Host mode and guest mode with [TLBIDX.INDEX = LOONGARCH_TLB_MAX]. *)
Definition index_2112_env : CPULoongArchState :=
  sample_env 0 [(TLBIDX, 2112)] [] [].
Definition guest_index_2112_env : CPULoongArchState :=
  sample_env guest3 [] [(TLBIDX, 2112)] [].

(** Host mode with [PRMD.PPLV = 3], [PRMD.PIE = 1] and a scratch value. *)
Definition host_env : CPULoongArchState :=
  sample_env 0 [(PRMD, 7); (SAVE 0, 11)] [] [].

(** * Further vocabulary *)

(** An entry with [TLB_MISC.E] cleared, as the invalidating helpers leave
    it. *)
Definition tlb_clear_entry (t : LoongArchTLB) : LoongArchTLB :=
  mkTLB (FIELD_DP64 (tlb_misc t) TLB_MISC_E 0) (tlb_entry0 t) (tlb_entry1 t).

(** [env'] differs from [env] in the TLB array at most. *)
Definition only_tlb (env env' : CPULoongArchState) : Prop :=
  env' = with_tlb (tlb env') env.

(** The entries [helper_tlbclr] and [helper_tlbflush] visit when
    [TLBIDX.INDEX] is [index]: the STLB entry of each of the 8 ways in the
    set of [index], or every MTLB entry, or none. *)
Definition tlb_line (index k : Z) : bool :=
  if index <? LOONGARCH_STLB
  then (0 <=? k) && (k <? LOONGARCH_STLB) && (k mod 256 =? index mod 256)
  else if index <? LOONGARCH_TLB_MAX
       then (LOONGARCH_STLB <=? k) && (k <? LOONGARCH_TLB_MAX)
       else false.

(** The registers [helper_vm_save_state] and [helper_vm_restore_state]
    copy between the banks. *)
Definition vm_state_regs : list csr_reg :=
  [CRMD; ASID; PGDL; PGDH; BADV; BADI; EENTRY; TLBIDX; TLBEHI; TLBELO0; TLBELO1].

(** * More of the helpers *)

(** [deposit32] and [FIELD_DP32] on a [uint32_t]. *)
Definition deposit32 (value start length fieldval : Z) : Z :=
  let mask := u32 (Z.shiftl (Z.ones length) start) in
  Z.lor (Z.land (u32 value) (u32 (Z.lnot mask)))
        (Z.land (u32 (Z.shiftl (u32 fieldval) start)) mask).
Definition FIELD_DP32 (storage : Z) (f : Field) (val : Z) : Z :=
  deposit32 storage (f_shift f) (f_len f) val.

(** [ARRAY_SIZE(env->cpucfg)]. *)
Definition cpucfg_size : Z := 21.

(** ** op_helper.c: helpers without state *)

Definition helper_bitswap (v : Z) : Z :=
  let v := Z.lor (Z.land (Z.shiftr v 1) 0x5555555555555555)
                 (u64 (Z.shiftl (Z.land v 0x5555555555555555) 1)) in
  let v := Z.lor (Z.land (Z.shiftr v 2) 0x3333333333333333)
                 (u64 (Z.shiftl (Z.land v 0x3333333333333333) 2)) in
  let v := Z.lor (Z.land (Z.shiftr v 4) 0x0F0F0F0F0F0F0F0F)
                 (u64 (Z.shiftl (Z.land v 0x0F0F0F0F0F0F0F0F) 4)) in
  v.

(** ** Inline predicates of cpu.h on TLB entries *)

Definition tlb_entry_matches_gid (misc gid : Z) : bool :=
  let entry_gid := u8 (FIELD_EX64 misc TLB_MISC_GID) in
  (* Also check if entry is enabled *)
  (entry_gid =? gid) && truthy (FIELD_EX64 misc TLB_MISC_E).

(** Guest page TLB entries have non-zero GID *)
Definition is_guest_page_tlb_entry (misc : Z) : bool :=
  negb (FIELD_EX64 misc TLB_MISC_GID =? 0).

Section MoreModel.
Context `{L : CsrLayout}.

(** ** op_helper.c *)

Definition helper_cpucfg (rj : Z) : M Z :=
  env <- get ;;
  ret (if cpucfg_size <=? rj then 0 else cpucfg env rj).

(** Enhanced CPUCFG helper with virtualization support *)
Definition helper_cpucfg_vm (rj : Z) : M Z :=
  env <- get ;;
  if is_guest_execution_context env then
    (* In guest mode, some CPUCFG registers may be virtualized *)
    if rj =? 2 then
      let host_cfg := if cpucfg_size <=? rj then 0 else cpucfg env rj in
      (* Hide certain features from guest *)
      ret (FIELD_DP32 host_cfg CPUCFG2_LVZ 0)
    else if 15 <? rj then
      (* Trigger VM exit for restricted CPUCFG access *)
      helper_vm_exit VMEXIT_CPUCFG ;; ret 0
    else ret (if cpucfg_size <=? rj then 0 else cpucfg env rj)
  else ret (if cpucfg_size <=? rj then 0 else cpucfg env rj).

(** Guest exception handling with virtualization support *)
Definition helper_guest_exception (exception epc : Z) : M unit :=
  env <- get ;;
  if is_guest_execution_context env then
    (* Update guest PRMD with current state *)
    modify (fun env =>
      let crmd := CSR env CRMD in
      let prmd := GCSR env PRMD in
      let prmd := FIELD_DP64 prmd CSR_PRMD_PPLV (FIELD_EX64 crmd CSR_CRMD_PLV) in
      let prmd := FIELD_DP64 prmd CSR_PRMD_PIE (FIELD_EX64 crmd CSR_CRMD_IE) in
      set_GCSR PRMD prmd env) ;;
    (* Save exception return address in guest ERA *)
    modify (set_GCSR ERA epc) ;;
    (* Update guest exception status *)
    modify (fun env =>
      set_GCSR ESTAT (FIELD_DP64 (GCSR env ESTAT) CSR_ESTAT_ECODE exception) env) ;;
    (* Clear guest interrupt enable *)
    modify (fun env => set_CSR CRMD (FIELD_DP64 (CSR env CRMD) CSR_CRMD_IE 0) env)
  else
    (* Host mode exception handling - use standard mechanism *)
    do_raise_exception exception.

(** Virtual machine context switch helper.  [tlb_flush_by_mmuidx] drops
    translations the emulator caches; that cache is not part of
    [CPULoongArchState]. *)
Definition helper_vm_context_switch (target_gid : Z) : M unit :=
  env <- get ;;
  if is_hypervisor_execution_context env then
    let current_gid := get_guest_id env in
    if negb (current_gid =? target_gid) then
      (* Update GID in GSTAT *)
      modify (fun env =>
        with_CSR_GSTAT (FIELD_DP64 (CSR_GSTAT env) CSR_GSTAT_GID target_gid) env)
    else ret tt
  else ret tt.

(** ** cpu_helper.c: state save and restore *)

(** Virtual Machine State Save for context switch *)
Definition helper_vm_save_state : M unit :=
  env <- get ;;
  if negb (is_guest_execution_context env) then ret tt
  else
    (* Save guest CSR state to GCSR registers *)
    modify (fun env => set_GCSR CRMD (CSR env CRMD) env) ;;
    modify (fun env => set_GCSR ASID (CSR env ASID) env) ;;
    modify (fun env => set_GCSR PGDL (CSR env PGDL) env) ;;
    modify (fun env => set_GCSR PGDH (CSR env PGDH) env) ;;
    modify (fun env => set_GCSR BADV (CSR env BADV) env) ;;
    modify (fun env => set_GCSR BADI (CSR env BADI) env) ;;
    modify (fun env => set_GCSR EENTRY (CSR env EENTRY) env) ;;
    modify (fun env => set_GCSR TLBIDX (CSR env TLBIDX) env) ;;
    modify (fun env => set_GCSR TLBEHI (CSR env TLBEHI) env) ;;
    modify (fun env => set_GCSR TLBELO0 (CSR env TLBELO0) env) ;;
    modify (fun env => set_GCSR TLBELO1 (CSR env TLBELO1) env).

(** Virtual Machine State Restore for context switch *)
Definition helper_vm_restore_state : M unit :=
  env <- get ;;
  if negb (is_hypervisor_execution_context env) then ret tt
  else
    (* Restore guest CSR state from GCSR registers *)
    modify (fun env => set_CSR CRMD (GCSR env CRMD) env) ;;
    modify (fun env => set_CSR ASID (GCSR env ASID) env) ;;
    modify (fun env => set_CSR PGDL (GCSR env PGDL) env) ;;
    modify (fun env => set_CSR PGDH (GCSR env PGDH) env) ;;
    modify (fun env => set_CSR BADV (GCSR env BADV) env) ;;
    modify (fun env => set_CSR BADI (GCSR env BADI) env) ;;
    modify (fun env => set_CSR EENTRY (GCSR env EENTRY) env) ;;
    modify (fun env => set_CSR TLBIDX (GCSR env TLBIDX) env) ;;
    modify (fun env => set_CSR TLBEHI (GCSR env TLBEHI) env) ;;
    modify (fun env => set_CSR TLBELO0 (GCSR env TLBELO0) env) ;;
    modify (fun env => set_CSR TLBELO1 (GCSR env TLBELO1) env).

(** ** cpu_helper.c: the search without guest IDs *)

(** One probe of [loongarch_tlb_search]; shifts as in [search_probe]. *)
Definition tlb_search_probe (vaddr csr_asid : Z) (mtlb : bool)
    (stlb_ps idx : Z) : M (option Z) :=
  t <- tlb_load idx ;;
  let tlb_e := u8 (FIELD_EX64 (tlb_misc t) TLB_MISC_E) in
  if negb (truthy tlb_e) then ret None
  else
    let tlb_vppn := FIELD_EX64 (tlb_misc t) TLB_MISC_VPPN in
    let tlb_ps := if mtlb then u8 (FIELD_EX64 (tlb_misc t) TLB_MISC_PS) else stlb_ps in
    let tlb_asid := u16 (FIELD_EX64 (tlb_misc t) TLB_MISC_ASID) in
    let tlb_g := u8 (FIELD_EX64 (tlb_entry0 t) TLBENTRY_G) in
    let compare_shift := tlb_ps + 1 - R_TLB_MISC_VPPN_SHIFT in
    let vpn := Z.shiftr (Z.land vaddr TARGET_VIRT_MASK) (tlb_ps + 1) in
    if ((tlb_g =? 1) || (tlb_asid =? csr_asid)) &&
       (vpn =? Z.shiftr tlb_vppn compare_shift)
    then ret (Some idx) else ret None.

Definition loongarch_tlb_search (vaddr : Z) : M (option Z) :=
  env <- get ;;
  let csr_asid := u16 (FIELD_EX64 (CSR env ASID) CSR_ASID_ASID) in
  let stlb_ps := u8 (FIELD_EX64 (CSR env STLBPS) CSR_STLBPS_PS) in
  let vpn := Z.shiftr (Z.land vaddr TARGET_VIRT_MASK) (stlb_ps + 1) in
  let stlb_idx := u16 (Z.land vpn 255) in
  (* Search STLB *)
  r <- search_loop 0 8 (fun i =>
         tlb_search_probe vaddr csr_asid false stlb_ps (i * 256 + stlb_idx)) ;;
  match r with
  | Some index => ret (Some index)
  | None =>
      (* Search MTLB *)
      search_loop LOONGARCH_STLB LOONGARCH_TLB_MAX (fun i =>
        tlb_search_probe vaddr csr_asid true stlb_ps i)
  end.

(** ** Second-level translation: the context and the guest TLB *)

Definition prepare_vm_exit_context (fault_gpa fault_gva exit_reason access_type : Z)
  : M unit :=
  env <- get ;;
  if negb (is_guest_execution_context env) then ret tt
  else
    (* Prepare VM exit context information *)
    modify (fun env =>
      with_vm_exit_ctx
        (mkCtx fault_gpa fault_gva (get_guest_id env) exit_reason access_type
               (exit_reason =? VMEXIT_TLB)) env) ;;
    (* Store fault GPA in CSR_TRGP for hypervisor access *)
    modify (with_CSR_TRGP fault_gpa).

(** Trigger VM exit and switch to hypervisor *)
Definition loongarch_trigger_vm_exit (exit_reason fault_gpa fault_gva : Z) : M unit :=
  env <- get ;;
  if negb (is_guest_mode env) then ret tt
  else
    prepare_vm_exit_context fault_gpa fault_gva exit_reason 0 ;;
    (* Switch from Guest Mode to Host Mode *)
    modify (fun env =>
      with_CSR_GSTAT (FIELD_DP64 (CSR_GSTAT env) CSR_GSTAT_VM 0) env).

Definition clear_by_gid_cond (gid : Z) (env : CPULoongArchState) (i : Z)
    (t : LoongArchTLB) : bool :=
  tlb_entry_matches_gid (tlb_misc t) gid && is_guest_page_tlb_entry (tlb_misc t).

(** Clear all guest TLB entries for a specific GID *)
Definition loongarch_clear_guest_tlb_by_gid (gid : Z) : M unit :=
  for_loop 0 LOONGARCH_TLB_MAX (clear_if (clear_by_gid_cond gid)).

(** Flush all guest TLB entries for a specific GID *)
Definition loongarch_flush_guest_tlb_by_gid (gid : Z) : M unit :=
  loongarch_clear_guest_tlb_by_gid gid.

(** One probe of [loongarch_search_guest_tlb]. *)
Definition guest_tlb_probe (va gid i : Z) : M (option Z) :=
  t <- tlb_load i ;;
  if negb (tlb_entry_matches_gid (tlb_misc t) gid) then ret None
  else if negb (is_guest_page_tlb_entry (tlb_misc t)) then ret None
  else
    (* Check if VA matches this TLB entry *)
    let entry_vppn := FIELD_EX64 (tlb_misc t) TLB_MISC_VPPN in
    let ps := FIELD_EX64 (tlb_misc t) TLB_MISC_PS in
    let va_vppn := Z.shiftr va ps in
    if va_vppn =? entry_vppn then ret (Some i) else ret None.

(** Search guest TLB for a specific VA and GID: the index, or -1. *)
Definition loongarch_search_guest_tlb (va gid : Z) : M Z :=
  r <- search_loop 0 LOONGARCH_TLB_MAX (guest_tlb_probe va gid) ;;
  ret (match r with Some i => i | None => -1 end).

(** ** Guest TLB instruction helpers *)

(** The entry [helper_gtlbwr] and [helper_gtlbfill] build from the guest
    CSRs. *)
Definition guest_tlb_entry (env : CPULoongArchState) : LoongArchTLB :=
  let gid := get_guest_id env in
  let misc := 0 in
  let misc := FIELD_DP64 misc TLB_MISC_VPPN (Z.shiftr (GCSR env TLBEHI) 13) in
  let misc := FIELD_DP64 misc TLB_MISC_ASID
                         (FIELD_EX64 (GCSR env ASID) CSR_ASID_ASID) in
  let misc := FIELD_DP64 misc TLB_MISC_GID gid in
  let misc := FIELD_DP64 misc TLB_MISC_PS
                         (FIELD_EX64 (GCSR env TLBIDX) CSR_TLBIDX_PS) in
  let misc := FIELD_DP64 misc TLB_MISC_E 1 in
  mkTLB misc (GCSR env TLBELO0) (GCSR env TLBELO1).

(** One probe of [helper_gtlbsrch]. *)
Definition gtlbsrch_probe (gid vppn guest_asid i : Z) : M (option Z) :=
  t <- tlb_load i ;;
  (* Check if TLB entry matches guest criteria *)
  if truthy (Z.land (tlb_misc t) (Z.shiftl 1 54)) then (* Entry has GID *)
    let entry_gid := u8 (FIELD_EX64 (tlb_misc t) TLB_MISC_GID) in
    let entry_vppn := FIELD_EX64 (tlb_misc t) TLB_MISC_VPPN in
    let entry_asid := FIELD_EX64 (tlb_misc t) TLB_MISC_ASID in
    if (entry_gid =? gid) && (entry_vppn =? vppn) && (entry_asid =? guest_asid)
    then ret (Some i) else ret None
  else ret None.

(** Guest TLB search helper *)
Definition helper_gtlbsrch : M unit :=
  env <- get ;;
  if negb (is_guest_mode env) then do_raise_exception EXCCODE_IPE
  else if negb (has_lvz_capability env) then do_raise_exception EXCCODE_IPE
  else
    (* Get guest TLB search parameters from guest CSRs *)
    let ehi := GCSR env TLBEHI in
    let asid := GCSR env ASID in
    let gid := get_guest_id env in
    let vppn := Z.shiftr ehi 13 in
    let guest_asid := FIELD_EX64 asid CSR_ASID_ASID in
    r <- search_loop 0 LOONGARCH_TLB_MAX (gtlbsrch_probe gid vppn guest_asid) ;;
    (* Update guest TLBIDX with search result *)
    match r with
    | Some found_index =>
        modify (fun env =>
          set_GCSR TLBIDX (FIELD_DP64 (GCSR env TLBIDX) CSR_TLBIDX_INDEX found_index) env) ;;
        modify (fun env =>
          set_GCSR TLBIDX (FIELD_DP64 (GCSR env TLBIDX) CSR_TLBIDX_NE 0) env)
    | None =>
        modify (fun env =>
          set_GCSR TLBIDX (FIELD_DP64 (GCSR env TLBIDX) CSR_TLBIDX_NE 1) env)
    end.

(** Guest TLB read helper *)
Definition helper_gtlbrd : M unit :=
  env <- get ;;
  if negb (is_guest_mode env) then do_raise_exception EXCCODE_IPE
  else if negb (has_lvz_capability env) then do_raise_exception EXCCODE_IPE
  else
    let index := u32 (FIELD_EX64 (GCSR env TLBIDX) CSR_TLBIDX_INDEX) in
    if LOONGARCH_TLB_MAX <=? index then ret tt
    else
      let gid := get_guest_id env in
      t <- tlb_load index ;;
      (* Check if the TLB entry belongs to this guest *)
      if truthy (Z.land (tlb_misc t) (Z.shiftl 1 54)) then (* Entry has GID *)
        let entry_gid := u8 (FIELD_EX64 (tlb_misc t) TLB_MISC_GID) in
        if entry_gid =? gid then
          (* Read TLB entry into guest CSRs *)
          modify (set_GCSR TLBEHI
                    (u64 (Z.shiftl (FIELD_EX64 (tlb_misc t) TLB_MISC_VPPN) 13))) ;;
          modify (set_GCSR TLBELO0 (tlb_entry0 t)) ;;
          modify (set_GCSR TLBELO1 (tlb_entry1 t)) ;;
          modify (set_GCSR ASID (FIELD_EX64 (tlb_misc t) TLB_MISC_ASID))
        else ret tt
      else ret tt.

(** Guest TLB fill helper; [val] is what [qemu_guest_getrandom_nofail]
    delivered. *)
Definition helper_gtlbfill (val : Z) : M unit :=
  env <- get ;;
  if negb (is_guest_mode env) then do_raise_exception EXCCODE_IPE
  else if negb (has_lvz_capability env) then do_raise_exception EXCCODE_IPE
  else
    (* TLBFILL uses a random index in the STLB range *)
    let random_index := u32 val mod LOONGARCH_STLB in
    (* Fill TLB entry at random index *)
    tlb_store random_index (guest_tlb_entry env) ;;
    (* Update guest TLBIDX to reflect the filled index *)
    modify (fun env =>
      set_GCSR TLBIDX (FIELD_DP64 (GCSR env TLBIDX) CSR_TLBIDX_INDEX random_index) env).

End MoreModel.

(** ** More sample states *)

(** Host mode with one enabled MTLB entry, index 2050, for the 32 KiB page
    pair at virtual address [0x8000] ([PS = 14], [VPPN = 4], ASID 0). *)
Definition hit_env : CPULoongArchState :=
  sample_env 0 [] [] [(2050, mkTLB (14 * 2 ^ 48 + 4 * 2 ^ 13 + 1) 0 0)].

(** Host mode with [TLBIDX.NE = 1], [TLBIDX.INDEX = 5] and entry 5
    enabled. *)
Definition ne_env : CPULoongArchState :=
  sample_env 0 [(TLBIDX, 2 ^ 31 + 5)] [] [(5, mkTLB 1 7 9)].

(** The state [hit_env] on a CPU without LVZ ([cpucfg[2] = 0]). *)
Definition no_lvz_env : CPULoongArchState :=
  let e := hit_env in
  mkEnv (pc e) (fun i => if i =? 1 then 2 else 0) (CSR e) (CSR_GSTAT e)
        (CSR_GCFG e) (CSR_GINTC e) (CSR_GCNTC e) (GCSR e) (CSR_GTLBC e)
        (CSR_TRGP e) (vm_exit_ctx e) (lvz_enabled e) (lladdr e) (tlb e)
        (cpu_index e) (constant_timer_ticks e) (timer_irq e).

(** Guest 3 in guest mode with guest CSRs to write an entry from:
    [GCSR_TLBIDX.INDEX = 5], [GCSR_TLBEHI = 0x8000], [GCSR_TLBELO0 = 7],
    [GCSR_TLBELO1 = 9], [GCSR_ASID = 2]; host [EENTRY = 0x1000]. *)
Definition guest3_write_env : CPULoongArchState :=
  sample_env guest3 [(EENTRY, 4096); (SAVE 0, 11)]
    [(TLBIDX, 5); (TLBEHI, 32768); (TLBELO0, 7); (TLBELO1, 9); (ASID, 2)] [].

(** Guest 3 in guest mode at privilege level 3 with interrupts enabled
    ([CRMD.PLV = 3], [CRMD.IE = 1]), the PC at [0x1000]; the guest bank is
    zero. *)
Definition guest3_user_env : CPULoongArchState :=
  sample_env guest3 [(CRMD, 7)] [] [].



Section MoreVocabulary.
Context `{L : CsrLayout}.

(** The registers a VM exit and [ertn] exchange, read off the final
    state: [GCSR_PRMD.PPLV], [GCSR_PRMD.PIE], [GCSR_ERA],
    [GCSR_ESTAT.ECODE], and the host [CRMD.PLV] and [CRMD.IE]. *)
Definition mode_regs_after {A} (o : outcome A) : option (Z * Z * Z * Z * Z * Z) :=
  option_map (fun env => (FIELD_EX64 (GCSR env PRMD) CSR_PRMD_PPLV,
                          FIELD_EX64 (GCSR env PRMD) CSR_PRMD_PIE,
                          GCSR env ERA,
                          FIELD_EX64 (GCSR env ESTAT) CSR_ESTAT_ECODE,
                          FIELD_EX64 (CSR env CRMD) CSR_CRMD_PLV,
                          FIELD_EX64 (CSR env CRMD) CSR_CRMD_IE))
             (final_env o).

(** The state after [tlbwr] in which the registers [tlbrd] writes have been
    overwritten: the effective [TLBEHI], [TLBELO0] and [TLBELO1] hold
    [ehi], [lo0] and [lo1]. *)
Definition overwrite_tlb_regs (ehi lo0 lo1 : Z) (env : CPULoongArchState)
    : CPULoongArchState :=
  set_effective_csr_tlbelo1 lo1
    (set_effective_csr_tlbelo0 lo0 (set_effective_csr_tlbehi ehi env)).

End MoreVocabulary.
(** * Properties *)

Arguments FIELD_EX64 : simpl never.
Arguments FIELD_DP64 : simpl never.
Arguments FIELD_EX32 : simpl never.
Arguments bank_set : simpl never.
Arguments tlb_set : simpl never.
Arguments truthy : simpl never.
Arguments u8 : simpl never.
Arguments u16 : simpl never.
Arguments u32 : simpl never.
Arguments u64 : simpl never.
Arguments s32 : simpl never.
Arguments Z.shiftl : simpl never.
Arguments Z.shiftr : simpl never.
Arguments Z.land : simpl never.
Arguments Z.lor : simpl never.
Arguments Z.lnot : simpl never.
Arguments Z.ones : simpl never.
Arguments Z.rem : simpl never.
Arguments EXCCODE_HVC : simpl never.
Arguments EXCCODE_INE : simpl never.
Arguments EXCCODE_IPE : simpl never.

(** ** Bit fields *)

Ltac bits_step :=
  repeat first
    [ rewrite Z.land_spec | rewrite Z.lor_spec
    | rewrite Z.shiftr_spec by lia | rewrite Z.shiftl_spec by lia
    | rewrite Z.lnot_spec by lia | rewrite Z.testbit_ones by lia ].

Ltac bits_cases :=
  repeat match goal with
         | |- context [?a <=? ?b] => destruct (Z.leb_spec a b)
         | |- context [?a <? ?b] => destruct (Z.ltb_spec a b)
         end;
  simpl; try lia;
  rewrite ?andb_false_r, ?andb_true_r, ?orb_false_r, ?orb_true_r; try reflexivity.

Lemma extract_deposit_same value start length x :
  0 <= start -> 0 <= length ->
  extract64 (deposit64 value start length x) start length = Z.land x (Z.ones length).
Proof.
  intros Hs Hl. unfold extract64, deposit64.
  apply Z.bits_inj'. intros n Hn. bits_step.
  replace (n + start - start) with n by lia.
  bits_cases.
Qed.

Lemma extract_deposit_other value s1 l1 x s2 l2 :
  0 <= s1 -> 0 <= l1 -> 0 <= s2 -> 0 <= l2 ->
  s1 + l1 <= s2 \/ s2 + l2 <= s1 ->
  extract64 (deposit64 value s1 l1 x) s2 l2 = extract64 value s2 l2.
Proof.
  intros H1 H2 H3 H4 Hd. unfold extract64, deposit64.
  apply Z.bits_inj'. intros n Hn. bits_step.
  bits_cases.
Qed.

Lemma extract_range value start length :
  0 <= length -> 0 <= extract64 value start length < 2 ^ length.
Proof.
  intros Hl. unfold extract64. rewrite Z.land_ones by lia.
  apply Z.mod_pos_bound. apply Z.pow_pos_nonneg; lia.
Qed.

Lemma land_ones_small x n : 0 <= n -> 0 <= x < 2 ^ n -> Z.land x (Z.ones n) = x.
Proof. intros Hn Hx. rewrite Z.land_ones by lia. apply Z.mod_small; lia. Qed.

Lemma extract_as_mask value start length :
  0 <= start -> 0 <= length ->
  Z.shiftl (extract64 value start length) start =
  Z.land value (Z.shiftl (Z.ones length) start).
Proof.
  intros Hs Hl. unfold extract64.
  apply Z.bits_inj'. intros n Hn.
  rewrite Z.land_spec, !Z.shiftl_spec by lia.
  destruct (Z.ltb_spec n start).
  - rewrite !(Z.testbit_neg_r _ (n - start)) by lia. now rewrite andb_false_r.
  - bits_step. replace (n - start + start) with n by lia. reflexivity.
Qed.

Lemma field_wf_bounds f :
  field_wf f = true -> 0 <= f_shift f /\ 1 <= f_len f /\ f_shift f + f_len f <= 64.
Proof. unfold field_wf. rewrite !andb_true_iff, !Z.leb_le. tauto. Qed.

Lemma field_disjoint_spec f g :
  field_disjoint f g = true ->
  f_shift f + f_len f <= f_shift g \/ f_shift g + f_len g <= f_shift f.
Proof. unfold field_disjoint. rewrite orb_true_iff, !Z.leb_le. tauto. Qed.

Lemma FIELD_EX64_range s f :
  field_wf f = true -> 0 <= FIELD_EX64 s f < 2 ^ f_len f.
Proof.
  intros Hf. apply field_wf_bounds in Hf. apply extract_range. lia.
Qed.

Lemma FIELD_EX64_DP64 s f v :
  field_wf f = true -> FIELD_EX64 (FIELD_DP64 s f v) f = Z.land v (Z.ones (f_len f)).
Proof.
  intros Hf. apply field_wf_bounds in Hf.
  apply extract_deposit_same; lia.
Qed.

Lemma FIELD_EX64_DP64_small s f v :
  field_wf f = true -> 0 <= v < 2 ^ f_len f -> FIELD_EX64 (FIELD_DP64 s f v) f = v.
Proof.
  intros Hf Hv. rewrite FIELD_EX64_DP64 by assumption.
  apply field_wf_bounds in Hf. apply land_ones_small; lia.
Qed.

Lemma FIELD_EX64_DP64_other s f g v :
  field_wf f = true -> field_wf g = true ->
  field_disjoint f g = true \/ field_disjoint g f = true ->
  FIELD_EX64 (FIELD_DP64 s f v) g = FIELD_EX64 s g.
Proof.
  intros Hf Hg Hd. apply field_wf_bounds in Hf. apply field_wf_bounds in Hg.
  apply extract_deposit_other; try lia.
  destruct Hd as [Hd | Hd]; apply field_disjoint_spec in Hd; lia.
Qed.

Lemma FIELD_EX64_fits s f n :
  field_wf f = true -> f_len f <= n ->
  Z.land (FIELD_EX64 s f) (Z.ones n) = FIELD_EX64 s f.
Proof.
  intros Hf Hn. pose proof (FIELD_EX64_range s f Hf) as Hr.
  pose proof (field_wf_bounds f Hf) as Hb.
  apply land_ones_small; [lia|].
  assert (2 ^ f_len f <= 2 ^ n) by (apply Z.pow_le_mono_r; lia). lia.
Qed.

Lemma truthy_true x : truthy x = true <-> x <> 0.
Proof. unfold truthy. rewrite negb_true_iff, Z.eqb_neq. tauto. Qed.

Lemma truthy_false x : truthy x = false <-> x = 0.
Proof. unfold truthy. rewrite negb_false_iff, Z.eqb_eq. tauto. Qed.

Lemma one_bit_truthy s f :
  field_wf f = true -> f_len f = 1 -> truthy (FIELD_EX64 s f) = true ->
  FIELD_EX64 s f = 1.
Proof.
  intros Hf Hl Ht. apply truthy_true in Ht.
  pose proof (FIELD_EX64_range s f Hf) as Hr. rewrite Hl in Hr.
  change (2 ^ 1) with 2 in Hr. lia.
Qed.

(** ** Registers and TLB entries after an assignment *)

Lemma bank_set_same b r v : bank_set b r v r = v.
Proof. unfold bank_set. destruct (csr_reg_eq_dec r r); congruence. Qed.

Lemma bank_set_other b r r' v : r' <> r -> bank_set b r v r' = b r'.
Proof. unfold bank_set. destruct (csr_reg_eq_dec r' r); congruence. Qed.

Lemma tlb_set_same a i t : tlb_set a i t i = t.
Proof. unfold tlb_set. now rewrite Z.eqb_refl. Qed.

Lemma tlb_set_other a i j t : j <> i -> tlb_set a i t j = a j.
Proof. unfold tlb_set. intros H. apply Z.eqb_neq in H. now rewrite H. Qed.

Ltac bank :=
  repeat first
    [ rewrite bank_set_same
    | rewrite bank_set_other by discriminate ].

(** Running a helper: unfold the sequencing, keep the arithmetic folded. *)
Ltac run :=
  unfold bind, get, modify, ret, do_raise_exception; cbn beta iota.

Section Properties.
Context `{L : CsrLayout}.
Hypothesis layout_good : layout_ok = true.

Lemma layout_parts :
  forallb field_wf layout_fields = true /\
  forallb (fun p => field_disjoint (fst p) (snd p)) layout_disjoint = true /\
  layout_widths = true.
Proof.
  pose proof layout_good as H. unfold layout_ok in H.
  rewrite !andb_true_iff in H. tauto.
Qed.

Lemma layout_wf f : In f layout_fields -> field_wf f = true.
Proof.
  destruct layout_parts as [H _]. rewrite forallb_forall in H. apply H.
Qed.

Lemma layout_disj f g : In (f, g) layout_disjoint -> field_disjoint f g = true.
Proof.
  destruct layout_parts as [_ [H _]]. rewrite forallb_forall in H.
  intros Hin. apply (H _ Hin).
Qed.

Lemma layout_width_facts :
  f_len CSR_GSTAT_VM = 1 /\ f_len CSR_GSTAT_PVM = 1 /\ f_len CSR_GSTAT_GID = 8 /\
  f_len CSR_PRMD_PPLV = 2 /\ f_len CSR_PRMD_PIE = 1 /\
  f_len CSR_TLBRPRMD_PPLV = 2 /\ f_len CSR_TLBRPRMD_PIE = 1 /\
  5 <= f_len CSR_ESTAT_ECODE /\
  f_len CSR_TLBIDX_NE = 1 /\ f_len CSR_TLBIDX_INDEX <= 31 /\
  f_len CSR_TLBRERA_ISTLBR = 1 /\
  f_shift CSR_TLBEHI_64_VPPN = 13 /\ f_len CSR_TLBEHI_64_VPPN <= 35 /\
  f_shift CSR_TLBEHI_32_VPPN = 13 /\ f_len CSR_TLBEHI_32_VPPN <= 35.
Proof.
  destruct layout_parts as [_ [_ H]]. unfold layout_widths in H.
  rewrite !andb_true_iff, !Z.eqb_eq, !Z.leb_le in H. tauto.
Qed.

Ltac in_list := simpl; solve [ repeat first [ left; reflexivity | right ] ].
Ltac wf := solve [ reflexivity | apply layout_wf; in_list ].
Ltac disj :=
  solve [ left; reflexivity | right; reflexivity
        | left; apply layout_disj; in_list | right; apply layout_disj; in_list ].
Ltac fields :=
  repeat first
    [ rewrite FIELD_EX64_DP64_other by first [ wf | disj ]
    | rewrite FIELD_EX64_DP64 by wf ].

(** ** VM exit *)

Lemma guest_context_vm env :
  is_guest_execution_context env = true ->
  FIELD_EX64 (CSR_GSTAT env) CSR_GSTAT_VM = 1.
Proof.
  unfold is_guest_execution_context, is_guest_mode. rewrite !andb_true_iff.
  intros [_ [_ Hvm]]. apply one_bit_truthy; [wf | apply layout_width_facts | exact Hvm].
Qed.

Lemma vm_exit_cpu_post env reason :
  is_guest_execution_context env = true ->
  exists env',
    helper_vm_exit_cpu reason env = Raised EXCCODE_HVC env' /\
    FIELD_EX64 (CSR_GSTAT env') CSR_GSTAT_VM = 0 /\
    FIELD_EX64 (CSR_GSTAT env') CSR_GSTAT_PVM = FIELD_EX64 (CSR_GSTAT env) CSR_GSTAT_VM /\
    FIELD_EX64 (GCSR env' PRMD) CSR_PRMD_PPLV = FIELD_EX64 (CSR env CRMD) CSR_CRMD_PLV /\
    FIELD_EX64 (GCSR env' PRMD) CSR_PRMD_PIE = FIELD_EX64 (CSR env CRMD) CSR_CRMD_IE /\
    GCSR env' ERA = pc env /\
    FIELD_EX64 (GCSR env' ESTAT) CSR_ESTAT_ECODE = EXCCODE_HVC /\
    FIELD_EX64 (CSR env' CRMD) CSR_CRMD_PLV = 0 /\
    FIELD_EX64 (CSR env' CRMD) CSR_CRMD_IE = 0 /\
    reason = exit_reason (vm_exit_ctx env').
Proof.
  intros Hg. pose proof layout_width_facts as W.
  eexists. split.
  { unfold helper_vm_exit_cpu. run. rewrite Hg. cbn. reflexivity. }
  cbn. bank. fields.
  repeat split.
  - apply FIELD_EX64_fits; [wf | lia].
  - apply FIELD_EX64_fits; [wf | simpl; lia].
  - apply FIELD_EX64_fits; [wf | simpl; lia].
  - apply land_ones_small; [lia|].
    assert (2 ^ 5 <= 2 ^ f_len CSR_ESTAT_ECODE) by (apply Z.pow_le_mono_r; lia).
    change EXCCODE_HVC with 22. simpl in *. lia.
Qed.

Lemma vm_exit_with_fault_run env exit_reason gva gpa access :
  is_guest_execution_context env = true ->
  exists env1,
    helper_vm_exit_with_fault exit_reason gva gpa access env =
    helper_vm_exit_cpu exit_reason env1 /\
    is_guest_execution_context env1 = true /\
    CSR_GSTAT env1 = CSR_GSTAT env /\ CSR env1 CRMD = CSR env CRMD /\
    pc env1 = pc env.
Proof.
  intros Hg. unfold helper_vm_exit_with_fault. run. rewrite Hg. cbn.
  destruct ((exit_reason =? VMEXIT_MMIO) || (exit_reason =? VMEXIT_TLB));
    cbn; eexists; (split; [reflexivity|]); cbn; bank; auto.
Qed.

(** X24: in guest execution context the VM-exit controller
    ([helper_vm_exit_cpu], also when entered through
    [helper_vm_exit_with_fault]) raises [EXCCODE_HVC] leaving
    [GCSR_PRMD.PPLV] and [GCSR_PRMD.PIE] equal to the [CRMD.PLV] and
    [CRMD.IE] it found, the PC in [GCSR_ERA], [EXCCODE_HVC] in
    [GCSR_ESTAT.ECODE], and host [CRMD.PLV] and [CRMD.IE] zero. *)
Theorem vm_exit_saves_guest_context env exit_reason gva gpa access o :
  is_guest_execution_context env = true ->
  o = helper_vm_exit_cpu exit_reason env \/
  o = helper_vm_exit_with_fault exit_reason gva gpa access env ->
  exists env',
    o = Raised EXCCODE_HVC env' /\
    FIELD_EX64 (GCSR env' PRMD) CSR_PRMD_PPLV = FIELD_EX64 (CSR env CRMD) CSR_CRMD_PLV /\
    FIELD_EX64 (GCSR env' PRMD) CSR_PRMD_PIE = FIELD_EX64 (CSR env CRMD) CSR_CRMD_IE /\
    GCSR env' ERA = pc env /\
    FIELD_EX64 (GCSR env' ESTAT) CSR_ESTAT_ECODE = EXCCODE_HVC /\
    FIELD_EX64 (CSR env' CRMD) CSR_CRMD_PLV = 0 /\
    FIELD_EX64 (CSR env' CRMD) CSR_CRMD_IE = 0.
Proof.
  intros Hg [-> | ->].
  - destruct (vm_exit_cpu_post env exit_reason Hg) as [env' H].
    exists env'. tauto.
  - destruct (vm_exit_with_fault_run env exit_reason gva gpa access Hg)
      as [env1 [-> [Hg1 [_ [Hc Hp]]]]].
    destruct (vm_exit_cpu_post env1 exit_reason Hg1) as [env' H].
    exists env'. rewrite <- Hc, <- Hp. tauto.
Qed.

(** ** Exception return *)


(** ** Traps that bypass the controller *)

Lemma guest_mode_lvz env : is_guest_mode env = true -> has_lvz_capability env = true.
Proof. unfold is_guest_mode. rewrite andb_true_iff. tauto. Qed.

Lemma clear_vm_same_outside env :
  same_outside_exit env
    (with_CSR_GSTAT (FIELD_DP64 (CSR_GSTAT env) CSR_GSTAT_VM 0) env).
Proof. unfold same_outside_exit. cbn. tauto. Qed.

Lemma clear_vm_reads_zero s : FIELD_EX64 (FIELD_DP64 s CSR_GSTAT_VM 0) CSR_GSTAT_VM = 0.
Proof. rewrite FIELD_EX64_DP64 by wf. apply Z.land_0_l. Qed.

(** X25: in guest mode [hvcl code] clears [GSTAT.VM] and raises
    [EXCCODE_HVC], with the same final state whatever [code] is, and
    outside [GSTAT] and the exit context nothing changes.  Outside guest
    mode, in particular without LVZ, it raises [EXCCODE_INE] and the state
    is as before: no VM exit. *)
Theorem hvcl_exit_or_illegal env code :
  (is_guest_mode env = true ->
   exists env',
     helper_hvcl code env = Raised EXCCODE_HVC env' /\
     FIELD_EX64 (CSR_GSTAT env') CSR_GSTAT_VM = 0 /\
     same_outside_exit env env' /\
     forall code', helper_hvcl code' env = helper_hvcl code env) /\
  (is_guest_mode env = false \/ has_lvz_capability env = false ->
   helper_hvcl code env = Raised EXCCODE_INE env).
Proof.
  split.
  - intros Hg. pose proof (guest_mode_lvz env Hg) as Hl.
    eexists. split; [|split; [|split]].
    + unfold helper_hvcl, trigger_vm_exit. run. rewrite Hg, Hl. cbn. reflexivity.
    + cbn. apply clear_vm_reads_zero.
    + apply clear_vm_same_outside.
    + intros code'. unfold helper_hvcl, trigger_vm_exit. run. reflexivity.
  - intros Hn.
    assert (Hg : is_guest_mode env = false).
    { destruct Hn as [Hn | Hn]; [exact Hn|].
      unfold is_guest_mode. now rewrite Hn. }
    unfold helper_hvcl. run. rewrite Hg. reflexivity.
Qed.

(** X26: a guest write to [TICLR] is trapped: it clears [GSTAT.VM] and
    raises [EXCCODE_HVC] without running the write; outside [GSTAT] and the
    exit context nothing changes, in particular neither bank nor the timer
    interrupt, and the final state is the same whatever value is
    written. *)
Theorem guest_ticlr_write_traps env csr val :
  is_guest_mode env = true ->
  decode_csr csr = Some TICLR ->
  exists env',
    helper_csrwr_with_lvz val csr env = Raised EXCCODE_HVC env' /\
    FIELD_EX64 (CSR_GSTAT env') CSR_GSTAT_VM = 0 /\
    same_outside_exit env env' /\
    timer_irq env' = timer_irq env /\
    forall val', helper_csrwr_with_lvz val' csr env = helper_csrwr_with_lvz val csr env.
Proof.
  intros Hg Hc. pose proof (guest_mode_lvz env Hg) as Hl.
  assert (Hp : check_csr_access_permission env csr true = false).
  { unfold check_csr_access_permission. now rewrite Hg, Hl, Hc. }
  eexists. split; [|split; [|split; [|split]]].
  - unfold helper_csrwr_with_lvz, trigger_csr_vm_exit. run. rewrite Hp. cbn. reflexivity.
  - cbn. apply clear_vm_reads_zero.
  - apply clear_vm_same_outside.
  - reflexivity.
  - intros val'. unfold helper_csrwr_with_lvz, trigger_csr_vm_exit. run.
    rewrite Hp. reflexivity.
Qed.

(** The traps of [trigger_vm_exit] leave [GSTAT.PVM] as it was: unlike the
    controller ([vm_exit_cpu_post]) they do not copy [GSTAT.VM] into it. *)
Lemma clear_vm_keeps_pvm s :
  FIELD_EX64 (FIELD_DP64 s CSR_GSTAT_VM 0) CSR_GSTAT_PVM = FIELD_EX64 s CSR_GSTAT_PVM.
Proof. now fields. Qed.

Lemma trap_keeps_pvm env code :
  is_guest_mode env = true ->
  let post (o : outcome unit) :=
    exists env', o = Raised EXCCODE_HVC env' /\
      FIELD_EX64 (CSR_GSTAT env') CSR_GSTAT_VM = 0 /\
      FIELD_EX64 (CSR_GSTAT env') CSR_GSTAT_PVM = FIELD_EX64 (CSR_GSTAT env) CSR_GSTAT_PVM in
  post (helper_hvcl code env) /\ post (helper_gtlbclr env) /\ post (helper_gtlbflush env).
Proof.
  intros Hg post. pose proof (guest_mode_lvz env Hg) as Hl.
  repeat split; eexists;
    (split; [unfold helper_hvcl, helper_gtlbclr, helper_gtlbflush, trigger_vm_exit;
             run; rewrite Hg, ?Hl; cbn; reflexivity
            | cbn; split; [apply clear_vm_reads_zero | apply clear_vm_keeps_pvm]]).
Qed.

(** ** The TLB window *)

Lemma u8_range x : 0 <= u8 x < 256.
Proof. unfold u8. apply Z.mod_pos_bound. reflexivity. Qed.

Lemma u8_small x : 0 <= x < 256 -> u8 x = x.
Proof. unfold u8. apply Z.mod_small. Qed.

Lemma s32_small x : 0 <= x < 2 ^ 31 -> s32 x = x.
Proof.
  intros H. unfold s32, u32. rewrite Z.mod_small by lia.
  destruct (Z.ltb_spec x (2 ^ 31)); lia.
Qed.

Lemma tlbidx_index_range s :
  0 <= FIELD_EX64 s CSR_TLBIDX_INDEX < 2 ^ 31.
Proof.
  pose proof layout_width_facts as W.
  assert (Hw : field_wf CSR_TLBIDX_INDEX = true) by wf.
  pose proof (FIELD_EX64_range s _ Hw) as Hr.
  pose proof (field_wf_bounds _ Hw) as Hb.
  assert (2 ^ f_len CSR_TLBIDX_INDEX <= 2 ^ 31) by (apply Z.pow_le_mono_r; lia).
  lia.
Qed.

Lemma tlbidx_index_int s :
  s32 (FIELD_EX64 s CSR_TLBIDX_INDEX) = FIELD_EX64 s CSR_TLBIDX_INDEX.
Proof. apply s32_small, tlbidx_index_range. Qed.

Lemma in_bounds_iff i : tlb_in_bounds i = true <-> 0 <= i < LOONGARCH_TLB_MAX.
Proof. unfold tlb_in_bounds. rewrite andb_true_iff, Z.leb_le, Z.ltb_lt. tauto. Qed.

Lemma out_of_bounds_high i : LOONGARCH_TLB_MAX <= i -> tlb_in_bounds i = false.
Proof.
  intros H. unfold tlb_in_bounds. apply andb_false_iff. right.
  apply Z.ltb_ge. exact H.
Qed.

Lemma current_guest_id_range env : 0 <= get_current_guest_id env < 256.
Proof.
  unfold get_current_guest_id, get_guest_id.
  destruct (is_guest_mode env); [apply u8_range | lia].
Qed.

(** What [fill_tlb_entry] stores. *)
Lemma fill_tlb_entry_post index env :
  tlb_in_bounds index = true ->
  let refill := truthy (FIELD_EX64 (CSR env TLBRERA) CSR_TLBRERA_ISTLBR) in
  exists t,
    fill_tlb_entry index env = Done tt (with_tlb (tlb_set (tlb env) index t) env) /\
    FIELD_EX64 (tlb_misc t) TLB_MISC_E = 1 /\
    tlb_entry_matches_guest env t = true /\
    tlb_entry0 t = (if refill then CSR env TLBRELO0 else get_effective_csr_tlbelo0 env) /\
    tlb_entry1 t = (if refill then CSR env TLBRELO1 else get_effective_csr_tlbelo1 env) /\
    (refill = false ->
     FIELD_EX64 (tlb_misc t) TLB_MISC_VPPN =
     Z.land (FIELD_EX64 (get_effective_csr_tlbehi env)
                        (if is_la64 env then CSR_TLBEHI_64_VPPN else CSR_TLBEHI_32_VPPN))
            (Z.ones 35)).
Proof.
  intros Hb. cbv zeta. unfold fill_tlb_entry, tlb_load, tlb_store. run. rewrite Hb.
  cbn. eexists. split; [reflexivity|].
  cbn. unfold tlb_entry_matches_guest.
  pose proof (current_guest_id_range env) as Hgid.
  destruct (has_lvz_capability env); cbn; fields;
    destruct (LOONGARCH_STLB <=? index); fields;
    (split; [reflexivity|]);
    (split; [try reflexivity|]);
    try (rewrite land_ones_small by (simpl; lia);
         rewrite u8_small by lia; apply Z.eqb_refl);
    (split; [reflexivity|]); (split; [reflexivity|]);
    intros Hr; rewrite Hr; destruct (is_la64 env); reflexivity.
Qed.

Lemma guest_mode_set_effective r v env :
  is_guest_mode (set_effective_csr r v env) = is_guest_mode env.
Proof. unfold set_effective_csr. destruct (is_guest_mode env) eqn:H; exact H. Qed.

Lemma get_set_effective_same r v env :
  get_effective_csr r (set_effective_csr r v env) = v.
Proof.
  unfold get_effective_csr. rewrite guest_mode_set_effective.
  unfold set_effective_csr.
  destruct (is_guest_mode env); cbn; apply bank_set_same.
Qed.

Lemma get_set_effective_other r r' v env :
  r' <> r ->
  get_effective_csr r' (set_effective_csr r v env) = get_effective_csr r' env.
Proof.
  intros Hne. unfold get_effective_csr. rewrite guest_mode_set_effective.
  unfold set_effective_csr.
  destruct (is_guest_mode env); cbn; apply bank_set_other; exact Hne.
Qed.

Lemma get_effective_with_tlb r a env :
  get_effective_csr r (with_tlb a env) = get_effective_csr r env.
Proof. reflexivity. Qed.

Arguments get_effective_csr : simpl never.
Arguments set_effective_csr : simpl never.
Arguments is_guest_mode : simpl never.
Arguments has_lvz_capability : simpl never.
Arguments is_la64 : simpl never.
Arguments tlb_entry_matches_guest : simpl never.
Arguments get_current_guest_id : simpl never.

Ltac eff :=
  unfold get_effective_csr_asid, get_effective_csr_tlbehi,
    get_effective_csr_tlbelo0, get_effective_csr_tlbelo1,
    get_effective_csr_tlbidx, set_effective_csr_tlbidx,
    set_effective_csr_tlbehi, set_effective_csr_tlbelo0,
    set_effective_csr_tlbelo1, set_effective_csr_asid in *.

Ltac eff_simpl :=
  repeat first
    [ rewrite guest_mode_set_effective
    | rewrite get_set_effective_same
    | rewrite get_set_effective_other by discriminate
    | rewrite get_effective_with_tlb ].

(** C10 (the code at the failing inputs): with [TLBIDX.INDEX] at or above
    [LOONGARCH_TLB_MAX], [helper_tlbwr] skips only the invalidation and then
    accesses [env->tlb[index]] outside the array, with [NE] set as well as
    clear; [helper_gtlbwr] returns without touching the state. *)
Theorem tlbwr_index_unchecked env :
  let index := FIELD_EX64 (get_effective_csr_tlbidx env) CSR_TLBIDX_INDEX in
  LOONGARCH_TLB_MAX <= index ->
  helper_tlbwr env = OutOfBounds index /\
  (is_guest_mode env = true -> helper_gtlbwr env = Done tt env).
Proof.
  cbv zeta. intros Hi. pose proof (tlbidx_index_range (get_effective_csr_tlbidx env)) as Hr.
  split.
  - unfold helper_tlbwr. run. rewrite tlbidx_index_int.
    destruct (Z.ltb_spec (FIELD_EX64 (get_effective_csr_tlbidx env) CSR_TLBIDX_INDEX)
                         LOONGARCH_TLB_MAX) as [Hlt | _]; [lia|].
    cbn. unfold tlb_clear_e, fill_tlb_entry, tlb_load. run.
    rewrite (out_of_bounds_high _ Hi).
    destruct (truthy _); reflexivity.
  - intros Hg. unfold helper_gtlbwr. run.
    rewrite Hg, (guest_mode_lvz env Hg). cbn.
    eff. unfold get_effective_csr in Hi, Hr. rewrite Hg in Hi, Hr.
    unfold u32. rewrite Z.mod_small by lia.
    assert (Hle : (LOONGARCH_TLB_MAX <=? FIELD_EX64 (GCSR env TLBIDX) CSR_TLBIDX_INDEX) = true)
      by (apply Z.leb_le; exact Hi).
    change LOONGARCH_TLB_MAX with 2112 in Hle. rewrite Hle. reflexivity.
Qed.

Lemma get_random_tlb_range val low high :
  0 <= low -> low <= high -> high < 2 ^ 31 ->
  low <= get_random_tlb val low high <= high.
Proof.
  intros Hl Hlh Hh. unfold get_random_tlb.
  assert (H32 : 2 ^ 31 < 2 ^ 32) by reflexivity.
  assert (Hn : u32 (high - low + 1) = high - low + 1).
  { unfold u32. apply Z.mod_small. lia. }
  rewrite Hn.
  assert (Hm : 0 <= u32 val mod (high - low + 1) < high - low + 1)
    by (apply Z.mod_pos_bound; lia).
  set (m := u32 val mod (high - low + 1)) in *.
  unfold u32. rewrite (Z.mod_small (m + low)) by lia. lia.
Qed.

Lemma land_255_range x : 0 <= Z.land x 255 < 256.
Proof.
  change 255 with (Z.ones 8). rewrite Z.land_ones by lia.
  apply Z.mod_pos_bound. reflexivity.
Qed.

Lemma tlbfill_index_in_bounds val env :
  0 <= tlbfill_index val env < LOONGARCH_TLB_MAX.
Proof.
  unfold tlbfill_index.
  pose proof (get_random_tlb_range val 0 7) as H8.
  pose proof (get_random_tlb_range val LOONGARCH_STLB (LOONGARCH_TLB_MAX - 1)) as H64.
  unfold LOONGARCH_TLB_MAX, LOONGARCH_STLB, LOONGARCH_MTLB in *.
  specialize (H8 ltac:(lia) ltac:(lia) ltac:(lia)).
  specialize (H64 ltac:(lia) ltac:(lia) ltac:(lia)).
  destruct (_ =? _); [|lia].
  match goal with |- context [Z.land ?a 255] =>
    pose proof (land_255_range a) as Hl end.
  lia.
Qed.

Lemma tlbfill_writes val env :
  exists env',
    helper_tlbfill val env = Done tt env' /\
    (forall j, j <> tlbfill_index val env -> tlb env' j = tlb env j) /\
    FIELD_EX64 (tlb_misc (tlb env' (tlbfill_index val env))) TLB_MISC_E = 1.
Proof.
  assert (Hin : tlb_in_bounds (tlbfill_index val env) = true)
    by (apply in_bounds_iff, tlbfill_index_in_bounds).
  destruct (fill_tlb_entry_post _ env Hin) as [t [Hfill [He _]]].
  eexists. split; [|split].
  - unfold helper_tlbfill, invalidate_tlb_entry, tlb_load. run. rewrite Hin. cbn.
    exact Hfill.
  - intros j Hj. cbn. apply tlb_set_other. exact Hj.
  - cbn. rewrite tlb_set_same. exact He.
Qed.

(** C8 (amended): [tlbfill] writes one entry, enabled, and leaves the others
    as they were.  The page size and the address that place it are those of
    [TLBREHI] when [TLBRERA.ISTLBR] is set, those of the effective
    [TLBIDX.PS] and [TLBEHI] otherwise: with the page size equal to
    [STLBPS.PS] the index is [way * 256 + (VPN & 0xff)] for a way in
    [0 .. 7], otherwise it is an MTLB index in [2048 .. 2111]. *)
Theorem tlbfill_placement env val :
  let refill := truthy (FIELD_EX64 (CSR env TLBRERA) CSR_TLBRERA_ISTLBR) in
  let entryhi := if refill then CSR env TLBREHI else get_effective_csr_tlbehi env in
  let pagesize :=
    if refill then u16 (FIELD_EX64 (CSR env TLBREHI) CSR_TLBREHI_PS)
    else u16 (FIELD_EX64 (get_effective_csr_tlbidx env) CSR_TLBIDX_PS) in
  let stlb_ps := u16 (FIELD_EX64 (CSR env STLBPS) CSR_STLBPS_PS) in
  let vpn :=
    Z.shiftr (Z.land entryhi
                (u64 (Z.lnot (MAKE_64BIT_MASK 0 (f_shift CSR_TLBEHI_64_VPPN)))))
             (stlb_ps + 1) in
  exists index env',
    helper_tlbfill val env = Done tt env' /\
    (forall j, j <> index -> tlb env' j = tlb env j) /\
    FIELD_EX64 (tlb_misc (tlb env' index)) TLB_MISC_E = 1 /\
    (pagesize = stlb_ps ->
     exists way, 0 <= way <= 7 /\ index = way * 256 + Z.land vpn 255) /\
    (pagesize <> stlb_ps -> LOONGARCH_STLB <= index < LOONGARCH_TLB_MAX).
Proof.
  cbv zeta.
  destruct (tlbfill_writes val env) as [env' [Hrun [Hk He]]].
  exists (tlbfill_index val env), env'.
  split; [exact Hrun|]. split; [exact Hk|]. split; [exact He|].
  unfold tlbfill_index.
  pose proof (get_random_tlb_range val 0 7) as H8.
  pose proof (get_random_tlb_range val LOONGARCH_STLB (LOONGARCH_TLB_MAX - 1)) as H64.
  unfold LOONGARCH_TLB_MAX, LOONGARCH_STLB, LOONGARCH_MTLB in *.
  specialize (H8 ltac:(lia) ltac:(lia) ltac:(lia)).
  specialize (H64 ltac:(lia) ltac:(lia) ltac:(lia)).
  destruct (Z.eqb_spec
    (if truthy (FIELD_EX64 (CSR env TLBRERA) CSR_TLBRERA_ISTLBR)
     then u16 (FIELD_EX64 (CSR env TLBREHI) CSR_TLBREHI_PS)
     else u16 (FIELD_EX64 (get_effective_csr_tlbidx env) CSR_TLBIDX_PS))
    (u16 (FIELD_EX64 (CSR env STLBPS) CSR_STLBPS_PS))) as [He' | Hne].
  - split.
    + intros _. exists (get_random_tlb val 0 7). split; [lia | reflexivity].
    + intros Hne. contradiction.
  - split.
    + intros He'. contradiction.
    + intros _. lia.
Qed.

Lemma matches_guest_ext env env' t :
  cpucfg env' = cpucfg env -> CSR_GSTAT env' = CSR_GSTAT env ->
  tlb_entry_matches_guest env' t = tlb_entry_matches_guest env t.
Proof.
  intros Hc Hs.
  unfold tlb_entry_matches_guest, get_current_guest_id, is_guest_mode,
    get_guest_id, has_lvz_capability.
  now rewrite Hc, Hs.
Qed.

Lemma tlbwr_fills env :
  let index := FIELD_EX64 (get_effective_csr_tlbidx env) CSR_TLBIDX_INDEX in
  index < LOONGARCH_TLB_MAX ->
  helper_tlbwr env =
  (if truthy (FIELD_EX64 (get_effective_csr_tlbidx env) CSR_TLBIDX_NE)
   then tlb_clear_e index env else fill_tlb_entry index env) /\
  tlb_in_bounds index = true.
Proof.
  cbv zeta. intros Hi.
  pose proof (tlbidx_index_range (get_effective_csr_tlbidx env)) as Hr.
  assert (Hb : tlb_in_bounds (FIELD_EX64 (get_effective_csr_tlbidx env) CSR_TLBIDX_INDEX) = true)
    by (apply in_bounds_iff; lia).
  split; [|exact Hb].
  unfold helper_tlbwr, invalidate_tlb_entry, tlb_load. run. rewrite tlbidx_index_int.
  apply Z.ltb_lt in Hi. rewrite Hi. cbn. rewrite Hb. cbn.
  destruct (truthy _); reflexivity.
Qed.

(** What [fill_tlb_entry] stores outside a TLB refill: the effective
    [TLBELO0] and [TLBELO1], the page number of the effective [TLBEHI] and
    the low ten bits of the effective [ASID]. *)
Lemma fill_tlb_entry_stores index env :
  tlb_in_bounds index = true ->
  FIELD_EX64 (CSR env TLBRERA) CSR_TLBRERA_ISTLBR = 0 ->
  exists t,
    fill_tlb_entry index env = Done tt (with_tlb (tlb_set (tlb env) index t) env) /\
    FIELD_EX64 (tlb_misc t) TLB_MISC_E = 1 /\
    tlb_entry_matches_guest env t = true /\
    tlb_entry0 t = get_effective_csr_tlbelo0 env /\
    tlb_entry1 t = get_effective_csr_tlbelo1 env /\
    FIELD_EX64 (tlb_misc t) TLB_MISC_VPPN =
      Z.land (FIELD_EX64 (get_effective_csr_tlbehi env)
                (if is_la64 env then CSR_TLBEHI_64_VPPN else CSR_TLBEHI_32_VPPN))
             (Z.ones 35) /\
    FIELD_EX64 (tlb_misc t) TLB_MISC_ASID =
      Z.land (u16 (FIELD_EX64 (get_effective_csr_asid env) CSR_ASID_ASID)) (Z.ones 10).
Proof.
  intros Hb Hr. unfold fill_tlb_entry, tlb_load, tlb_store. run. rewrite Hb.
  cbv beta iota. rewrite Hr. change (truthy 0) with false. cbv beta iota.
  eexists. split; [reflexivity|].
  cbn [tlb_misc tlb_entry0 tlb_entry1]. unfold tlb_entry_matches_guest.
  pose proof (current_guest_id_range env) as Hgid.
  destruct (has_lvz_capability env); cbv beta iota delta [negb];
    cbn [tlb_misc]; fields;
    destruct (Z.leb_spec LOONGARCH_STLB index); fields;
    (split; [reflexivity|]);
    (split; [try reflexivity;
             rewrite land_ones_small by (simpl; lia);
             rewrite u8_small by lia; apply Z.eqb_refl|]);
    (split; [reflexivity|]); (split; [reflexivity|]);
    (split; [destruct (is_la64 env); reflexivity | reflexivity]).
Qed.

(** The page number kept in an entry, shifted back, is the [TLBEHI] it was
    taken from with the bits outside the page-number field cleared. *)
Lemma vppn_back_to_tlbehi ehi F :
  field_wf F = true -> f_shift F = 13 -> f_len F <= 35 ->
  u64 (Z.shiftl (Z.land (FIELD_EX64 ehi F) (Z.ones 35)) R_TLB_MISC_VPPN_SHIFT) =
  Z.land ehi (field_mask F).
Proof.
  intros Hwf Hsh Hlen.
  rewrite FIELD_EX64_fits by assumption.
  pose proof (FIELD_EX64_range ehi F Hwf) as Hrg.
  pose proof (field_wf_bounds F Hwf) as Hbd.
  unfold field_mask. rewrite Hsh. change R_TLB_MISC_VPPN_SHIFT with 13.
  unfold FIELD_EX64 in *. rewrite Hsh in *.
  rewrite <- extract_as_mask by lia.
  unfold u64. apply Z.mod_small.
  rewrite Z.shiftl_mul_pow2 by lia.
  assert (2 ^ f_len F * 2 ^ 13 <= 2 ^ 64).
  { rewrite <- Z.pow_add_r by lia. apply Z.pow_le_mono_r; lia. }
  nia.
Qed.

(** On an enabled entry of the current guest [tlbrd] copies the entry into
    the effective [TLBEHI], [TLBELO0] and [TLBELO1], clears [TLBIDX.NE] and
    leaves the effective [ASID] as it is. *)
Lemma tlbrd_reads_entry env :
  let index := FIELD_EX64 (get_effective_csr_tlbidx env) CSR_TLBIDX_INDEX in
  let t := tlb env index in
  index < LOONGARCH_TLB_MAX ->
  tlb_entry_matches_guest env t = true ->
  FIELD_EX64 (tlb_misc t) TLB_MISC_E = 1 ->
  exists env',
    helper_tlbrd env = Done tt env' /\
    get_effective_csr_tlbehi env' =
      u64 (Z.shiftl (FIELD_EX64 (tlb_misc t) TLB_MISC_VPPN) R_TLB_MISC_VPPN_SHIFT) /\
    get_effective_csr_tlbelo0 env' = tlb_entry0 t /\
    get_effective_csr_tlbelo1 env' = tlb_entry1 t /\
    get_effective_csr_asid env' = get_effective_csr_asid env /\
    FIELD_EX64 (get_effective_csr_tlbidx env') CSR_TLBIDX_NE = 0.
Proof.
  cbv zeta. intros Hi Hm He.
  pose proof (tlbidx_index_range (get_effective_csr_tlbidx env)) as Hr.
  assert (Hb : tlb_in_bounds (FIELD_EX64 (get_effective_csr_tlbidx env) CSR_TLBIDX_INDEX) = true)
    by (apply in_bounds_iff; lia).
  eexists. split.
  { unfold helper_tlbrd, tlb_load. run. rewrite tlbidx_index_int, Hb. cbn.
    rewrite Hm. cbn.
    unfold u8 at 2. rewrite He. change (truthy (1 mod 2 ^ 8)) with true. cbn.
    unfold set_tlbidx_field. run. reflexivity. }
  eff. eff_simpl.
  split; [reflexivity|]. split; [reflexivity|]. split; [reflexivity|].
  split; [reflexivity|]. fields. reflexivity.
Qed.

(** Overwriting the effective [TLBEHI], [TLBELO0] and [TLBELO1] changes
    neither the mode, nor [TLBIDX], nor the TLB. *)
Lemma overwrite_tlb_regs_keeps ehi lo0 lo1 env :
  let env' := overwrite_tlb_regs ehi lo0 lo1 env in
  get_effective_csr_tlbidx env' = get_effective_csr_tlbidx env /\
  tlb env' = tlb env /\
  (forall t, tlb_entry_matches_guest env' t = tlb_entry_matches_guest env t).
Proof.
  cbv zeta. unfold overwrite_tlb_regs. eff.
  split; [now rewrite !get_set_effective_other by discriminate|].
  assert (K : forall r v e,
             tlb (set_effective_csr r v e) = tlb e /\
             cpucfg (set_effective_csr r v e) = cpucfg e /\
             CSR_GSTAT (set_effective_csr r v e) = CSR_GSTAT e).
  { intros r v e. unfold set_effective_csr.
    destruct (is_guest_mode e); repeat split; reflexivity. }
  split.
  - rewrite (proj1 (K _ _ _)), (proj1 (K _ _ _)). apply K.
  - intros t. apply matches_guest_ext.
    + rewrite (proj1 (proj2 (K _ _ _))), (proj1 (proj2 (K _ _ _))). apply K.
    + rewrite (proj2 (proj2 (K _ _ _))), (proj2 (proj2 (K _ _ _))). apply K.
Qed.

(** C7 (amended): with [TLBRERA.ISTLBR] clear, [TLBIDX.NE] clear and
    [TLBIDX.INDEX] below [LOONGARCH_TLB_MAX], [tlbwr] stores the effective
    [TLBELO0] and [TLBELO1], the page number of the effective [TLBEHI] and
    the [ASID] in the entry at [TLBIDX.INDEX], enabled, and touches no
    other entry; [tlbrd] after it leaves in the effective [TLBELO0],
    [TLBELO1] and [ASID] the values they had, and in the effective [TLBEHI]
    its virtual page number, the bits outside that field cleared, and
    reports a valid entry ([NE] clear).  The values come from the entry:
    [tlbrd] restores [TLBEHI], [TLBELO0] and [TLBELO1] also when they were
    overwritten after the [tlbwr]. *)
Theorem tlbwr_tlbrd_roundtrip env :
  let index := FIELD_EX64 (get_effective_csr_tlbidx env) CSR_TLBIDX_INDEX in
  let vppn := if is_la64 env then CSR_TLBEHI_64_VPPN else CSR_TLBEHI_32_VPPN in
  index < LOONGARCH_TLB_MAX ->
  FIELD_EX64 (get_effective_csr_tlbidx env) CSR_TLBIDX_NE = 0 ->
  FIELD_EX64 (CSR env TLBRERA) CSR_TLBRERA_ISTLBR = 0 ->
  exists env1 env2,
    helper_tlbwr env = Done tt env1 /\
    helper_tlbrd env1 = Done tt env2 /\
    is_guest_mode env1 = is_guest_mode env /\
    FIELD_EX64 (get_effective_csr_tlbidx env1) CSR_TLBIDX_INDEX = index /\
    get_effective_csr_tlbehi env2 =
      Z.land (get_effective_csr_tlbehi env) (field_mask vppn) /\
    get_effective_csr_tlbelo0 env2 = get_effective_csr_tlbelo0 env /\
    get_effective_csr_tlbelo1 env2 = get_effective_csr_tlbelo1 env /\
    get_effective_csr_asid env2 = get_effective_csr_asid env /\
    FIELD_EX64 (get_effective_csr_tlbidx env2) CSR_TLBIDX_NE = 0 /\
    FIELD_EX64 (tlb_misc (tlb env1 index)) TLB_MISC_E = 1 /\
    tlb_entry0 (tlb env1 index) = get_effective_csr_tlbelo0 env /\
    tlb_entry1 (tlb env1 index) = get_effective_csr_tlbelo1 env /\
    FIELD_EX64 (tlb_misc (tlb env1 index)) TLB_MISC_ASID =
      Z.land (u16 (FIELD_EX64 (get_effective_csr_asid env) CSR_ASID_ASID)) (Z.ones 10) /\
    (forall j, j <> index -> tlb env1 j = tlb env j) /\
    forall ehi lo0 lo1, exists env3,
      helper_tlbrd (overwrite_tlb_regs ehi lo0 lo1 env1) = Done tt env3 /\
      get_effective_csr_tlbehi env3 =
        Z.land (get_effective_csr_tlbehi env) (field_mask vppn) /\
      get_effective_csr_tlbelo0 env3 = get_effective_csr_tlbelo0 env /\
      get_effective_csr_tlbelo1 env3 = get_effective_csr_tlbelo1 env /\
      FIELD_EX64 (get_effective_csr_tlbidx env3) CSR_TLBIDX_NE = 0.
Proof.
  cbv zeta. intros Hi Hne Hr.
  pose proof layout_width_facts as W.
  destruct (tlbwr_fills env Hi) as [Hwr Hb].
  rewrite Hne in Hwr. change (truthy 0) with false in Hwr. cbv iota in Hwr.
  destruct (fill_tlb_entry_stores _ env Hb Hr) as [t [Hfill [He [Hm [H0 [H1 [Hv Ha]]]]]]].
  rewrite Hfill in Hwr.
  set (index := FIELD_EX64 (get_effective_csr_tlbidx env) CSR_TLBIDX_INDEX) in *.
  set (env1 := with_tlb (tlb_set (tlb env) index t) env) in *.
  assert (Hidx : get_effective_csr_tlbidx env1 = get_effective_csr_tlbidx env) by reflexivity.
  assert (Ht : tlb env1 index = t) by apply tlb_set_same.
  assert (Hm1 : tlb_entry_matches_guest env1 t = true).
  { rewrite <- Hm. apply matches_guest_ext; reflexivity. }
  assert (Hback :
    u64 (Z.shiftl (FIELD_EX64 (tlb_misc t) TLB_MISC_VPPN) R_TLB_MISC_VPPN_SHIFT) =
    Z.land (get_effective_csr_tlbehi env)
      (field_mask (if is_la64 env then CSR_TLBEHI_64_VPPN else CSR_TLBEHI_32_VPPN))).
  { rewrite Hv. apply vppn_back_to_tlbehi; destruct (is_la64 env); first [wf | lia]. }
  destruct (tlbrd_reads_entry env1) as [env2 [Hrd [Rh [R0 [R1 [Ra Rn]]]]]].
  { rewrite Hidx. exact Hi. }
  { rewrite Hidx. fold index. rewrite Ht. exact Hm1. }
  { rewrite Hidx. fold index. rewrite Ht. exact He. }
  rewrite Hidx in Rh, R0, R1. fold index in Rh, R0, R1. rewrite Ht in Rh, R0, R1.
  exists env1, env2.
  split; [exact Hwr|]. split; [exact Hrd|]. split; [reflexivity|].
  split; [rewrite Hidx; reflexivity|].
  split; [rewrite Rh; exact Hback|].
  split; [rewrite R0; exact H0|]. split; [rewrite R1; exact H1|].
  split; [exact Ra|]. split; [exact Rn|].
  rewrite Ht.
  split; [exact He|]. split; [exact H0|]. split; [exact H1|]. split; [exact Ha|].
  split; [intros j Hj; apply tlb_set_other; exact Hj|].
  intros ehi lo0 lo1.
  destruct (overwrite_tlb_regs_keeps ehi lo0 lo1 env1) as [Kidx [Ktlb Km]].
  destruct (tlbrd_reads_entry (overwrite_tlb_regs ehi lo0 lo1 env1))
    as [env3 [Hrd3 [Sh [S0 [S1 [_ Sn]]]]]].
  { rewrite Kidx, Hidx. exact Hi. }
  { rewrite Kidx, Hidx, Ktlb, Km. fold index. rewrite Ht. exact Hm1. }
  { rewrite Kidx, Hidx, Ktlb. fold index. rewrite Ht. exact He. }
  rewrite Kidx, Hidx, Ktlb in Sh, S0, S1. fold index in Sh, S0, S1.
  rewrite Ht in Sh, S0, S1.
  exists env3.
  split; [exact Hrd3|]. split; [rewrite Sh; exact Hback|].
  split; [rewrite S0; exact H0|]. split; [rewrite S1; exact H1 | exact Sn].
Qed.

(** ** The helpers that clear entries *)

Lemma foreign_kept_refl env : foreign_kept env env.
Proof. unfold foreign_kept. auto. Qed.

Lemma clear_if_frame cond idx env0 env :
  (forall e k t, cond e k t = true -> tlb_entry_matches_guest e t = true) ->
  tlb_in_bounds idx = true ->
  foreign_kept env0 env ->
  exists env', clear_if cond idx env = Done tt env' /\ foreign_kept env0 env'.
Proof.
  intros Hcond Hb [Hc [Hs Hk]].
  unfold clear_if, tlb_load, tlb_store. run. rewrite Hb. cbn.
  destruct (cond env idx (tlb env idx)) eqn:Hcd.
  - eexists. split; [reflexivity|].
    split; [exact Hc | split; [exact Hs|]].
    intros i Hi. cbn.
    destruct (Z.eq_dec i idx) as [-> | Hne].
    + apply Hcond in Hcd. rewrite (matches_guest_ext env0 env) in Hcd by auto.
      rewrite (Hk idx Hi) in Hcd. congruence.
    + rewrite tlb_set_other by exact Hne. apply Hk, Hi.
  - eexists. split; [reflexivity|]. split; [exact Hc | split; [exact Hs | exact Hk]].
Qed.

Lemma for_range_frame cond idxf env0 n :
  (forall e k t, cond e k t = true -> tlb_entry_matches_guest e t = true) ->
  forall i env,
    (forall k, i <= k < i + Z.of_nat n -> tlb_in_bounds (idxf k) = true) ->
    foreign_kept env0 env ->
    exists env',
      for_range n i (fun k => clear_if cond (idxf k)) env = Done tt env' /\
      foreign_kept env0 env'.
Proof.
  intros Hcond. induction n as [|n IH]; intros i env Hb Hk.
  - exists env. split; [reflexivity | exact Hk].
  - cbn [for_range]. unfold bind.
    destruct (clear_if_frame cond (idxf i) env0 env Hcond) as [env1 [H1 Hk1]];
      [apply Hb; lia | exact Hk |].
    rewrite H1.
    apply IH; [|exact Hk1]. intros k Hkr. apply Hb. lia.
Qed.

Lemma for_loop_frame cond idxf env lo hi :
  (forall e k t, cond e k t = true -> tlb_entry_matches_guest e t = true) ->
  (forall k, lo <= k < hi -> tlb_in_bounds (idxf k) = true) ->
  exists env',
    for_loop lo hi (fun k => clear_if cond (idxf k)) env = Done tt env' /\
    foreign_kept env env'.
Proof.
  intros Hcond Hb. unfold for_loop.
  apply for_range_frame; [exact Hcond | | apply foreign_kept_refl].
  intros k Hk. apply Hb. lia.
Qed.

Lemma tlbclr_cond_matches a e k t :
  tlbclr_cond a e k t = true -> tlb_entry_matches_guest e t = true.
Proof.
  unfold tlbclr_cond. destruct (tlb_entry_matches_guest e t); [reflexivity | discriminate].
Qed.

Lemma tlbflush_cond_matches e k t :
  tlbflush_cond e k t = true -> tlb_entry_matches_guest e t = true.
Proof. unfold tlbflush_cond. tauto. Qed.

Lemma invtlb_all_g_cond_matches g e k t :
  invtlb_all_g_cond g e k t = true -> tlb_entry_matches_guest e t = true.
Proof. unfold invtlb_all_g_cond. rewrite andb_true_iff. tauto. Qed.

Lemma invtlb_all_asid_cond_matches a e k t :
  invtlb_all_asid_cond a e k t = true -> tlb_entry_matches_guest e t = true.
Proof. unfold invtlb_all_asid_cond. rewrite !andb_true_iff. tauto. Qed.

Lemma invtlb_page_cond_matches b a addr e k t :
  invtlb_page_cond b a addr e k t = true -> tlb_entry_matches_guest e t = true.
Proof.
  unfold invtlb_page_cond. destruct (tlb_entry_matches_guest e t); [reflexivity | discriminate].
Qed.

Lemma stlb_line_in_bounds index k :
  0 <= index -> 0 <= k < 8 -> tlb_in_bounds (k * 256 + Z.rem index 256) = true.
Proof.
  intros Hi Hk. apply in_bounds_iff.
  pose proof (Z.rem_bound_pos index 256 Hi ltac:(lia)) as Hr.
  unfold LOONGARCH_TLB_MAX, LOONGARCH_STLB, LOONGARCH_MTLB. lia.
Qed.

Lemma all_in_bounds lo k :
  0 <= lo -> lo <= k < LOONGARCH_TLB_MAX -> tlb_in_bounds k = true.
Proof. intros Hlo Hk. apply in_bounds_iff. lia. Qed.

Lemma tlbclr_frame env :
  exists env', helper_tlbclr env = Done tt env' /\ foreign_kept env env'.
Proof.
  pose proof (tlbidx_index_range (get_effective_csr_tlbidx env)) as Hr.
  unfold helper_tlbclr. run. rewrite tlbidx_index_int.
  destruct (_ <? LOONGARCH_STLB).
  - apply (for_loop_frame _ (fun k => k * 256 + Z.rem _ 256));
      [apply tlbclr_cond_matches|].
    intros k Hk. apply stlb_line_in_bounds; lia.
  - destruct (_ <? LOONGARCH_TLB_MAX).
    + apply (for_loop_frame _ (fun k => k)); [apply tlbclr_cond_matches|].
      intros k Hk. apply (all_in_bounds LOONGARCH_STLB); [unfold LOONGARCH_STLB; lia | exact Hk].
    + exists env. split; [reflexivity | apply foreign_kept_refl].
Qed.

Lemma tlbflush_frame env :
  exists env', helper_tlbflush env = Done tt env' /\ foreign_kept env env'.
Proof.
  pose proof (tlbidx_index_range (get_effective_csr_tlbidx env)) as Hr.
  unfold helper_tlbflush. run. rewrite tlbidx_index_int.
  destruct (_ <? LOONGARCH_STLB).
  - apply (for_loop_frame _ (fun k => k * 256 + Z.rem _ 256));
      [apply tlbflush_cond_matches|].
    intros k Hk. apply stlb_line_in_bounds; lia.
  - destruct (_ <? LOONGARCH_TLB_MAX).
    + apply (for_loop_frame _ (fun k => k)); [apply tlbflush_cond_matches|].
      intros k Hk. apply (all_in_bounds LOONGARCH_STLB); [unfold LOONGARCH_STLB; lia | exact Hk].
    + exists env. split; [reflexivity | apply foreign_kept_refl].
Qed.

Lemma invtlb_frame cond env :
  (forall e k t, cond e k t = true -> tlb_entry_matches_guest e t = true) ->
  exists env',
    for_loop 0 LOONGARCH_TLB_MAX (clear_if cond) env = Done tt env' /\
    foreign_kept env env'.
Proof.
  intros Hcond.
  apply (for_loop_frame _ (fun k => k)); [exact Hcond|].
  intros k Hk. apply (all_in_bounds 0); [lia | exact Hk].
Qed.

(** ** The helpers that only read the TLB *)

Lemma tlb_set_effective r v env : tlb (set_effective_csr r v env) = tlb env.
Proof. unfold set_effective_csr. destruct (is_guest_mode env); reflexivity. Qed.

Lemma search_probe_pure vaddr asid cur mtlb ps idx env :
  tlb_in_bounds idx = true ->
  exists r, search_probe vaddr asid cur mtlb ps idx env = Done r env.
Proof.
  intros Hb. unfold search_probe, tlb_load. run. rewrite Hb. cbn.
  repeat match goal with
         | |- context [if ?b then _ else _] => destruct b; cbn
         end; eexists; reflexivity.
Qed.

Lemma search_range_pure probe n :
  forall i env,
    (forall k e, i <= k < i + Z.of_nat n -> exists r, probe k e = Done r e) ->
    exists r, search_range n i probe env = Done r env.
Proof.
  induction n as [|n IH]; intros i env Hp.
  - exists None. reflexivity.
  - cbn [search_range]. unfold bind.
    destruct (Hp i env ltac:(lia)) as [r Hr]. rewrite Hr.
    destruct r as [idx|].
    + exists (Some idx). reflexivity.
    + apply IH. intros k e Hk. apply Hp. lia.
Qed.

Lemma tlb_search_guest_pure vaddr env :
  exists r, loongarch_tlb_search_guest vaddr env = Done r env.
Proof.
  unfold loongarch_tlb_search_guest, search_loop. run.
  match goal with |- context [search_range ?n ?i ?p env] =>
    destruct (search_range_pure p n i env) as [r Hr] end.
  { intros k e Hk. apply search_probe_pure. apply in_bounds_iff.
    assert (Hu : 0 <= u16 (Z.land (Z.shiftr (Z.land vaddr TARGET_VIRT_MASK)
                    (u8 (FIELD_EX64 (CSR env STLBPS) CSR_STLBPS_PS) + 1)) 255) < 256).
    { set (x := Z.shiftr _ _). change 255 with (Z.ones 8).
      rewrite Z.land_ones by lia.
      assert (0 <= x mod 2 ^ 8 < 256) by (apply Z.mod_pos_bound; reflexivity).
      unfold u16. rewrite Z.mod_small; [assumption|].
      change (2 ^ 16) with 65536. lia. }
    change (Z.of_nat (Z.to_nat (8 - 0))) with 8 in Hk.
    unfold LOONGARCH_TLB_MAX, LOONGARCH_STLB, LOONGARCH_MTLB. lia. }
  rewrite Hr. destruct r as [idx|].
  - exists (Some idx). reflexivity.
  - apply search_range_pure. intros k e Hk. apply search_probe_pure.
    apply in_bounds_iff.
    unfold LOONGARCH_TLB_MAX, LOONGARCH_STLB, LOONGARCH_MTLB in *.
    change (Z.of_nat (Z.to_nat (2048 + 64 - 2048))) with 64 in Hk. lia.
Qed.

Lemma tlbsrch_keeps_tlb env :
  exists env', helper_tlbsrch env = Done tt env' /\ tlb env' = tlb env.
Proof.
  unfold helper_tlbsrch. run.
  match goal with |- context [loongarch_tlb_search_guest ?v env] =>
    destruct (tlb_search_guest_pure v env) as [r Hr] end.
  rewrite Hr. unfold set_tlbidx_field. run. eff.
  destruct r; cbn; eexists; (split; [reflexivity|]);
    rewrite ?tlb_set_effective; reflexivity.
Qed.

Lemma tlbrd_keeps_tlb env :
  FIELD_EX64 (get_effective_csr_tlbidx env) CSR_TLBIDX_INDEX < LOONGARCH_TLB_MAX ->
  exists env', helper_tlbrd env = Done tt env' /\ tlb env' = tlb env.
Proof.
  intros Hi.
  pose proof (tlbidx_index_range (get_effective_csr_tlbidx env)) as Hr.
  assert (Hb : tlb_in_bounds (FIELD_EX64 (get_effective_csr_tlbidx env) CSR_TLBIDX_INDEX) = true)
    by (apply in_bounds_iff; lia).
  unfold helper_tlbrd, tlb_load, tlbrd_invalid, set_tlbidx_field. run.
  rewrite tlbidx_index_int, Hb. cbn. eff.
  repeat match goal with
         | |- context [if ?b then _ else _] => destruct b; cbn
         end;
    eexists; (split; [reflexivity|]); rewrite ?tlb_set_effective; reflexivity.
Qed.

Lemma foreign_not_matched env i :
  is_guest_mode env = true ->
  u8 (FIELD_EX64 (tlb_misc (tlb env i)) TLB_MISC_GID) <> get_current_guest_id env ->
  tlb_entry_matches_guest env (tlb env i) = false.
Proof.
  intros Hg Hne. unfold tlb_entry_matches_guest.
  rewrite (guest_mode_lvz env Hg). cbn. apply Z.eqb_neq. exact Hne.
Qed.

(** C1 (amended): in guest mode as guest [g], [tlbsrch], [tlbrd] (for an
    index the array has), [tlbclr], [tlbflush] and every [invtlb] helper
    return and leave each entry whose GID tag differs from [g] as it was;
    [tlbwr] (for an index the array has) and [tlbfill] return and leave
    each entry as it was but the one at the index they write, which they
    write whatever its tag. *)
Theorem tlb_helpers_frame env :
  is_guest_mode env = true ->
  let g := get_current_guest_id env in
  let index := FIELD_EX64 (get_effective_csr_tlbidx env) CSR_TLBIDX_INDEX in
  let keeps (o : outcome unit) :=
    exists env', o = Done tt env' /\
      forall i, u8 (FIELD_EX64 (tlb_misc (tlb env i)) TLB_MISC_GID) <> g ->
                tlb env' i = tlb env i in
  let writes_at (j : Z) (o : outcome unit) :=
    exists env', o = Done tt env' /\ forall i, i <> j -> tlb env' i = tlb env i in
  keeps (helper_tlbsrch env) /\
  (index < LOONGARCH_TLB_MAX -> keeps (helper_tlbrd env)) /\
  keeps (helper_tlbclr env) /\
  keeps (helper_tlbflush env) /\
  keeps (helper_invtlb_all env) /\
  (forall g', keeps (helper_invtlb_all_g g' env)) /\
  (forall info, keeps (helper_invtlb_all_asid info env)) /\
  (forall info addr, keeps (helper_invtlb_page_asid info addr env)) /\
  (forall info addr, keeps (helper_invtlb_page_asid_or_g info addr env)) /\
  (index < LOONGARCH_TLB_MAX -> writes_at index (helper_tlbwr env)) /\
  (forall val, writes_at (tlbfill_index val env) (helper_tlbfill val env)).
Proof.
  intros Hg. cbv zeta.
  assert (Hfk : forall o, (exists env', o = Done tt env' /\ foreign_kept env env') ->
    exists env', o = Done tt env' /\
      forall i, u8 (FIELD_EX64 (tlb_misc (tlb env i)) TLB_MISC_GID) <> get_current_guest_id env ->
                tlb env' i = tlb env i).
  { intros o [env' [Ho [_ [_ Hk]]]]. exists env'. split; [exact Ho|].
    intros i Hi. apply Hk. apply foreign_not_matched; assumption. }
  assert (Hsame : forall o, (exists env', o = Done tt env' /\ tlb env' = tlb env) ->
    exists env', o = Done tt env' /\
      forall i, u8 (FIELD_EX64 (tlb_misc (tlb env i)) TLB_MISC_GID) <> get_current_guest_id env ->
                tlb env' i = tlb env i).
  { intros o [env' [Ho Ht]]. exists env'. split; [exact Ho|].
    intros i _. now rewrite Ht. }
  split; [apply Hsame, tlbsrch_keeps_tlb|].
  split; [intros Hi; apply Hsame, tlbrd_keeps_tlb, Hi|].
  split; [apply Hfk, tlbclr_frame|].
  split; [apply Hfk, tlbflush_frame|].
  split; [apply Hfk, invtlb_frame, tlbflush_cond_matches|].
  split; [intros g'; apply Hfk, invtlb_frame, invtlb_all_g_cond_matches|].
  split; [intros info; apply Hfk, invtlb_frame, invtlb_all_asid_cond_matches|].
  split; [intros info addr; apply Hfk, invtlb_frame, invtlb_page_cond_matches|].
  split; [intros info addr; apply Hfk, invtlb_frame, invtlb_page_cond_matches|].
  split.
  - intros Hi. destruct (tlbwr_fills env Hi) as [Hwr Hb]. rewrite Hwr.
    destruct (truthy _).
    + unfold tlb_clear_e, tlb_load, tlb_store. run. rewrite Hb. cbn.
      eexists. split; [reflexivity|].
      intros i Hne. cbn. apply tlb_set_other, Hne.
    + destruct (fill_tlb_entry_post _ env Hb) as [t [Hfill _]]. rewrite Hfill.
      eexists. split; [reflexivity|].
      intros i Hne. cbn. apply tlb_set_other, Hne.
  - intros val. destruct (tlbfill_writes val env) as [env' [Hrun [Hk _]]].
    exists env'. split; [exact Hrun | exact Hk].
Qed.

(** ** CSR exchange *)

Arguments check_csr_access_permission : simpl never.
Arguments decode_csr : simpl never.
Arguments get_guest_csr_ptr : simpl never.
Arguments deposit64 : simpl never.




Lemma Done_inj {A} (a b : A) (e e' : CPULoongArchState) :
  Done a e = Done b e' -> a = b /\ e = e'.
Proof. intros H. inversion H. auto. Qed.

Ltac inv H := apply Done_inj in H; destruct H as [? ?]; subst.








Ltac gcsr_run :=
  cbv beta iota zeta delta
    [helper_gcsrrd helper_gcsrwr helper_gcsrxchg trigger_vm_exit
     bind get modify ret do_raise_exception negb].


Lemma gcsrrd_returns env csr x env1 :
  helper_gcsrrd csr env = Done x env1 ->
  exists r, get_guest_csr_ptr csr = Some r /\ x = GCSR env r /\ env1 = env.
Proof.
  gcsr_run.
  destruct (is_guest_mode env); [|discriminate].
  destruct (get_guest_csr_ptr csr) as [r|]; [|discriminate].
  intros H. exists r. split; [reflexivity|].
  destruct r; cbv beta iota zeta in H;
    try (match type of H with context [truthy ?x] => destruct (truthy x) end;
         cbv beta iota zeta in H);
    try discriminate; inv H; split; reflexivity.
Qed.



(** * Further properties of the helpers *)

(** ** Invalidation loops *)

Lemma only_tlb_refl env : only_tlb env env.
Proof. destruct env. reflexivity. Qed.

Lemma only_tlb_step env env1 a : only_tlb env env1 -> only_tlb env (with_tlb a env1).
Proof. unfold only_tlb. intros ->. reflexivity. Qed.

Lemma only_tlb_trans env env1 env2 :
  only_tlb env env1 -> only_tlb env1 env2 -> only_tlb env env2.
Proof. unfold only_tlb. intros -> ->. reflexivity. Qed.

Lemma clear_entry_disabled t : FIELD_EX64 (tlb_misc (tlb_clear_entry t)) TLB_MISC_E = 0.
Proof. unfold tlb_clear_entry. cbn. rewrite FIELD_EX64_DP64 by reflexivity. reflexivity. Qed.

Lemma clear_entry_gid t :
  FIELD_EX64 (tlb_misc (tlb_clear_entry t)) TLB_MISC_GID = FIELD_EX64 (tlb_misc t) TLB_MISC_GID.
Proof.
  unfold tlb_clear_entry. cbn.
  apply FIELD_EX64_DP64_other; [reflexivity | reflexivity | left; reflexivity].
Qed.

Lemma clear_if_spec cond idx env :
  tlb_in_bounds idx = true ->
  clear_if cond idx env =
  Done tt (if cond env idx (tlb env idx)
           then with_tlb (tlb_set (tlb env) idx (tlb_clear_entry (tlb env idx))) env
           else env).
Proof.
  intros Hb. unfold clear_if, tlb_load, tlb_store. run. rewrite Hb. cbn.
  destruct (cond env idx (tlb env idx)); reflexivity.
Qed.

(** A loop of [clear_if] over distinct indices of the array: it returns,
    changes nothing but the TLB, leaves alone what it does not visit, and
    clears [E] exactly where the condition holds. *)
Lemma for_range_clear_spec cond idxf n :
  (forall e a k t, cond (with_tlb a e) k t = cond e k t) ->
  forall i env,
    (forall k, i <= k < i + Z.of_nat n -> tlb_in_bounds (idxf k) = true) ->
    (forall k k', i <= k < i + Z.of_nat n -> i <= k' < i + Z.of_nat n ->
                  idxf k = idxf k' -> k = k') ->
    exists env',
      for_range n i (fun k => clear_if cond (idxf k)) env = Done tt env' /\
      only_tlb env env' /\
      (forall j, (forall k, i <= k < i + Z.of_nat n -> idxf k <> j) ->
                 tlb env' j = tlb env j) /\
      (forall k, i <= k < i + Z.of_nat n ->
                 tlb env' (idxf k) =
                 if cond env (idxf k) (tlb env (idxf k))
                 then tlb_clear_entry (tlb env (idxf k)) else tlb env (idxf k)).
Proof.
  intros Hstab. induction n as [|n IH]; intros i env Hb Hinj.
  - exists env. split; [reflexivity|]. split; [apply only_tlb_refl|].
    split; [reflexivity | intros k Hk; lia].
  - cbn [for_range]. unfold bind. rewrite clear_if_spec by (apply Hb; lia).
    set (env1 := if cond env (idxf i) (tlb env (idxf i))
                 then with_tlb (tlb_set (tlb env) (idxf i)
                                        (tlb_clear_entry (tlb env (idxf i)))) env
                 else env).
    assert (H1 : only_tlb env env1).
    { unfold env1. destruct (cond env (idxf i) (tlb env (idxf i)));
        [apply only_tlb_step|]; apply only_tlb_refl. }
    assert (Hc1 : forall k t, cond env1 k t = cond env k t).
    { intros k t. rewrite H1. apply Hstab. }
    assert (Ho : forall j, j <> idxf i -> tlb env1 j = tlb env j).
    { intros j Hj. unfold env1. destruct (cond env (idxf i) (tlb env (idxf i)));
        [cbn; apply tlb_set_other; exact Hj | reflexivity]. }
    assert (Hi : tlb env1 (idxf i) =
                 if cond env (idxf i) (tlb env (idxf i))
                 then tlb_clear_entry (tlb env (idxf i)) else tlb env (idxf i)).
    { unfold env1. destruct (cond env (idxf i) (tlb env (idxf i)));
        [cbn; apply tlb_set_same | reflexivity]. }
    destruct (IH (i + 1) env1) as [env' [Hr [Ht [Hout Hin]]]].
    { intros k Hk. apply Hb. lia. }
    { intros k k' Hk Hk'. apply Hinj; lia. }
    exists env'. split; [exact Hr|]. split; [eapply only_tlb_trans; eassumption|].
    split.
    + intros j Hj. rewrite Hout by (intros k Hk; apply Hj; lia).
      apply Ho. intros ->. apply (Hj i); [lia | reflexivity].
    + intros k Hk. destruct (Z.eq_dec k i) as [-> | Hne].
      * rewrite Hout; [exact Hi|].
        intros k' Hk' He. apply Hinj in He; lia.
      * rewrite Hin by lia. rewrite Hc1.
        rewrite Ho; [reflexivity|].
        intros He. apply Hinj in He; lia.
Qed.

Lemma for_loop_clear_all cond env :
  (forall e a k t, cond (with_tlb a e) k t = cond e k t) ->
  exists env',
    for_loop 0 LOONGARCH_TLB_MAX (clear_if cond) env = Done tt env' /\
    only_tlb env env' /\
    (forall k, tlb env' k =
               if tlb_in_bounds k && cond env k (tlb env k)
               then tlb_clear_entry (tlb env k) else tlb env k).
Proof.
  intros Hstab. unfold for_loop.
  destruct (for_range_clear_spec cond (fun k => k)
              (Z.to_nat (LOONGARCH_TLB_MAX - 0)) Hstab 0 env)
    as [env' [Hr [Ht [Hout Hin]]]].
  { intros k Hk. apply in_bounds_iff. rewrite Z2Nat.id in Hk by (vm_compute; discriminate).
    lia. }
  { intros; assumption. }
  exists env'. split; [exact Hr|]. split; [exact Ht|].
  intros k. rewrite Z2Nat.id in * by (vm_compute; discriminate).
  destruct (tlb_in_bounds k) eqn:Hb; cbn [andb].
  - apply in_bounds_iff in Hb. apply Hin. lia.
  - apply Hout. intros k' Hk' ->.
    assert (tlb_in_bounds k = true) by (apply in_bounds_iff; lia). congruence.
Qed.

(** ** The guest-aware search *)

Lemma misc_e_bit m : truthy (u8 (FIELD_EX64 m TLB_MISC_E)) = true <-> FIELD_EX64 m TLB_MISC_E = 1.
Proof.
  pose proof (FIELD_EX64_range m TLB_MISC_E eq_refl) as Hr.
  change (2 ^ f_len TLB_MISC_E) with 2 in Hr.
  rewrite u8_small by lia. rewrite truthy_true. lia.
Qed.

Lemma search_probe_hit vaddr asid cur mtlb ps idx env j env' :
  search_probe vaddr asid cur mtlb ps idx env = Done (Some j) env' ->
  j = idx /\ env' = env /\ tlb_in_bounds idx = true /\
  FIELD_EX64 (tlb_misc (tlb env idx)) TLB_MISC_E = 1 /\
  (has_lvz_capability env = true ->
   u8 (FIELD_EX64 (tlb_misc (tlb env idx)) TLB_MISC_GID) = cur).
Proof.
  unfold search_probe, tlb_load. run.
  destruct (tlb_in_bounds idx); [|discriminate]. cbv beta iota.
  destruct (truthy (u8 (FIELD_EX64 (tlb_misc (tlb env idx)) TLB_MISC_E))) eqn:He;
    cbv beta iota delta [negb]; [|discriminate].
  apply misc_e_bit in He.
  destruct (has_lvz_capability env) eqn:Hl; cbv beta iota delta [andb].
  - destruct (u8 (FIELD_EX64 (tlb_misc (tlb env idx)) TLB_MISC_GID) =? cur) eqn:Hg;
      cbv beta iota delta [negb]; [|discriminate].
    apply Z.eqb_eq in Hg.
    match goal with |- context [if ?b then _ else _] => destruct b end;
      [|discriminate].
    intros H. apply Done_inj in H. destruct H as [H ->]. injection H as <-. auto.
  - match goal with |- context [if ?b then _ else _] => destruct b end;
      [|discriminate].
    intros H. apply Done_inj in H. destruct H as [H ->]. injection H as <-.
    repeat split; auto. discriminate.
Qed.

Lemma search_range_hit probe n :
  forall i env j env',
    (forall k e r e', probe k e = Done r e' -> e' = e) ->
    search_range n i probe env = Done (Some j) env' ->
    env' = env /\ exists k, i <= k < i + Z.of_nat n /\ probe k env = Done (Some j) env.
Proof.
  induction n as [|n IH]; intros i env j env' Hp.
  - cbn. unfold ret. discriminate.
  - cbn [search_range]. unfold bind.
    destruct (probe i env) as [r e1 | |] eqn:Hr; try discriminate.
    pose proof (Hp _ _ _ _ Hr) as ->.
    destruct r as [idx|].
    + unfold ret. intros H. apply Done_inj in H. destruct H as [H ->].
      injection H as ->. split; [reflexivity|]. exists i. split; [lia | exact Hr].
    + intros H. apply IH in H; [|exact Hp]. destruct H as [-> [k [Hk Hk']]].
      split; [reflexivity|]. exists k. split; [lia | exact Hk'].
Qed.

Lemma search_range_state probe n :
  forall i env r env',
    (forall k e r e', probe k e = Done r e' -> e' = e) ->
    search_range n i probe env = Done r env' -> env' = env.
Proof.
  induction n as [|n IH]; intros i env r env' Hp.
  - cbn. unfold ret. intros H. apply Done_inj in H. destruct H as [_ ->]. reflexivity.
  - cbn [search_range]. unfold bind.
    destruct (probe i env) as [r1 e1 | |] eqn:Hr; try discriminate.
    pose proof (Hp _ _ _ _ Hr) as ->.
    destruct r1 as [idx|].
    + unfold ret. intros H. apply Done_inj in H. destruct H as [_ ->]. reflexivity.
    + intros H. eapply IH; eassumption.
Qed.

Lemma search_range_miss probe n :
  forall i env,
    (forall k, i <= k < i + Z.of_nat n -> probe k env = Done None env) ->
    search_range n i probe env = Done None env.
Proof.
  induction n as [|n IH]; intros i env Hp.
  - reflexivity.
  - cbn [search_range]. unfold bind. rewrite Hp by lia.
    apply IH. intros k Hk. apply Hp. lia.
Qed.

Lemma search_probe_state vaddr asid cur mtlb ps k e r e' :
  search_probe vaddr asid cur mtlb ps k e = Done r e' -> e' = e.
Proof.
  unfold search_probe, tlb_load. run.
  destruct (tlb_in_bounds k); [|discriminate]. cbv beta iota.
  repeat match goal with
         | |- context [if ?b then _ else _] => destruct b
         end; intros H; apply Done_inj in H; destruct H as [_ ->]; reflexivity.
Qed.

(** X1: what [loongarch_tlb_search_guest] reports exists: a hit is an index
    of the array whose entry is enabled and, on a CPU with LVZ, carries the
    GID of the current guest (0 outside guest mode); the search leaves the
    state as it was. *)
Theorem tlb_search_guest_sound vaddr env index env' :
  loongarch_tlb_search_guest vaddr env = Done (Some index) env' ->
  env' = env /\
  0 <= index < LOONGARCH_TLB_MAX /\
  FIELD_EX64 (tlb_misc (tlb env index)) TLB_MISC_E = 1 /\
  tlb_entry_matches_guest env (tlb env index) = true.
Proof.
  unfold loongarch_tlb_search_guest, search_loop. run.
  match goal with |- context [search_range ?n ?i ?p env] =>
    destruct (search_range n i p env) as [r e1 | |] eqn:Hs end; try discriminate.
  assert (Hfin : forall mtlb ps k j e,
             search_probe vaddr
               (u16 (FIELD_EX64 (get_effective_csr_asid env) CSR_ASID_ASID))
               (get_current_guest_id env) mtlb ps k env = Done (Some j) e ->
             e = env /\ 0 <= j < LOONGARCH_TLB_MAX /\
             FIELD_EX64 (tlb_misc (tlb env j)) TLB_MISC_E = 1 /\
             tlb_entry_matches_guest env (tlb env j) = true).
  { intros mtlb ps k j e H. apply search_probe_hit in H.
    destruct H as [-> [-> [Hb [He Hg]]]].
    split; [reflexivity|]. split; [apply in_bounds_iff, Hb|]. split; [exact He|].
    unfold tlb_entry_matches_guest.
    destruct (has_lvz_capability env); cbv beta iota delta [negb]; [|reflexivity].
    apply Z.eqb_eq. apply Hg. reflexivity. }
  destruct r as [idx|].
  - unfold ret. intros H. apply Done_inj in H. destruct H as [H ->].
    injection H as ->.
    apply search_range_hit in Hs; [|intros; eapply search_probe_state; eassumption].
    destruct Hs as [-> [k [_ Hk]]]. apply Hfin in Hk. tauto.
  - intros H.
    apply search_range_state in Hs;
      [subst e1 | intros; eapply search_probe_state; eassumption].
    apply search_range_hit in H; [|intros; eapply search_probe_state; eassumption].
    destruct H as [-> [k [_ Hk]]]. apply Hfin in Hk. tauto.
Qed.

Lemma set_index_range x : 0 <= u16 (Z.land x 255) < 256.
Proof.
  change 255 with (Z.ones 8). rewrite Z.land_ones by lia.
  assert (0 <= x mod 2 ^ 8 < 256) by (apply Z.mod_pos_bound; reflexivity).
  unfold u16. rewrite Z.mod_small; [assumption|].
  change (2 ^ 16) with 65536. lia.
Qed.

Lemma search_probe_miss vaddr asid mtlb ps idx env :
  tlb_in_bounds idx = true ->
  FIELD_EX64 (tlb_misc (tlb env idx)) TLB_MISC_E = 0 \/
  tlb_entry_matches_guest env (tlb env idx) = false ->
  search_probe vaddr asid (get_current_guest_id env) mtlb ps idx env = Done None env.
Proof.
  intros Hb H. unfold search_probe, tlb_load. run. rewrite Hb. cbv beta iota.
  destruct (truthy (u8 (FIELD_EX64 (tlb_misc (tlb env idx)) TLB_MISC_E))) eqn:He;
    cbv beta iota delta [negb]; [|reflexivity].
  apply misc_e_bit in He. destruct H as [H | H]; [congruence|].
  unfold tlb_entry_matches_guest in H.
  destruct (has_lvz_capability env); cbv beta iota delta [negb andb] in *;
    [|discriminate].
  rewrite H. reflexivity.
Qed.

(** A TLB without an enabled entry of the current guest: every search
    misses. *)
Lemma search_misses_without_entries env :
  (forall k, tlb_in_bounds k = true ->
             FIELD_EX64 (tlb_misc (tlb env k)) TLB_MISC_E = 0 \/
             tlb_entry_matches_guest env (tlb env k) = false) ->
  forall vaddr, loongarch_tlb_search_guest vaddr env = Done None env.
Proof.
  intros Hnone vaddr. unfold loongarch_tlb_search_guest, search_loop. run.
  rewrite search_range_miss.
  - apply search_range_miss. intros k Hk.
    assert (Hb : tlb_in_bounds k = true).
    { apply in_bounds_iff.
      change (Z.of_nat (Z.to_nat (LOONGARCH_TLB_MAX - LOONGARCH_STLB))) with 64 in Hk.
      change LOONGARCH_STLB with 2048 in Hk. change LOONGARCH_TLB_MAX with 2112. lia. }
    apply search_probe_miss; [exact Hb | apply Hnone, Hb].
  - intros k Hk. change (Z.of_nat (Z.to_nat (8 - 0))) with 8 in Hk.
    match goal with |- search_probe _ _ _ _ _ ?i _ = _ =>
      assert (Hb : tlb_in_bounds i = true) end.
    { apply in_bounds_iff.
      pose proof (set_index_range (Z.shiftr (Z.land vaddr TARGET_VIRT_MASK)
                    (u8 (FIELD_EX64 (CSR env STLBPS) CSR_STLBPS_PS) + 1))).
      change LOONGARCH_TLB_MAX with 2112. lia. }
    apply search_probe_miss; [exact Hb | apply Hnone, Hb].
Qed.

Lemma only_tlb_matches env env' t :
  only_tlb env env' ->
  tlb_entry_matches_guest env' t = tlb_entry_matches_guest env t.
Proof. intros H. rewrite H. apply matches_guest_ext; reflexivity. Qed.

(** X2: [invtlb 0] ([helper_invtlb_all]) returns, changes nothing but the
    TLB array, clears [E] in exactly the entries of the current guest (all
    entries on a CPU without LVZ) and leaves every other entry and every
    other bit as they were; afterwards the guest-aware search misses for
    every address. *)
Theorem invtlb_all_clears_guest_entries env :
  exists env',
    helper_invtlb_all env = Done tt env' /\
    only_tlb env env' /\
    (forall k, tlb env' k =
               if tlb_in_bounds k && tlb_entry_matches_guest env (tlb env k)
               then tlb_clear_entry (tlb env k) else tlb env k) /\
    (forall vaddr, loongarch_tlb_search_guest vaddr env' = Done None env').
Proof.
  destruct (for_loop_clear_all tlbflush_cond env) as [env' [Hr [Ht Hs]]].
  { intros e a k t. unfold tlbflush_cond. apply matches_guest_ext; reflexivity. }
  exists env'. split; [exact Hr|]. split; [exact Ht|]. split; [exact Hs|].
  apply search_misses_without_entries. intros k Hb.
  rewrite (only_tlb_matches env env') by exact Ht.
  rewrite Hs, Hb. cbv beta iota delta [andb]. unfold tlbflush_cond.
  destruct (tlb_entry_matches_guest env (tlb env k)) eqn:Hm.
  - left. apply clear_entry_disabled.
  - right. exact Hm.
Qed.

(** ** [tlbclr] and [tlbflush] *)

Lemma line_loop_spec cond index env :
  (forall e a k t, cond (with_tlb a e) k t = cond e k t) ->
  0 <= index ->
  exists env',
    (if index <? LOONGARCH_STLB then
       for_loop 0 8 (fun i => clear_if cond (i * 256 + Z.rem index 256))
     else if index <? LOONGARCH_TLB_MAX then
       for_loop LOONGARCH_STLB LOONGARCH_TLB_MAX (clear_if cond)
     else ret tt) env = Done tt env' /\
    only_tlb env env' /\
    (forall k, tlb env' k =
               if tlb_line index k && cond env k (tlb env k)
               then tlb_clear_entry (tlb env k) else tlb env k).
Proof.
  intros Hstab Hi. unfold tlb_line.
  change LOONGARCH_STLB with 2048. change LOONGARCH_TLB_MAX with 2112.
  destruct (Z.ltb_spec index 2048) as [Hs | Hs].
  - rewrite Z.rem_mod_nonneg by lia.
    assert (Hr : 0 <= index mod 256 < 256) by (apply Z.mod_pos_bound; lia).
    destruct (for_range_clear_spec cond (fun i => i * 256 + index mod 256)
                (Z.to_nat (8 - 0)) Hstab 0 env) as [env' [Hrun [Ht [Hout Hin]]]].
    { intros k Hk. change (Z.of_nat (Z.to_nat (8 - 0))) with 8 in Hk.
      apply in_bounds_iff. change LOONGARCH_TLB_MAX with 2112. lia. }
    { intros k k' _ _ He. lia. }
    exists env'. split; [exact Hrun|]. split; [exact Ht|].
    intros k. change (Z.of_nat (Z.to_nat (8 - 0))) with 8 in *.
    destruct ((0 <=? k) && (k <? 2048) && (k mod 256 =? index mod 256)) eqn:Hl;
      cbv beta iota delta [andb].
    + apply andb_true_iff in Hl. destruct Hl as [Hl He].
      apply andb_true_iff in Hl. destruct Hl as [Hl1 Hl2].
      apply Z.leb_le in Hl1. apply Z.ltb_lt in Hl2. apply Z.eqb_eq in He.
      assert (Hk : k = k / 256 * 256 + index mod 256).
      { rewrite <- He. pose proof (Z.div_mod k 256). lia. }
      rewrite Hk at 1. rewrite Hin.
      * rewrite <- Hk. reflexivity.
      * assert (0 <= k / 256) by (apply Z.div_pos; lia).
        assert (k / 256 < 8) by (apply Z.div_lt_upper_bound; lia). lia.
    + apply Hout. intros k' Hk' <-.
      assert ((k' * 256 + index mod 256) mod 256 = index mod 256) as Hm.
      { rewrite Z.add_comm, Z.mod_add by lia. apply Z.mod_mod. lia. }
      rewrite Hm, Z.eqb_refl, andb_true_r in Hl.
      apply andb_false_iff in Hl. destruct Hl as [Hl | Hl];
        [apply Z.leb_gt in Hl | apply Z.ltb_ge in Hl]; lia.
  - destruct (Z.ltb_spec index 2112) as [Hm | Hm].
    + destruct (for_range_clear_spec cond (fun i => i)
                  (Z.to_nat (2112 - 2048)) Hstab 2048 env)
        as [env' [Hrun [Ht [Hout Hin]]]].
      { intros k Hk. change (Z.of_nat (Z.to_nat (2112 - 2048))) with 64 in Hk.
        apply in_bounds_iff. change LOONGARCH_TLB_MAX with 2112. lia. }
      { intros; assumption. }
      exists env'. split; [exact Hrun|]. split; [exact Ht|].
      intros k. change (Z.of_nat (Z.to_nat (2112 - 2048))) with 64 in *.
      destruct ((2048 <=? k) && (k <? 2112)) eqn:Hl; cbv beta iota delta [andb].
      * apply andb_true_iff in Hl. destruct Hl as [Hl1 Hl2].
        apply Z.leb_le in Hl1. apply Z.ltb_lt in Hl2. apply Hin. lia.
      * apply Hout. intros k' Hk' ->.
        apply andb_false_iff in Hl. destruct Hl as [Hl | Hl];
          [apply Z.leb_gt in Hl | apply Z.ltb_ge in Hl]; lia.
    + exists env. split; [reflexivity|]. split; [apply only_tlb_refl|].
      intros k. reflexivity.
Qed.

(** X3: [tlbflush] and [tlbclr] return for every value of [TLBIDX.INDEX]
    and change nothing but the TLB array.  They visit the eight STLB
    entries of the set of INDEX when INDEX < 2048, all 64 MTLB entries when
    2048 <= INDEX < 2112, and nothing when INDEX >= 2112.  In a visited
    entry [tlbflush] clears [E] when the entry is the current guest's;
    [tlbclr] when, in addition, it is not global and has the current ASID.
    Every other entry and every other bit stays. *)
Theorem tlbflush_tlbclr_line env :
  let index := FIELD_EX64 (get_effective_csr_tlbidx env) CSR_TLBIDX_INDEX in
  let csr_asid := u16 (FIELD_EX64 (get_effective_csr_asid env) CSR_ASID_ASID) in
  (exists env',
     helper_tlbflush env = Done tt env' /\ only_tlb env env' /\
     forall k, tlb env' k =
               if tlb_line index k && tlb_entry_matches_guest env (tlb env k)
               then tlb_clear_entry (tlb env k) else tlb env k) /\
  (exists env',
     helper_tlbclr env = Done tt env' /\ only_tlb env env' /\
     forall k, tlb env' k =
               if tlb_line index k && tlbclr_cond csr_asid env k (tlb env k)
               then tlb_clear_entry (tlb env k) else tlb env k).
Proof.
  intros index csr_asid.
  pose proof (tlbidx_index_range (get_effective_csr_tlbidx env)) as Hr.
  split.
  - unfold helper_tlbflush. run. rewrite tlbidx_index_int.
    apply (line_loop_spec tlbflush_cond); [|apply Hr].
    intros e a k t. unfold tlbflush_cond. apply matches_guest_ext; reflexivity.
  - unfold helper_tlbclr. run. rewrite tlbidx_index_int.
    apply (line_loop_spec (tlbclr_cond csr_asid)); [|apply Hr].
    intros e a k t. unfold tlbclr_cond.
    rewrite (matches_guest_ext e (with_tlb a e)) by reflexivity. reflexivity.
Qed.

(** ** Reading and disabling one entry *)

Lemma tlbrd_invalid_run env :
  exists env',
    tlbrd_invalid env = Done tt env' /\
    tlb env' = tlb env /\
    is_guest_mode env' = is_guest_mode env /\
    FIELD_EX64 (get_effective_csr_tlbidx env') CSR_TLBIDX_NE = 1 /\
    FIELD_EX64 (get_effective_csr_tlbidx env') CSR_TLBIDX_PS = 0 /\
    FIELD_EX64 (get_effective_csr_tlbidx env') CSR_TLBIDX_INDEX =
      FIELD_EX64 (get_effective_csr_tlbidx env) CSR_TLBIDX_INDEX /\
    FIELD_EX64 (get_effective_csr_asid env') CSR_ASID_ASID = 0 /\
    get_effective_csr_tlbehi env' = 0 /\
    get_effective_csr_tlbelo0 env' = 0 /\
    get_effective_csr_tlbelo1 env' = 0.
Proof.
  pose proof layout_width_facts as W.
  eexists. split.
  { unfold tlbrd_invalid, set_tlbidx_field. run. reflexivity. }
  eff. rewrite !tlb_set_effective. eff_simpl.
  split; [reflexivity|]. split; [reflexivity|].
  fields.
  split; [apply land_ones_small; [lia | replace (f_len CSR_TLBIDX_NE) with 1 by lia; lia]|].
  split; [apply Z.land_0_l|]. split; [reflexivity|].
  split; [apply Z.land_0_l|]. auto.
Qed.

Lemma tlbrd_takes_invalid_branch env :
  let index := FIELD_EX64 (get_effective_csr_tlbidx env) CSR_TLBIDX_INDEX in
  index < LOONGARCH_TLB_MAX ->
  FIELD_EX64 (tlb_misc (tlb env index)) TLB_MISC_E = 0 \/
  tlb_entry_matches_guest env (tlb env index) = false ->
  helper_tlbrd env = tlbrd_invalid env.
Proof.
  cbv zeta. intros Hi Hbad.
  pose proof (tlbidx_index_range (get_effective_csr_tlbidx env)) as Hr.
  assert (Hb : tlb_in_bounds (FIELD_EX64 (get_effective_csr_tlbidx env) CSR_TLBIDX_INDEX) = true)
    by (apply in_bounds_iff; lia).
  unfold helper_tlbrd, tlb_load. run. rewrite tlbidx_index_int, Hb. cbv beta iota.
  destruct (tlb_entry_matches_guest env _) eqn:Hm; cbv beta iota delta [negb];
    [|reflexivity].
  destruct Hbad as [He | Hf]; [|congruence].
  rewrite He. change (truthy (u8 0)) with false. reflexivity.
Qed.

(** X4: [tlbrd] at an index of the array whose entry is disabled or
    belongs to another guest reports no entry: it sets [TLBIDX.NE], clears
    [TLBIDX.PS], the ASID field, [TLBEHI], [TLBELO0] and [TLBELO1] of the
    effective bank, and leaves [TLBIDX.INDEX], the mode and the TLB as they
    were. *)
Theorem tlbrd_reports_no_entry env :
  let index := FIELD_EX64 (get_effective_csr_tlbidx env) CSR_TLBIDX_INDEX in
  index < LOONGARCH_TLB_MAX ->
  FIELD_EX64 (tlb_misc (tlb env index)) TLB_MISC_E = 0 \/
  tlb_entry_matches_guest env (tlb env index) = false ->
  exists env',
    helper_tlbrd env = Done tt env' /\
    tlb env' = tlb env /\
    is_guest_mode env' = is_guest_mode env /\
    FIELD_EX64 (get_effective_csr_tlbidx env') CSR_TLBIDX_NE = 1 /\
    FIELD_EX64 (get_effective_csr_tlbidx env') CSR_TLBIDX_PS = 0 /\
    FIELD_EX64 (get_effective_csr_tlbidx env') CSR_TLBIDX_INDEX = index /\
    FIELD_EX64 (get_effective_csr_asid env') CSR_ASID_ASID = 0 /\
    get_effective_csr_tlbehi env' = 0 /\
    get_effective_csr_tlbelo0 env' = 0 /\
    get_effective_csr_tlbelo1 env' = 0.
Proof.
  cbv zeta. intros Hi Hbad.
  rewrite (tlbrd_takes_invalid_branch env Hi Hbad).
  apply tlbrd_invalid_run.
Qed.

(** X5: [tlbwr] with [TLBIDX.NE] set and an index of the array writes
    nothing from the CSRs: it clears [E] of the entry at the index and
    changes nothing else; a [tlbrd] that follows reports no entry. *)
Theorem tlbwr_ne_disables_entry env :
  let index := FIELD_EX64 (get_effective_csr_tlbidx env) CSR_TLBIDX_INDEX in
  index < LOONGARCH_TLB_MAX ->
  FIELD_EX64 (get_effective_csr_tlbidx env) CSR_TLBIDX_NE = 1 ->
  exists env1 env2,
    helper_tlbwr env = Done tt env1 /\
    env1 = with_tlb (tlb_set (tlb env) index (tlb_clear_entry (tlb env index))) env /\
    helper_tlbrd env1 = Done tt env2 /\
    tlb env2 = tlb env1 /\
    FIELD_EX64 (get_effective_csr_tlbidx env2) CSR_TLBIDX_NE = 1 /\
    get_effective_csr_tlbehi env2 = 0 /\
    get_effective_csr_tlbelo0 env2 = 0 /\
    get_effective_csr_tlbelo1 env2 = 0.
Proof.
  cbv zeta. intros Hi Hne.
  destruct (tlbwr_fills env Hi) as [Hwr Hb].
  rewrite Hne in Hwr. change (truthy 1) with true in Hwr. cbv iota in Hwr.
  set (index := FIELD_EX64 (get_effective_csr_tlbidx env) CSR_TLBIDX_INDEX) in *.
  set (env1 := with_tlb (tlb_set (tlb env) index (tlb_clear_entry (tlb env index))) env).
  assert (H1 : helper_tlbwr env = Done tt env1).
  { rewrite Hwr. unfold tlb_clear_e, tlb_load, tlb_store. run. rewrite Hb. reflexivity. }
  assert (Hidx : get_effective_csr_tlbidx env1 = get_effective_csr_tlbidx env) by reflexivity.
  assert (Hinv : helper_tlbrd env1 = tlbrd_invalid env1).
  { apply tlbrd_takes_invalid_branch.
    - rewrite Hidx. exact Hi.
    - left. rewrite Hidx. fold index. unfold env1. cbn [tlb with_tlb].
      rewrite tlb_set_same. apply clear_entry_disabled. }
  destruct (tlbrd_invalid_run env1) as [env2 H2]. rewrite <- Hinv in H2.
  exists env1, env2. split; [exact H1|]. split; [reflexivity|]. tauto.
Qed.

(** ** Leaving and entering guest mode *)

Ltac ctx_unfold :=
  unfold is_hypervisor_execution_context, is_guest_execution_context,
    is_virtualization_mode_active, is_guest_mode, has_lvz_capability,
    get_guest_id in *.

Lemma guest_context_parts env :
  is_guest_execution_context env = true ->
  has_lvz_capability env = true /\ lvz_enabled env = true /\
  is_guest_mode env = true /\ FIELD_EX64 (CSR_GSTAT env) CSR_GSTAT_VM = 1.
Proof.
  intros Hg. pose proof (guest_context_vm env Hg) as Hvm.
  unfold is_guest_execution_context, is_virtualization_mode_active in Hg.
  rewrite !andb_true_iff in Hg. tauto.
Qed.

Lemma vm_exit_run env reason :
  is_guest_execution_context env = true ->
  helper_vm_exit reason env =
  Raised EXCCODE_HVC
    (with_vm_exit_ctx
       (mkCtx (fault_gpa (vm_exit_ctx env)) (CSR env BADV) (gid (vm_exit_ctx env))
              reason (access_type (vm_exit_ctx env)) (is_tlb_refill (vm_exit_ctx env)))
       (with_CSR_GSTAT
          (FIELD_DP64 (FIELD_DP64 (CSR_GSTAT env) CSR_GSTAT_PVM
                                  (FIELD_EX64 (CSR_GSTAT env) CSR_GSTAT_VM))
                      CSR_GSTAT_VM 0) env)).
Proof. intros Hg. unfold helper_vm_exit. run. rewrite Hg. reflexivity. Qed.

(** X6: [helper_vm_exit] in guest execution context records the reason and
    [CSR_BADV] as faulting address, copies [GSTAT.VM] to [GSTAT.PVM], clears
    [GSTAT.VM] and raises [EXCCODE_HVC]: the CPU is in hypervisor context.
    [helper_vm_enter] then sets [GSTAT.VM] again: the CPU is back in guest
    execution context with the same guest ID, and nothing outside [GSTAT]
    and the exit context has changed.  Outside guest execution context
    [helper_vm_exit] does nothing and returns. *)
Theorem vm_exit_then_enter env reason :
  (is_guest_execution_context env = true ->
   exists env1 env2,
     helper_vm_exit reason env = Raised EXCCODE_HVC env1 /\
     is_hypervisor_execution_context env1 = true /\
     exit_reason (vm_exit_ctx env1) = reason /\
     fault_gva (vm_exit_ctx env1) = CSR env BADV /\
     FIELD_EX64 (CSR_GSTAT env1) CSR_GSTAT_PVM = 1 /\
     helper_vm_enter env1 = Done tt env2 /\
     is_guest_execution_context env2 = true /\
     get_guest_id env2 = get_guest_id env /\
     same_outside_exit env env2) /\
  (is_guest_execution_context env = false ->
   helper_vm_exit reason env = Done tt env).
Proof.
  pose proof layout_width_facts as W.
  split.
  - intros Hg. destruct (guest_context_parts env Hg) as [Hl [Hen [Hgm Hvm]]].
    rewrite (vm_exit_run env reason Hg). rewrite Hvm.
    set (env1 := with_vm_exit_ctx _ _).
    assert (Hh : is_hypervisor_execution_context env1 = true).
    { ctx_unfold. cbn. rewrite Hl, Hen. fields. reflexivity. }
    exists env1. eexists. split; [reflexivity|]. split; [exact Hh|].
    split; [reflexivity|]. split; [reflexivity|].
    split.
    { unfold env1. cbn. fields.
      apply land_ones_small; [lia | replace (f_len CSR_GSTAT_PVM) with 1 by lia; lia]. }
    split.
    { unfold helper_vm_enter. run. rewrite Hh. reflexivity. }
    split.
    { ctx_unfold. cbn. rewrite Hl, Hen. fields.
      replace (f_len CSR_GSTAT_VM) with 1 by lia. reflexivity. }
    split.
    { ctx_unfold. cbn. fields. reflexivity. }
    unfold same_outside_exit. cbn. tauto.
  - intros Hn. unfold helper_vm_exit. run. rewrite Hn. reflexivity.
Qed.

Lemma vm_exit_cpu_run env reason :
  is_guest_execution_context env = true ->
  exists env',
    helper_vm_exit_cpu reason env = Raised EXCCODE_HVC env' /\
    vm_exit_ctx env' = mkCtx 0 (pc env) (get_guest_id env) reason 0 false /\
    CSR_GSTAT env' =
      FIELD_DP64 (FIELD_DP64 (CSR_GSTAT env) CSR_GSTAT_PVM
                             (FIELD_EX64 (CSR_GSTAT env) CSR_GSTAT_VM))
                 CSR_GSTAT_VM 0 /\
    cpucfg env' = cpucfg env /\ lvz_enabled env' = lvz_enabled env /\
    CSR_TRGP env' = CSR_TRGP env /\ tlb env' = tlb env /\ pc env' = pc env /\
    (forall r, r <> CRMD -> CSR env' r = CSR env r) /\
    (forall r, r <> PRMD -> r <> ERA -> r <> ESTAT -> GCSR env' r = GCSR env r).
Proof.
  intros Hg. eexists. split.
  { unfold helper_vm_exit_cpu. run. rewrite Hg. cbn. reflexivity. }
  cbn. repeat split; intros; unfold bank_set;
    repeat match goal with |- context [csr_reg_eq_dec ?a ?b] =>
             destruct (csr_reg_eq_dec a b); try congruence end.
Qed.

(** X7: [helper_vm_exit_with_fault] hands over to the controller, which
    writes the exit context anew: after the exit the context holds the
    reason and the guest ID, but the PC as [fault_gva], 0 as [fault_gpa] and
    [access_type], and [is_tlb_refill] false, whatever was passed.  The
    faulting virtual address is in [BADV] of both banks, and the faulting
    physical address in [CSR_TRGP] when the reason is [VMEXIT_MMIO] or
    [VMEXIT_TLB] ([CSR_TRGP] is untouched otherwise). *)
Theorem vm_exit_with_fault_context env reason gva gpa access :
  is_guest_execution_context env = true ->
  exists env',
    helper_vm_exit_with_fault reason gva gpa access env = Raised EXCCODE_HVC env' /\
    vm_exit_ctx env' = mkCtx 0 (pc env) (get_guest_id env) reason 0 false /\
    CSR env' BADV = gva /\ GCSR env' BADV = gva /\
    CSR_TRGP env' =
      (if (reason =? VMEXIT_MMIO) || (reason =? VMEXIT_TLB) then gpa else CSR_TRGP env).
Proof.
  intros Hg. unfold helper_vm_exit_with_fault. run. rewrite Hg. cbv beta iota delta [negb].
  destruct ((reason =? VMEXIT_MMIO) || (reason =? VMEXIT_TLB)); cbv beta iota;
    (match goal with |- context [helper_vm_exit_cpu reason ?e] =>
       destruct (vm_exit_cpu_run e reason Hg)
         as [env' [Hr [Hc [_ [_ [_ [Ht [_ [_ [Hcsr Hgcsr]]]]]]]]]]
     end;
     exists env'; split; [exact Hr|]; split; [exact Hc|];
     rewrite Hcsr, Hgcsr, Ht by discriminate; cbn; bank; auto).
Qed.

(** X8: an [ertn] executed by the hypervisor after a VM exit does not
    return to the guest: the exit left the CPU in hypervisor context, where
    [helper_ertn] restores [CRMD.PLV] and [CRMD.IE] from the host [PRMD] (or
    [TLBRPRMD]) and does not touch [GSTAT]; [GSTAT.VM] stays 0 with
    [GSTAT.PVM] = 1.  It is [helper_vm_enter] that sets [GSTAT.VM]. *)
Theorem ertn_after_vm_exit_stays_in_host env reason :
  is_guest_execution_context env = true ->
  exists env1 env2,
    helper_vm_exit_cpu reason env = Raised EXCCODE_HVC env1 /\
    helper_ertn env1 = Done tt env2 /\
    CSR_GSTAT env2 = CSR_GSTAT env1 /\
    FIELD_EX64 (CSR_GSTAT env2) CSR_GSTAT_VM = 0 /\
    FIELD_EX64 (CSR_GSTAT env2) CSR_GSTAT_PVM = 1 /\
    is_guest_mode env2 = false /\
    is_hypervisor_execution_context env2 = true.
Proof.
  intros Hg. pose proof layout_width_facts as W.
  destruct (guest_context_parts env Hg) as [Hl [Hen [Hgm Hvm]]].
  destruct (vm_exit_cpu_run env reason Hg)
    as [env1 [Hr [_ [Hs [Hc [Hle _]]]]]].
  rewrite Hvm in Hs.
  assert (Hvm1 : FIELD_EX64 (CSR_GSTAT env1) CSR_GSTAT_VM = 0).
  { rewrite Hs. fields. apply Z.land_0_l. }
  assert (Hpvm1 : FIELD_EX64 (CSR_GSTAT env1) CSR_GSTAT_PVM = 1).
  { rewrite Hs. fields.
    apply land_ones_small; [lia | replace (f_len CSR_GSTAT_PVM) with 1 by lia; lia]. }
  assert (Hgm1 : is_guest_mode env1 = false).
  { unfold is_guest_mode. rewrite Hvm1. apply andb_false_r. }
  assert (Hctx1 : is_guest_execution_context env1 = false).
  { unfold is_guest_execution_context. rewrite Hgm1. apply andb_false_r. }
  assert (Hert : exists env2, helper_ertn env1 = Done tt env2 /\
                              CSR_GSTAT env2 = CSR_GSTAT env1 /\
                              cpucfg env2 = cpucfg env1 /\
                              lvz_enabled env2 = lvz_enabled env1).
  { unfold helper_ertn. run. rewrite Hctx1.
    destruct (truthy (FIELD_EX64 (CSR env1 TLBRERA) CSR_TLBRERA_ISTLBR));
      cbn; eexists; (split; [reflexivity|]); cbn;
      unfold set_pc; repeat match goal with |- context [if ?b then _ else _] => destruct b end;
      cbn; auto. }
  destruct Hert as [env2 [He [Hs2 [Hc2 Hl2]]]].
  exists env1, env2. split; [exact Hr|]. split; [exact He|]. split; [exact Hs2|].
  rewrite Hs2. split; [exact Hvm1|]. split; [exact Hpvm1|].
  assert (Hgm2 : is_guest_mode env2 = false).
  { unfold is_guest_mode. rewrite Hs2, Hvm1. apply andb_false_r. }
  split; [exact Hgm2|].
  unfold is_hypervisor_execution_context, is_virtualization_mode_active.
  rewrite Hgm2. unfold has_lvz_capability in *. rewrite Hc2, Hl2, Hc, Hle, Hl, Hen.
  reflexivity.
Qed.

(** ** Switching between guests *)

(** X9: in hypervisor context [helper_vm_context_switch] makes the low 8
    bits of its argument the guest ID in [GSTAT] and changes nothing else:
    the CPU stays in hypervisor context, [GSTAT.VM] and [GSTAT.PVM] keep
    their values and the TLB array keeps the entries of the guest switched
    away from.  In any other context it does nothing. *)
Theorem vm_context_switch_sets_gid env target_gid :
  (is_hypervisor_execution_context env = true ->
   exists env',
     helper_vm_context_switch target_gid env = Done tt env' /\
     get_guest_id env' = target_gid mod 256 /\
     is_hypervisor_execution_context env' = true /\
     FIELD_EX64 (CSR_GSTAT env') CSR_GSTAT_VM = FIELD_EX64 (CSR_GSTAT env) CSR_GSTAT_VM /\
     FIELD_EX64 (CSR_GSTAT env') CSR_GSTAT_PVM = FIELD_EX64 (CSR_GSTAT env) CSR_GSTAT_PVM /\
     vm_exit_ctx env' = vm_exit_ctx env /\
     same_outside_exit env env') /\
  (is_hypervisor_execution_context env = false ->
   helper_vm_context_switch target_gid env = Done tt env).
Proof.
  pose proof layout_width_facts as W.
  split.
  - intros Hh. unfold helper_vm_context_switch. run. rewrite Hh.
    destruct (get_guest_id env =? target_gid) eqn:He; cbv beta iota delta [negb].
    + apply Z.eqb_eq in He. exists env. split; [reflexivity|].
      split.
      { rewrite <- He. unfold get_guest_id. symmetry. apply Z.mod_small. apply u8_range. }
      split; [exact Hh|]. unfold same_outside_exit. tauto.
    + eexists. split; [reflexivity|].
      split.
      { unfold get_guest_id. cbn. fields.
        replace (f_len CSR_GSTAT_GID) with 8 by lia.
        rewrite Z.land_ones by lia. unfold u8. apply Z.mod_mod. lia. }
      split.
      { revert Hh. ctx_unfold. cbn. fields. auto. }
      cbn. fields. unfold same_outside_exit. cbn. tauto.
  - intros Hn. unfold helper_vm_context_switch. run. rewrite Hn. reflexivity.
Qed.

Ltac not_listed H :=
  repeat match goal with
         | |- context [bank_set _ ?x _ ?r] =>
             rewrite (bank_set_other _ x r)
               by (intros ->; apply H; simpl; tauto)
         end.

Lemma vm_save_state_run env :
  is_guest_execution_context env = true ->
  exists env1,
    helper_vm_save_state env = Done tt env1 /\
    CSR env1 = CSR env /\ CSR_GSTAT env1 = CSR_GSTAT env /\ tlb env1 = tlb env /\
    (forall r, In r vm_state_regs -> GCSR env1 r = CSR env r) /\
    (forall r, ~ In r vm_state_regs -> GCSR env1 r = GCSR env r).
Proof.
  intros Hg. eexists. split.
  { unfold helper_vm_save_state. run. rewrite Hg. reflexivity. }
  cbn. split; [reflexivity|]. split; [reflexivity|]. split; [reflexivity|].
  split.
  - intros r Hin. simpl in Hin.
    repeat (destruct Hin as [<- | Hin]; [bank; reflexivity|]). contradiction.
  - intros r Hnin. not_listed Hnin. reflexivity.
Qed.

Lemma vm_restore_state_run env :
  is_hypervisor_execution_context env = true ->
  exists env1,
    helper_vm_restore_state env = Done tt env1 /\
    GCSR env1 = GCSR env /\ CSR_GSTAT env1 = CSR_GSTAT env /\ tlb env1 = tlb env /\
    (forall r, In r vm_state_regs -> CSR env1 r = GCSR env r) /\
    (forall r, ~ In r vm_state_regs -> CSR env1 r = CSR env r).
Proof.
  intros Hh. eexists. split.
  { unfold helper_vm_restore_state. run. rewrite Hh. reflexivity. }
  cbn. split; [reflexivity|]. split; [reflexivity|]. split; [reflexivity|].
  split.
  - intros r Hin. simpl in Hin.
    repeat (destruct Hin as [<- | Hin]; [bank; reflexivity|]). contradiction.
  - intros r Hnin. not_listed Hnin. reflexivity.
Qed.

(** X10: [helper_vm_save_state] in guest execution context copies the
    eleven registers CRMD, ASID, PGDL, PGDH, BADV, BADI, EENTRY, TLBIDX,
    TLBEHI, TLBELO0, TLBELO1 from the host bank to the guest bank and
    changes no other register; [helper_vm_restore_state], run in hypervisor
    context on a state whose guest bank still holds the copies, puts the
    saved values back into the host bank and leaves the other host
    registers.  Outside its context each helper does nothing. *)
Theorem vm_save_restore_roundtrip env env2 :
  is_guest_execution_context env = true ->
  exists env1,
    helper_vm_save_state env = Done tt env1 /\
    CSR env1 = CSR env /\
    (forall r, In r vm_state_regs -> GCSR env1 r = CSR env r) /\
    (forall r, ~ In r vm_state_regs -> GCSR env1 r = GCSR env r) /\
    helper_vm_restore_state env1 = Done tt env1 /\
    (is_hypervisor_execution_context env2 = true ->
     (forall r, In r vm_state_regs -> GCSR env2 r = GCSR env1 r) ->
     exists env3,
       helper_vm_restore_state env2 = Done tt env3 /\
       GCSR env3 = GCSR env2 /\
       (forall r, In r vm_state_regs -> CSR env3 r = CSR env r) /\
       (forall r, ~ In r vm_state_regs -> CSR env3 r = CSR env2 r)).
Proof.
  intros Hg.
  destruct (vm_save_state_run env Hg) as [env1 [Hs [Hc [Hst [_ [Hin Hout]]]]]].
  exists env1. split; [exact Hs|]. split; [exact Hc|]. split; [exact Hin|].
  split; [exact Hout|]. split.
  { assert (Hg1 : is_hypervisor_execution_context env1 = false).
    { assert (E : helper_vm_save_state env = Done tt env1) by exact Hs.
      unfold helper_vm_save_state in E. revert E. run. rewrite Hg.
      cbv beta iota delta [negb]. intros E. apply Done_inj in E. destruct E as [_ <-].
      revert Hg. ctx_unfold. cbn.
      destruct (truthy (FIELD_EX32 (cpucfg env 2) CPUCFG2_LVZ)); [|discriminate].
      destruct (lvz_enabled env); [|discriminate]. cbn. intros ->. reflexivity. }
    unfold helper_vm_restore_state. run. rewrite Hg1. reflexivity. }
  intros Hh Hkept.
  destruct (vm_restore_state_run env2 Hh) as [env3 [Hr [Hgc [_ [_ [Hin3 Hout3]]]]]].
  exists env3. split; [exact Hr|]. split; [exact Hgc|]. split; [|exact Hout3].
  intros r Hr'. rewrite Hin3, Hkept, Hin by exact Hr'. reflexivity.
Qed.

(** ** CPUCFG in a guest *)

(** A check of the finitely many values below [n]. *)
Lemma forall_below (f : Z -> bool) (n : nat) :
  forallb f (map Z.of_nat (seq 0 n)) = true ->
  forall i, 0 <= i < Z.of_nat n -> f i = true.
Proof.
  intros H i Hi. rewrite forallb_forall in H. apply H.
  apply in_map_iff. exists (Z.to_nat i). split; [lia|].
  apply in_seq. lia.
Qed.

Lemma u32_land x : u32 x = Z.land x (Z.ones 32).
Proof. unfold u32. rewrite Z.land_ones by lia. reflexivity. Qed.

Lemma clear_lvz_bits c n :
  0 <= c < 2 ^ 32 -> 0 <= n ->
  Z.testbit (FIELD_DP32 c CPUCFG2_LVZ 0) n = if n =? 10 then false else Z.testbit c n.
Proof.
  intros Hc Hn. unfold FIELD_DP32, deposit32. cbn [f_shift f_len CPUCFG2_LVZ].
  change (u32 (Z.shiftl (Z.ones 1) 10)) with 1024.
  change (u32 (Z.lnot 1024)) with 4294966271.
  change (u32 (Z.shiftl (u32 0) 10)) with 0.
  unfold u32. rewrite (Z.mod_small c) by exact Hc.
  rewrite Z.land_0_l, Z.lor_0_r, Z.land_spec.
  destruct (Z.eqb_spec n 10) as [-> | Hne].
  - rewrite andb_false_r. reflexivity.
  - destruct (Z.lt_ge_cases n 32) as [Hlt | Hge].
    + assert (Hb : Z.testbit 4294966271 n = true).
      { pose proof (forall_below (fun k => (k =? 10) || Z.testbit 4294966271 k) 32
                      ltac:(vm_compute; reflexivity) n ltac:(lia)) as H.
        cbv beta in H. apply orb_true_iff in H. destruct H as [H | H]; [|exact H].
        apply Z.eqb_eq in H. contradiction. }
      rewrite Hb. apply andb_true_r.
    + assert (Z.testbit c n = false) as ->; [|reflexivity].
      destruct (Z.eq_dec c 0) as [-> | Hnz]; [apply Z.testbit_0_l|].
      apply Z.bits_above_log2; [lia|].
      assert (Z.log2 c < 32) by (apply Z.log2_lt_pow2; lia). lia.
Qed.

(** X11: in guest execution context a read of CPUCFG word 2 returns the
    host word with the LVZ bit (bit 10) cleared and every other bit as it
    is, so that the guest sees a CPU without LVZ; a read of a word above 15
    is a VM exit with reason [VMEXIT_CPUCFG]; any other word, and every
    word outside guest execution context, reads as [helper_cpucfg] does:
    [cpucfg[rj]], or 0 past the end of the array. *)
Theorem cpucfg_vm_hides_lvz env rj :
  0 <= cpucfg env 2 < 2 ^ 32 ->
  (is_guest_execution_context env = true ->
   (exists v,
      helper_cpucfg_vm 2 env = Done v env /\
      FIELD_EX32 v CPUCFG2_LVZ = 0 /\
      forall n, 0 <= n -> n <> 10 -> Z.testbit v n = Z.testbit (cpucfg env 2) n) /\
   (15 < rj ->
    exists env',
      helper_cpucfg_vm rj env = Raised EXCCODE_HVC env' /\
      exit_reason (vm_exit_ctx env') = VMEXIT_CPUCFG) /\
   (rj <= 15 -> rj <> 2 -> helper_cpucfg_vm rj env = helper_cpucfg rj env)) /\
  (is_guest_execution_context env = false ->
   helper_cpucfg_vm rj env = helper_cpucfg rj env) /\
  (cpucfg_size <= rj -> helper_cpucfg rj env = Done 0 env).
Proof.
  intros Hc. split; [|split].
  - intros Hg. split; [|split].
    + eexists. split.
      { unfold helper_cpucfg_vm. run. rewrite Hg. reflexivity. }
      change (if cpucfg_size <=? 2 then 0 else cpucfg env 2) with (cpucfg env 2).
      split.
      * unfold FIELD_EX32, extract64. cbn [f_shift f_len CPUCFG2_LVZ].
        apply Z.bits_inj'. intros n Hn. rewrite Z.land_spec, Z.shiftr_spec by lia.
        rewrite clear_lvz_bits by (exact Hc || lia).
        rewrite Z.bits_0. destruct (Z.eqb_spec (n + 10) 10) as [He | He]; [reflexivity|].
        assert (Z.testbit (Z.ones 1) n = false) as ->; [|apply andb_false_r].
        rewrite Z.testbit_ones by lia.
        destruct (Z.ltb_spec n 1); [lia | apply andb_false_r].
      * intros n Hn Hne. rewrite clear_lvz_bits by (exact Hc || lia).
        destruct (Z.eqb_spec n 10); [contradiction | reflexivity].
    + intros Hrj. unfold helper_cpucfg_vm. run. rewrite Hg.
      destruct (Z.eqb_spec rj 2) as [-> | _]; [lia|].
      destruct (Z.ltb_spec 15 rj) as [_ | ?]; [|lia].
      rewrite (vm_exit_run env VMEXIT_CPUCFG Hg). eexists. split; reflexivity.
    + intros Hle Hne. unfold helper_cpucfg_vm, helper_cpucfg. run. rewrite Hg.
      destruct (Z.eqb_spec rj 2) as [-> | _]; [contradiction|].
      destruct (Z.ltb_spec 15 rj) as [? | _]; [lia | reflexivity].
  - intros Hn. unfold helper_cpucfg_vm, helper_cpucfg. run. rewrite Hn. reflexivity.
  - intros Hrj. unfold helper_cpucfg. run.
    destruct (Z.leb_spec cpucfg_size rj); [reflexivity | lia].
Qed.

(** ** Guest TLB instructions *)

(** X12: outside guest mode every guest-instruction helper raises
    [EXCCODE_IPE] and leaves the state as it was: the guest CSR accesses,
    and the guest TLB search, read, write, fill, clear and flush. *)
Theorem guest_instructions_need_guest_mode env :
  is_guest_mode env = false ->
  (forall csr, helper_gcsrrd csr env = Raised EXCCODE_IPE env) /\
  (forall val csr, helper_gcsrwr val csr env = Raised EXCCODE_IPE env) /\
  (forall rj rd csr, helper_gcsrxchg rj rd csr env = Raised EXCCODE_IPE env) /\
  helper_gtlbsrch env = Raised EXCCODE_IPE env /\
  helper_gtlbrd env = Raised EXCCODE_IPE env /\
  helper_gtlbwr env = Raised EXCCODE_IPE env /\
  (forall val, helper_gtlbfill val env = Raised EXCCODE_IPE env) /\
  helper_gtlbclr env = Raised EXCCODE_IPE env /\
  helper_gtlbflush env = Raised EXCCODE_IPE env.
Proof.
  intros Hn.
  repeat split; intros;
    unfold helper_gcsrrd, helper_gcsrwr, helper_gcsrxchg, helper_gtlbsrch,
      helper_gtlbrd, helper_gtlbwr, helper_gtlbfill, helper_gtlbclr, helper_gtlbflush;
    run; rewrite Hn; reflexivity.
Qed.

Lemma bit54_is_gid_bit m :
  truthy (Z.land m (Z.shiftl 1 54)) = Z.odd (FIELD_EX64 m TLB_MISC_GID).
Proof.
  rewrite <- Z.bit0_odd. unfold FIELD_EX64, extract64. cbn [f_shift f_len TLB_MISC_GID].
  rewrite Z.land_spec, Z.shiftr_spec by lia. change (Z.testbit (Z.ones 8) 0) with true.
  rewrite andb_true_r. change (0 + 54) with 54.
  assert (H : Z.land m (Z.shiftl 1 54) = if Z.testbit m 54 then Z.shiftl 1 54 else 0).
  { apply Z.bits_inj'. intros n Hn. rewrite Z.land_spec.
    destruct (Z.eq_dec n 54) as [-> | Hne].
    - destruct (Z.testbit m 54); [reflexivity | rewrite Z.bits_0; reflexivity].
    - assert (Z.testbit (Z.shiftl 1 54) n = false) as ->.
      { rewrite Z.shiftl_spec by lia.
        destruct (Z.lt_ge_cases n 54); [apply Z.testbit_neg_r; lia|].
        change 1 with (Z.ones 1). rewrite Z.testbit_ones by lia.
        destruct (Z.ltb_spec (n - 54) 1); [lia | apply andb_false_r]. }
      rewrite andb_false_r. destruct (Z.testbit m 54);
        [|rewrite Z.bits_0; reflexivity].
      rewrite Z.shiftl_spec by lia.
      destruct (Z.lt_ge_cases n 54); [symmetry; apply Z.testbit_neg_r; lia|].
      change 1 with (Z.ones 1). rewrite Z.testbit_ones by lia.
      destruct (Z.ltb_spec (n - 54) 1); [lia | symmetry; apply andb_false_r]. }
  rewrite H. destruct (Z.testbit m 54); reflexivity.
Qed.

Lemma guest_id_range env : 0 <= get_guest_id env < 256.
Proof. apply u8_range. Qed.

Lemma guest_tlb_entry_fields env :
  let t := guest_tlb_entry env in
  FIELD_EX64 (tlb_misc t) TLB_MISC_E = 1 /\
  FIELD_EX64 (tlb_misc t) TLB_MISC_GID = get_guest_id env /\
  FIELD_EX64 (tlb_misc t) TLB_MISC_VPPN =
    Z.land (Z.shiftr (GCSR env TLBEHI) 13) (Z.ones 35) /\
  FIELD_EX64 (tlb_misc t) TLB_MISC_ASID =
    Z.land (FIELD_EX64 (GCSR env ASID) CSR_ASID_ASID) (Z.ones 10) /\
  tlb_entry0 t = GCSR env TLBELO0 /\ tlb_entry1 t = GCSR env TLBELO1.
Proof.
  cbv zeta. unfold guest_tlb_entry. cbn [tlb_misc tlb_entry0 tlb_entry1]. fields.
  repeat split.
  pose proof (guest_id_range env).
  apply land_ones_small; [discriminate | exact H].
Qed.

Lemma gtlbwr_run env :
  is_guest_mode env = true ->
  FIELD_EX64 (GCSR env TLBIDX) CSR_TLBIDX_INDEX < LOONGARCH_TLB_MAX ->
  helper_gtlbwr env =
  Done tt (with_tlb (tlb_set (tlb env) (FIELD_EX64 (GCSR env TLBIDX) CSR_TLBIDX_INDEX)
                             (guest_tlb_entry env)) env).
Proof.
  intros Hg Hi. pose proof (guest_mode_lvz env Hg) as Hl.
  pose proof (tlbidx_index_range (GCSR env TLBIDX)) as Hr.
  unfold helper_gtlbwr, tlb_store. run. rewrite Hg, Hl. cbv beta iota delta [negb].
  unfold u32. rewrite Z.mod_small by lia.
  destruct (Z.leb_spec LOONGARCH_TLB_MAX (FIELD_EX64 (GCSR env TLBIDX) CSR_TLBIDX_INDEX));
    [lia|].
  assert (Hb : tlb_in_bounds (FIELD_EX64 (GCSR env TLBIDX) CSR_TLBIDX_INDEX) = true)
    by (apply in_bounds_iff; lia).
  rewrite Hb. reflexivity.
Qed.

(** X13: in guest mode [gtlbwr] with an index of the array writes one
    entry, enabled and tagged with the guest's ID, from the guest CSRs.  A
    [gtlbrd] that follows reads it back when the guest ID is odd: [TLBELO0]
    and [TLBELO1] as they were, [TLBEHI] reduced to bits 13..47, and
    [GCSR_ASID] reduced to its ASID field.  When the guest ID is even
    [gtlbrd] reads nothing: it takes bit 54 of [tlb_misc], the lowest bit
    of the tag, for the presence of a tag. *)
Theorem gtlbwr_gtlbrd_roundtrip env :
  let index := FIELD_EX64 (GCSR env TLBIDX) CSR_TLBIDX_INDEX in
  is_guest_mode env = true ->
  index < LOONGARCH_TLB_MAX ->
  exists env1,
    helper_gtlbwr env = Done tt env1 /\
    tlb env1 index = guest_tlb_entry env /\
    (forall j, j <> index -> tlb env1 j = tlb env j) /\
    FIELD_EX64 (tlb_misc (tlb env1 index)) TLB_MISC_E = 1 /\
    FIELD_EX64 (tlb_misc (tlb env1 index)) TLB_MISC_GID = get_guest_id env /\
    (Z.odd (get_guest_id env) = true ->
     exists env2,
       helper_gtlbrd env1 = Done tt env2 /\
       tlb env2 = tlb env1 /\
       GCSR env2 TLBELO0 = GCSR env TLBELO0 /\
       GCSR env2 TLBELO1 = GCSR env TLBELO1 /\
       GCSR env2 TLBEHI = Z.land (GCSR env TLBEHI) (field_mask TLB_MISC_VPPN) /\
       GCSR env2 ASID =
         Z.land (FIELD_EX64 (GCSR env ASID) CSR_ASID_ASID) (Z.ones 10)) /\
    (Z.odd (get_guest_id env) = false -> helper_gtlbrd env1 = Done tt env1).
Proof.
  cbv zeta. intros Hg Hi. pose proof (guest_mode_lvz env Hg) as Hl.
  pose proof (tlbidx_index_range (GCSR env TLBIDX)) as Hr.
  destruct (guest_tlb_entry_fields env) as [He [Hgid [Hv [Ha [H0 H1]]]]].
  set (index := FIELD_EX64 (GCSR env TLBIDX) CSR_TLBIDX_INDEX) in *.
  set (env1 := with_tlb (tlb_set (tlb env) index (guest_tlb_entry env)) env).
  assert (Hb : tlb_in_bounds index = true) by (apply in_bounds_iff; lia).
  assert (Hrd : helper_gtlbrd env1 =
                (if Z.odd (get_guest_id env) then
                   Done tt
                     (set_GCSR ASID (FIELD_EX64 (tlb_misc (guest_tlb_entry env)) TLB_MISC_ASID)
                     (set_GCSR TLBELO1 (tlb_entry1 (guest_tlb_entry env))
                     (set_GCSR TLBELO0 (tlb_entry0 (guest_tlb_entry env))
                     (set_GCSR TLBEHI
                        (u64 (Z.shiftl (FIELD_EX64 (tlb_misc (guest_tlb_entry env))
                                                   TLB_MISC_VPPN) 13)) env1))))
                 else Done tt env1)).
  { unfold helper_gtlbrd, tlb_load. run.
    change (is_guest_mode env1) with (is_guest_mode env).
    change (has_lvz_capability env1) with (has_lvz_capability env).
    rewrite Hg, Hl. cbv beta iota delta [negb].
    change (GCSR env1 TLBIDX) with (GCSR env TLBIDX). fold index.
    unfold u32. rewrite Z.mod_small by lia.
    destruct (Z.leb_spec LOONGARCH_TLB_MAX index); [lia|].
    rewrite Hb. cbv beta iota.
    change (tlb env1 index) with (tlb_set (tlb env) index (guest_tlb_entry env) index).
    rewrite tlb_set_same, bit54_is_gid_bit, Hgid.
    destruct (Z.odd (get_guest_id env)); [|reflexivity].
    change (get_guest_id env1) with (get_guest_id env).
    rewrite u8_small by apply guest_id_range. rewrite Z.eqb_refl. reflexivity. }
  exists env1. split; [apply gtlbwr_run; assumption|].
  split; [unfold env1; cbn; apply tlb_set_same|].
  split; [intros j Hj; unfold env1; cbn; apply tlb_set_other; exact Hj|].
  assert (Ht : tlb env1 index = guest_tlb_entry env)
    by (unfold env1; cbn; apply tlb_set_same).
  rewrite Ht. split; [exact He|]. split; [exact Hgid|].
  split.
  - intros Hodd. rewrite Hodd in Hrd. eexists. split; [exact Hrd|].
    unfold set_GCSR. cbn [GCSR tlb with_GCSR]. bank. rewrite H0, H1, Ha, Hv.
    split; [reflexivity|]. split; [reflexivity|]. split; [reflexivity|].
    split; [|reflexivity].
    unfold field_mask. cbn [f_shift f_len TLB_MISC_VPPN].
    rewrite <- extract_as_mask by lia. unfold extract64.
    unfold u64. apply Z.mod_small.
    assert (0 <= Z.land (Z.shiftr (GCSR env TLBEHI) 13) (Z.ones 35) < 2 ^ 35).
    { rewrite Z.land_ones by lia. apply Z.mod_pos_bound. lia. }
    rewrite Z.shiftl_mul_pow2 by lia. lia.
  - intros Heven. rewrite Heven in Hrd. exact Hrd.
Qed.

(** X14: in guest mode [gtlbfill] always returns and writes exactly one
    entry, built from the guest CSRs and tagged with the guest's ID, at the
    random value reduced modulo 2048: an STLB index, whatever the page
    size; the MTLB is never written.  It records the index in
    [GCSR_TLBIDX.INDEX] and changes no other register. *)
Theorem gtlbfill_writes_stlb env val :
  let index := u32 val mod LOONGARCH_STLB in
  is_guest_mode env = true ->
  exists env',
    helper_gtlbfill val env = Done tt env' /\
    0 <= index < LOONGARCH_STLB /\
    tlb env' index = guest_tlb_entry env /\
    (forall j, j <> index -> tlb env' j = tlb env j) /\
    FIELD_EX64 (tlb_misc (tlb env' index)) TLB_MISC_GID = get_guest_id env /\
    GCSR env' TLBIDX = FIELD_DP64 (GCSR env TLBIDX) CSR_TLBIDX_INDEX index /\
    (forall r, r <> TLBIDX -> GCSR env' r = GCSR env r) /\
    CSR env' = CSR env /\ CSR_GSTAT env' = CSR_GSTAT env.
Proof.
  cbv zeta. intros Hg. pose proof (guest_mode_lvz env Hg) as Hl.
  assert (Hr : 0 <= u32 val mod LOONGARCH_STLB < LOONGARCH_STLB)
    by (apply Z.mod_pos_bound; reflexivity).
  assert (Hb : tlb_in_bounds (u32 val mod LOONGARCH_STLB) = true).
  { apply in_bounds_iff. change LOONGARCH_TLB_MAX with 2112.
    change LOONGARCH_STLB with 2048 in *. lia. }
  destruct (guest_tlb_entry_fields env) as [_ [Hgid _]].
  eexists. split.
  { unfold helper_gtlbfill, tlb_store. run. rewrite Hg, Hl. cbv beta iota delta [negb].
    rewrite Hb. reflexivity. }
  unfold set_GCSR. cbn [GCSR CSR CSR_GSTAT tlb with_GCSR with_tlb].
  split; [exact Hr|]. rewrite tlb_set_same.
  split; [reflexivity|].
  split; [intros j Hj; apply tlb_set_other; exact Hj|].
  split; [exact Hgid|]. split; [apply bank_set_same|].
  split; [intros r Hne; apply bank_set_other; exact Hne|]. auto.
Qed.

Lemma gtlbsrch_probe_state gid vppn asid k e r e' :
  gtlbsrch_probe gid vppn asid k e = Done r e' -> e' = e.
Proof.
  unfold gtlbsrch_probe, tlb_load. run.
  destruct (tlb_in_bounds k); [|discriminate]. cbv beta iota.
  repeat match goal with
         | |- context [if ?b then _ else _] => destruct b
         end; intros H; apply Done_inj in H; destruct H as [_ ->]; reflexivity.
Qed.

Lemma gtlbsrch_probe_pure gid vppn asid k e :
  tlb_in_bounds k = true -> exists r, gtlbsrch_probe gid vppn asid k e = Done r e.
Proof.
  intros Hb. unfold gtlbsrch_probe, tlb_load. run. rewrite Hb. cbv beta iota.
  repeat match goal with
         | |- context [if ?b then _ else _] => destruct b
         end; eexists; reflexivity.
Qed.

Lemma gtlbsrch_probe_hit gid vppn asid k e j e' :
  gtlbsrch_probe gid vppn asid k e = Done (Some j) e' ->
  j = k /\ tlb_in_bounds k = true /\
  Z.odd (FIELD_EX64 (tlb_misc (tlb e k)) TLB_MISC_GID) = true /\
  u8 (FIELD_EX64 (tlb_misc (tlb e k)) TLB_MISC_GID) = gid /\
  FIELD_EX64 (tlb_misc (tlb e k)) TLB_MISC_VPPN = vppn /\
  FIELD_EX64 (tlb_misc (tlb e k)) TLB_MISC_ASID = asid.
Proof.
  unfold gtlbsrch_probe, tlb_load. run.
  destruct (tlb_in_bounds k); [|discriminate]. cbv beta iota.
  rewrite bit54_is_gid_bit.
  destruct (Z.odd (FIELD_EX64 (tlb_misc (tlb e k)) TLB_MISC_GID)); [|discriminate].
  destruct (u8 (FIELD_EX64 (tlb_misc (tlb e k)) TLB_MISC_GID) =? gid) eqn:H1;
    cbv beta iota delta [andb]; [|discriminate].
  destruct (FIELD_EX64 (tlb_misc (tlb e k)) TLB_MISC_VPPN =? vppn) eqn:H2;
    [|discriminate].
  destruct (FIELD_EX64 (tlb_misc (tlb e k)) TLB_MISC_ASID =? asid) eqn:H3;
    [|discriminate].
  intros H. apply Done_inj in H. destruct H as [H _]. injection H as <-.
  apply Z.eqb_eq in H1, H2, H3. repeat split; assumption || reflexivity.
Qed.

(** X15: in guest mode [gtlbsrch] returns, touching only [GCSR_TLBIDX].
    It either reports a miss ([NE] := 1) or the index of an entry of the
    array whose tag is the guest's ID and whose VPPN and ASID are those of
    [GCSR_TLBEHI >> 13] and the guest ASID; it then stores the index and
    clears [NE].  A hit needs bit 54 of [tlb_misc] set: a guest with an even
    ID never gets one. *)
Theorem gtlbsrch_result env :
  is_guest_mode env = true ->
  exists env',
    helper_gtlbsrch env = Done tt env' /\
    tlb env' = tlb env /\ CSR env' = CSR env /\ CSR_GSTAT env' = CSR_GSTAT env /\
    (forall r, r <> TLBIDX -> GCSR env' r = GCSR env r) /\
    (GCSR env' TLBIDX = FIELD_DP64 (GCSR env TLBIDX) CSR_TLBIDX_NE 1 \/
     exists i,
       0 <= i < LOONGARCH_TLB_MAX /\
       GCSR env' TLBIDX =
         FIELD_DP64 (FIELD_DP64 (GCSR env TLBIDX) CSR_TLBIDX_INDEX i) CSR_TLBIDX_NE 0 /\
       FIELD_EX64 (tlb_misc (tlb env i)) TLB_MISC_GID = get_guest_id env /\
       FIELD_EX64 (tlb_misc (tlb env i)) TLB_MISC_VPPN = Z.shiftr (GCSR env TLBEHI) 13 /\
       FIELD_EX64 (tlb_misc (tlb env i)) TLB_MISC_ASID =
         FIELD_EX64 (GCSR env ASID) CSR_ASID_ASID /\
       Z.odd (get_guest_id env) = true) /\
    (Z.odd (get_guest_id env) = false ->
     GCSR env' TLBIDX = FIELD_DP64 (GCSR env TLBIDX) CSR_TLBIDX_NE 1).
Proof.
  intros Hg. pose proof (guest_mode_lvz env Hg) as Hl.
  unfold helper_gtlbsrch, search_loop. run. rewrite Hg, Hl. cbv beta iota delta [negb].
  match goal with |- context [search_range ?n ?i ?p env] =>
    destruct (search_range_pure p n i env) as [r Hr] end.
  { intros k e Hk. apply gtlbsrch_probe_pure. apply in_bounds_iff.
    rewrite Z2Nat.id in Hk by (vm_compute; discriminate). lia. }
  rewrite Hr. destruct r as [i|].
  - apply search_range_hit in Hr; [|intros; eapply gtlbsrch_probe_state; eassumption].
    destruct Hr as [_ [k [_ Hk]]]. apply gtlbsrch_probe_hit in Hk.
    destruct Hk as [<- [Hb [Hodd [Hgid [Hv Ha]]]]].
    assert (Hgid' : FIELD_EX64 (tlb_misc (tlb env i)) TLB_MISC_GID = get_guest_id env).
    { rewrite <- Hgid. symmetry. apply u8_small.
      apply (FIELD_EX64_range _ TLB_MISC_GID). reflexivity. }
    eexists. split; [reflexivity|].
    unfold set_GCSR. cbn [GCSR CSR CSR_GSTAT tlb with_GCSR]. bank.
    split; [reflexivity|]. split; [reflexivity|]. split; [reflexivity|].
    split; [intros r Hne; rewrite !bank_set_other by exact Hne; reflexivity|].
    split.
    + right. exists i. split; [apply in_bounds_iff, Hb|].
      split; [reflexivity|]. rewrite <- Hgid'. auto.
    + intros Heven. rewrite <- Hgid' in Heven. congruence.
  - eexists. split; [reflexivity|].
    unfold set_GCSR. cbn [GCSR CSR CSR_GSTAT tlb with_GCSR]. bank.
    split; [reflexivity|]. split; [reflexivity|]. split; [reflexivity|].
    split; [intros r Hne; rewrite !bank_set_other by exact Hne; reflexivity|].
    split; [left; reflexivity | reflexivity].
Qed.

(** ** The guest TLB of the second-level translation *)

Lemma guest_tlb_probe_miss va gid k env :
  tlb_in_bounds k = true ->
  tlb_entry_matches_gid (tlb_misc (tlb env k)) gid = false \/
  is_guest_page_tlb_entry (tlb_misc (tlb env k)) = false ->
  guest_tlb_probe va gid k env = Done None env.
Proof.
  intros Hb H. unfold guest_tlb_probe, tlb_load. run. rewrite Hb. cbv beta iota.
  destruct (tlb_entry_matches_gid (tlb_misc (tlb env k)) gid);
    cbv beta iota delta [negb]; [|reflexivity].
  destruct H as [H | H]; [discriminate|]. rewrite H. reflexivity.
Qed.

Lemma guest_tlb_probe_state va gid k e r e' :
  guest_tlb_probe va gid k e = Done r e' -> e' = e.
Proof.
  unfold guest_tlb_probe, tlb_load. run.
  destruct (tlb_in_bounds k); [|discriminate]. cbv beta iota.
  repeat match goal with
         | |- context [if ?b then _ else _] => destruct b
         end; intros H; apply Done_inj in H; destruct H as [_ ->]; reflexivity.
Qed.

Lemma guest_tlb_probe_hit va gid k e j e' :
  guest_tlb_probe va gid k e = Done (Some j) e' ->
  j = k /\ tlb_in_bounds k = true /\
  tlb_entry_matches_gid (tlb_misc (tlb e k)) gid = true /\
  is_guest_page_tlb_entry (tlb_misc (tlb e k)) = true /\
  Z.shiftr va (FIELD_EX64 (tlb_misc (tlb e k)) TLB_MISC_PS) =
    FIELD_EX64 (tlb_misc (tlb e k)) TLB_MISC_VPPN.
Proof.
  unfold guest_tlb_probe, tlb_load. run.
  destruct (tlb_in_bounds k); [|discriminate]. cbv beta iota.
  destruct (tlb_entry_matches_gid (tlb_misc (tlb e k)) gid);
    cbv beta iota delta [negb]; [|discriminate].
  destruct (is_guest_page_tlb_entry (tlb_misc (tlb e k)));
    cbv beta iota delta [negb]; [|discriminate].
  match goal with |- context [?a =? ?b] => destruct (Z.eqb_spec a b) end;
    [|discriminate].
  intros H. apply Done_inj in H. destruct H as [H _]. injection H as <-.
  repeat split; assumption || reflexivity.
Qed.

Lemma matches_gid_cleared t gid :
  tlb_entry_matches_gid (tlb_misc (tlb_clear_entry t)) gid = false.
Proof.
  unfold tlb_entry_matches_gid. rewrite clear_entry_disabled.
  change (truthy 0) with false. apply andb_false_r.
Qed.

(** X16: [loongarch_clear_guest_tlb_by_gid] returns, changes nothing but the
    TLB array and clears [E] in exactly the enabled entries tagged [gid],
    for a [gid] other than 0; entries of other guests, entries tagged 0
    (the VMM's) and every other bit stay.  Afterwards
    [loongarch_search_guest_tlb] reports -1 for [gid] at every address.
    With [gid] = 0 no entry changes. *)
Theorem clear_guest_tlb_by_gid_clears env gid :
  exists env',
    loongarch_clear_guest_tlb_by_gid gid env = Done tt env' /\
    only_tlb env env' /\
    (forall k, tlb env' k =
               if tlb_in_bounds k &&
                  (tlb_entry_matches_gid (tlb_misc (tlb env k)) gid &&
                   is_guest_page_tlb_entry (tlb_misc (tlb env k)))
               then tlb_clear_entry (tlb env k) else tlb env k) /\
    (forall va, loongarch_search_guest_tlb va gid env' = Done (-1) env') /\
    (gid = 0 -> forall k, tlb env' k = tlb env k).
Proof.
  destruct (for_loop_clear_all (clear_by_gid_cond gid) env) as [env' [Hr [Ht Hs]]].
  { intros e a k t. reflexivity. }
  unfold clear_by_gid_cond in Hs.
  exists env'. split; [exact Hr|]. split; [exact Ht|]. split; [exact Hs|].
  split.
  - intros va. unfold loongarch_search_guest_tlb, search_loop. run.
    rewrite search_range_miss; [reflexivity|].
    intros k Hk. rewrite Z2Nat.id in Hk by (vm_compute; discriminate).
    assert (Hb : tlb_in_bounds k = true) by (apply in_bounds_iff; lia).
    apply guest_tlb_probe_miss; [exact Hb|].
    rewrite Hs, Hb. cbv beta iota delta [andb].
    destruct (tlb_entry_matches_gid (tlb_misc (tlb env k)) gid) eqn:Hm;
      [|left; exact Hm].
    destruct (is_guest_page_tlb_entry (tlb_misc (tlb env k))) eqn:Hp;
      [left; apply matches_gid_cleared | right; exact Hp].
  - intros -> k. rewrite Hs.
    destruct (tlb_in_bounds k); cbv beta iota delta [andb]; [|reflexivity].
    unfold tlb_entry_matches_gid, is_guest_page_tlb_entry.
    pose proof (FIELD_EX64_range (tlb_misc (tlb env k)) TLB_MISC_GID eq_refl) as Hg.
    change (2 ^ f_len TLB_MISC_GID) with 256 in Hg. rewrite u8_small by exact Hg.
    destruct (Z.eqb_spec (FIELD_EX64 (tlb_misc (tlb env k)) TLB_MISC_GID) 0);
      cbv beta iota delta [andb negb];
      [destruct (truthy (FIELD_EX64 (tlb_misc (tlb env k)) TLB_MISC_E))|];
      reflexivity.
Qed.

(** X17: a hit of [loongarch_search_guest_tlb] is an index of the array
    whose entry is enabled, tagged with the guest ID searched for, which is
    not 0, and whose VPPN is the address shifted by the entry's page size;
    the search leaves the state as it was, and -1 is the only other
    result. *)
Theorem search_guest_tlb_sound env va gid :
  exists i,
    loongarch_search_guest_tlb va gid env = Done i env /\
    (i = -1 \/
     (0 <= i < LOONGARCH_TLB_MAX /\
      FIELD_EX64 (tlb_misc (tlb env i)) TLB_MISC_E = 1 /\
      u8 (FIELD_EX64 (tlb_misc (tlb env i)) TLB_MISC_GID) = gid /\
      gid <> 0 /\
      Z.shiftr va (FIELD_EX64 (tlb_misc (tlb env i)) TLB_MISC_PS) =
        FIELD_EX64 (tlb_misc (tlb env i)) TLB_MISC_VPPN)).
Proof.
  unfold loongarch_search_guest_tlb, search_loop. run.
  match goal with |- context [search_range ?n ?i ?p env] =>
    destruct (search_range_pure p n i env) as [r Hr] end.
  { intros k e Hk. rewrite Z2Nat.id in Hk by (vm_compute; discriminate).
    assert (Hb : tlb_in_bounds k = true) by (apply in_bounds_iff; lia).
    unfold guest_tlb_probe, tlb_load. run. rewrite Hb. cbv beta iota.
    repeat match goal with
           | |- context [if ?b then _ else _] => destruct b
           end; eexists; reflexivity. }
  rewrite Hr. destruct r as [i|].
  - exists i. split; [reflexivity|]. right.
    apply search_range_hit in Hr; [|intros; eapply guest_tlb_probe_state; eassumption].
    destruct Hr as [_ [k [_ Hk]]]. apply guest_tlb_probe_hit in Hk.
    destruct Hk as [<- [Hb [Hm [Hp Hv]]]].
    unfold tlb_entry_matches_gid in Hm. apply andb_true_iff in Hm.
    destruct Hm as [Hgid He]. apply Z.eqb_eq in Hgid.
    split; [apply in_bounds_iff, Hb|].
    split.
    { apply one_bit_truthy; [reflexivity | reflexivity | exact He]. }
    split; [exact Hgid|]. split; [|exact Hv].
    intros ->. unfold is_guest_page_tlb_entry in Hp.
    pose proof (FIELD_EX64_range (tlb_misc (tlb env i)) TLB_MISC_GID eq_refl) as Hg.
    change (2 ^ f_len TLB_MISC_GID) with 256 in Hg. rewrite u8_small in Hgid by exact Hg.
    rewrite Hgid in Hp. discriminate.
  - exists (-1). split; [reflexivity | left; reflexivity].
Qed.

(** ** The search on a CPU without LVZ *)

Lemma search_range_ext p q n :
  forall i env,
    (forall k, p k env = q k env) ->
    (forall k r e', p k env = Done r e' -> e' = env) ->
    search_range n i p env = search_range n i q env.
Proof.
  induction n as [|n IH]; intros i env Heq Hst.
  - reflexivity.
  - cbn [search_range]. unfold bind. rewrite <- Heq.
    destruct (p i env) as [r e1 | |] eqn:Hp; try reflexivity.
    pose proof (Hst _ _ _ Hp) as ->.
    destruct r; [reflexivity|]. apply IH; assumption.
Qed.

Lemma search_probe_without_lvz vaddr asid cur mtlb ps idx env :
  has_lvz_capability env = false ->
  search_probe vaddr asid cur mtlb ps idx env =
  tlb_search_probe vaddr asid mtlb ps idx env.
Proof.
  intros Hl. unfold search_probe, tlb_search_probe, tlb_load. run.
  destruct (tlb_in_bounds idx); [|reflexivity]. cbv beta iota.
  rewrite Hl. cbv beta iota delta [andb]. reflexivity.
Qed.

(** X18: on a CPU without the LVZ capability the guest-aware search is the
    search of the CPU without virtualization: for every address and state
    [loongarch_tlb_search_guest] and [loongarch_tlb_search] give the same
    result. *)
Theorem tlb_search_guest_without_lvz env vaddr :
  has_lvz_capability env = false ->
  loongarch_tlb_search_guest vaddr env = loongarch_tlb_search vaddr env.
Proof.
  intros Hl.
  assert (Hgm : is_guest_mode env = false) by (unfold is_guest_mode; rewrite Hl; reflexivity).
  unfold loongarch_tlb_search_guest, loongarch_tlb_search, search_loop. run.
  unfold get_effective_csr_asid, get_effective_csr, get_current_guest_id.
  rewrite Hgm.
  rewrite (search_range_ext
             (fun i => search_probe vaddr
                (u16 (FIELD_EX64 (CSR env ASID) CSR_ASID_ASID)) 0 false
                (u8 (FIELD_EX64 (CSR env STLBPS) CSR_STLBPS_PS))
                (i * 256 + u16 (Z.land (Z.shiftr (Z.land vaddr TARGET_VIRT_MASK)
                     (u8 (FIELD_EX64 (CSR env STLBPS) CSR_STLBPS_PS) + 1)) 255)))
             (fun i => tlb_search_probe vaddr
                (u16 (FIELD_EX64 (CSR env ASID) CSR_ASID_ASID)) false
                (u8 (FIELD_EX64 (CSR env STLBPS) CSR_STLBPS_PS))
                (i * 256 + u16 (Z.land (Z.shiftr (Z.land vaddr TARGET_VIRT_MASK)
                     (u8 (FIELD_EX64 (CSR env STLBPS) CSR_STLBPS_PS) + 1)) 255))));
    [| intros k; apply search_probe_without_lvz; exact Hl
     | intros k r e' H; eapply search_probe_state; exact H].
  match goal with |- context [search_range ?n ?i ?p env] =>
    destruct (search_range n i p env) as [r e1 | x e1 | k] eqn:Hs end;
    [| reflexivity | reflexivity].
  assert (e1 = env) as ->.
  { eapply search_range_state; [|exact Hs].
    intros k e r0 e' H.
    unfold tlb_search_probe, tlb_load in H. revert H. run.
    destruct (tlb_in_bounds _); [|discriminate]. cbv beta iota.
    repeat match goal with
           | |- context [if ?b then _ else _] => destruct b
           end; intros H; apply Done_inj in H; destruct H as [_ ->]; reflexivity. }
  destruct r; [reflexivity|].
  apply search_range_ext;
    [intros k; apply search_probe_without_lvz; exact Hl
    | intros k r e' H; eapply search_probe_state; exact H].
Qed.

(** ** [bitswap] *)

Lemma swap_step_bit v M k i :
  0 <= i < 64 ->
  Z.testbit (Z.lor (Z.land (Z.shiftr v k) M) (u64 (Z.shiftl (Z.land v M) k))) i =
  (Z.testbit v (i + k) && Z.testbit M i) || (Z.testbit v (i - k) && Z.testbit M (i - k)).
Proof.
  intros Hi. rewrite Z.lor_spec, Z.land_spec, Z.shiftr_spec by lia.
  unfold u64. rewrite Z.mod_pow2_bits_low by lia.
  rewrite Z.shiftl_spec by lia. rewrite Z.land_spec. reflexivity.
Qed.

(** The bit of the operand that each stage of [helper_bitswap] moves to
    position [i]: the neighbour in its pair, its pair of pairs, its
    nibble. *)
Lemma swap_masks i :
  0 <= i < 64 ->
  Z.testbit 0x5555555555555555 i = Z.even i /\
  Z.testbit 0x5555555555555555 (i - 1) = negb (Z.even i) /\
  Z.testbit 0x3333333333333333 i = (i mod 4 <? 2) /\
  Z.testbit 0x3333333333333333 (i - 2) = negb (i mod 4 <? 2) /\
  Z.testbit 0x0F0F0F0F0F0F0F0F i = (i mod 8 <? 4) /\
  Z.testbit 0x0F0F0F0F0F0F0F0F (i - 4) = negb (i mod 8 <? 4).
Proof.
  intros Hi.
  pose proof (forall_below
    (fun i =>
       Bool.eqb (Z.testbit 0x5555555555555555 i) (Z.even i) &&
       Bool.eqb (Z.testbit 0x5555555555555555 (i - 1)) (negb (Z.even i)) &&
       Bool.eqb (Z.testbit 0x3333333333333333 i) (i mod 4 <? 2) &&
       Bool.eqb (Z.testbit 0x3333333333333333 (i - 2)) (negb (i mod 4 <? 2)) &&
       Bool.eqb (Z.testbit 0x0F0F0F0F0F0F0F0F i) (i mod 8 <? 4) &&
       Bool.eqb (Z.testbit 0x0F0F0F0F0F0F0F0F (i - 4)) (negb (i mod 8 <? 4)))
    64 ltac:(vm_compute; reflexivity) i Hi) as H.
  cbv beta in H. rewrite !andb_true_iff in H. rewrite !Bool.eqb_true_iff in H. tauto.
Qed.

Lemma swap_positions i :
  0 <= i < 64 ->
  let p4 := if i mod 8 <? 4 then i + 4 else i - 4 in
  let p2 := if p4 mod 4 <? 2 then p4 + 2 else p4 - 2 in
  let p1 := if Z.even p2 then p2 + 1 else p2 - 1 in
  0 <= p4 < 64 /\ 0 <= p2 < 64 /\ 0 <= p1 < 64 /\
  p1 = 8 * (i / 8) + (7 - i mod 8).
Proof.
  intros Hi.
  pose proof (forall_below
    (fun i =>
       let p4 := if i mod 8 <? 4 then i + 4 else i - 4 in
       let p2 := if p4 mod 4 <? 2 then p4 + 2 else p4 - 2 in
       let p1 := if Z.even p2 then p2 + 1 else p2 - 1 in
       (0 <=? p4) && (p4 <? 64) && (0 <=? p2) && (p2 <? 64) &&
       (0 <=? p1) && (p1 <? 64) && (p1 =? 8 * (i / 8) + (7 - i mod 8)))
    64 ltac:(vm_compute; reflexivity) i Hi) as H.
  cbv beta zeta in H. rewrite !andb_true_iff in H.
  rewrite !Z.leb_le, !Z.ltb_lt, Z.eqb_eq in H. cbv zeta. tauto.
Qed.

Lemma swap_stage v M k i (b : bool) :
  0 <= i < 64 ->
  Z.testbit M i = b -> Z.testbit M (i - k) = negb b ->
  Z.testbit (Z.lor (Z.land (Z.shiftr v k) M) (u64 (Z.shiftl (Z.land v M) k))) i =
  Z.testbit v (if b then i + k else i - k).
Proof.
  intros Hi H1 H2. rewrite swap_step_bit by exact Hi. rewrite H1, H2.
  destruct b; cbn [negb]; rewrite ?andb_true_r, ?andb_false_r, ?orb_false_r;
    reflexivity.
Qed.

Lemma bitswap_bit v i :
  0 <= i < 64 ->
  Z.testbit (helper_bitswap v) i = Z.testbit v (8 * (i / 8) + (7 - i mod 8)).
Proof.
  intros Hi. destruct (swap_positions i Hi) as [H4 [H2 [H1 Hp]]].
  rewrite <- Hp. unfold helper_bitswap. cbv zeta.
  destruct (swap_masks i Hi) as [_ [_ [_ [_ [Ha Hb]]]]].
  rewrite (swap_stage _ _ 4 i _ Hi Ha Hb).
  set (p4 := if i mod 8 <? 4 then i + 4 else i - 4) in *.
  destruct (swap_masks p4 H4) as [_ [_ [Hc [Hd _]]]].
  rewrite (swap_stage _ _ 2 p4 _ H4 Hc Hd).
  set (p2 := if p4 mod 4 <? 2 then p4 + 2 else p4 - 2) in *.
  destruct (swap_masks p2 H2) as [He [Hf _]].
  rewrite (swap_stage _ _ 1 p2 _ H2 He Hf). reflexivity.
Qed.

Lemma lor_below a b n :
  0 <= n -> 0 <= a < 2 ^ n -> 0 <= b < 2 ^ n -> 0 <= Z.lor a b < 2 ^ n.
Proof.
  intros Hn Ha Hb. split; [apply Z.lor_nonneg; lia|].
  destruct (Z.eq_dec (Z.lor a b) 0) as [-> | Hnz]; [lia|].
  apply Z.log2_lt_pow2; [pose proof (proj2 (Z.lor_nonneg a b)); lia|].
  rewrite Z.log2_lor by lia.
  destruct (Z.eq_dec a 0) as [-> | Ha0]; destruct (Z.eq_dec b 0) as [-> | Hb0];
    try (exfalso; apply Hnz; reflexivity).
  - change (Z.log2 0) with 0. rewrite Z.max_r by apply Z.log2_nonneg.
    apply Z.log2_lt_pow2; lia.
  - change (Z.log2 0) with 0. rewrite Z.max_l by apply Z.log2_nonneg.
    apply Z.log2_lt_pow2; lia.
  - apply Z.max_lub_lt; apply Z.log2_lt_pow2; lia.
Qed.

Lemma bits_above x n k : 0 <= x < 2 ^ n -> n <= k -> Z.testbit x k = false.
Proof.
  intros Hx Hn. destruct (Z.eq_dec x 0) as [-> | Hnz]; [apply Z.testbit_0_l|].
  assert (0 <= n).
  { destruct (Z.lt_ge_cases n 0) as [Hneg | ?]; [|assumption].
    rewrite Z.pow_neg_r in Hx by exact Hneg. lia. }
  apply Z.bits_above_log2; [lia|].
  assert (Z.log2 x < n) by (apply Z.log2_lt_pow2; lia). lia.
Qed.

Lemma land_below x M n : 0 <= n -> 0 <= M < 2 ^ n -> 0 <= Z.land x M < 2 ^ n.
Proof.
  intros Hn HM.
  assert (H : Z.land x M = Z.land x M mod 2 ^ n).
  { apply Z.bits_inj'. intros k Hk.
    destruct (Z.lt_ge_cases k n) as [Hlt | Hge].
    - rewrite Z.mod_pow2_bits_low by exact Hlt. reflexivity.
    - rewrite Z.mod_pow2_bits_high by lia.
      rewrite Z.land_spec, (bits_above M n k) by assumption. apply andb_false_r. }
  rewrite H. apply Z.mod_pos_bound. lia.
Qed.

Lemma swap_stage_range v M k :
  0 <= M < 2 ^ 64 ->
  0 <= Z.lor (Z.land (Z.shiftr v k) M) (u64 (Z.shiftl (Z.land v M) k)) < 2 ^ 64.
Proof.
  intros HM. apply lor_below; [lia | | apply Z.mod_pos_bound; lia].
  apply land_below; [lia | exact HM].
Qed.

Lemma bitswap_range v : 0 <= helper_bitswap v < 2 ^ 64.
Proof. unfold helper_bitswap. cbv zeta. apply swap_stage_range. lia. Qed.

Lemma high_bits_clear x n : 0 <= x < 2 ^ 64 -> 64 <= n -> Z.testbit x n = false.
Proof. apply bits_above. Qed.

(** X19: [helper_bitswap] reverses the order of the bits inside each byte
    of a 64-bit operand and keeps the bytes in place: bit [i] of the result
    is bit [8 * (i / 8) + 7 - i mod 8] of the operand.  The result is a
    64-bit value, and swapping twice gives the operand back. *)
Theorem bitswap_reverses_each_byte v :
  0 <= v < 2 ^ 64 ->
  (forall i, 0 <= i < 64 ->
     Z.testbit (helper_bitswap v) i = Z.testbit v (8 * (i / 8) + (7 - i mod 8))) /\
  0 <= helper_bitswap v < 2 ^ 64 /\
  helper_bitswap (helper_bitswap v) = v.
Proof.
  intros Hv. split; [intros i Hi; apply bitswap_bit, Hi|].
  split; [apply bitswap_range|].
  apply Z.bits_inj'. intros n Hn.
  destruct (Z.lt_ge_cases n 64) as [Hlt | Hge].
  - rewrite bitswap_bit by lia.
    pose proof (swap_positions n (conj Hn Hlt)) as H. cbv zeta in H.
    destruct H as [_ [_ [H1 Hp]]]. rewrite Hp in H1. clear Hp.
    set (p := 8 * (n / 8) + (7 - n mod 8)) in *.
    assert (Hpr : 0 <= p < 64) by exact H1.
    rewrite bitswap_bit by exact Hpr. f_equal.
    assert (Hq : p / 8 = n / 8).
    { unfold p. pose proof (Z.mod_pos_bound n 8 ltac:(lia)).
      symmetry. apply (Z.div_unique _ _ _ (7 - n mod 8)); lia. }
    assert (Hm : p mod 8 = 7 - n mod 8).
    { unfold p. pose proof (Z.mod_pos_bound n 8 ltac:(lia)).
      symmetry. apply (Z.mod_unique _ _ (n / 8)); lia. }
    rewrite Hq, Hm. pose proof (Z.div_mod n 8 ltac:(lia)). lia.
  - rewrite !high_bits_clear; [reflexivity | exact Hv | exact Hge
                              | apply bitswap_range | exact Hge].
Qed.

(** ** Writing a CSR and reading it back *)





Lemma gcsrwr_returns env csr val old env' :
  helper_gcsrwr val csr env = Done old env' ->
  exists r,
    get_guest_csr_ptr csr = Some r /\ old = GCSR env r /\ env' = set_GCSR r val env.
Proof.
  gcsr_run.
  destruct (is_guest_mode env); [|discriminate].
  destruct (get_guest_csr_ptr csr) as [r|]; [|discriminate].
  intros H. exists r. split; [reflexivity|].
  destruct r; cbv beta iota zeta in H;
    try (match type of H with context [truthy ?x] => destruct (truthy x) end;
         cbv beta iota zeta in H);
    try discriminate; inv H; split; reflexivity.
Qed.

(** X21: in guest mode a guest CSR write that returns has stored the whole
    value in the guest bank and returned the old one, leaving the host bank
    alone, and a guest CSR read that returns after it returns the value
    written.  The write returns for every guest register except [TICLR],
    which always traps, and [ESTAT] and [TCFG], which depend on [GCFG];
    the read returns for every guest register except [ESTAT], [TCFG] and
    [TVAL], which depend on [GCFG]. *)
Theorem gcsr_write_then_read env csr val r :
  is_guest_mode env = true ->
  get_guest_csr_ptr csr = Some r ->
  (r <> ESTAT -> r <> TCFG -> r <> TICLR ->
   helper_gcsrwr val csr env = Done (GCSR env r) (set_GCSR r val env)) /\
  (r <> ESTAT -> r <> TCFG -> r <> TVAL ->
   helper_gcsrrd csr (set_GCSR r val env) = Done val (set_GCSR r val env)) /\
  (forall old env1,
     helper_gcsrwr val csr env = Done old env1 ->
     old = GCSR env r /\ env1 = set_GCSR r val env /\ CSR env1 = CSR env /\
     forall x env2, helper_gcsrrd csr env1 = Done x env2 -> x = val /\ env2 = env1) /\
  (r = TICLR ->
   exists env', helper_gcsrwr val csr env = Raised EXCCODE_HVC env').
Proof.
  intros Hg Hp. split; [|split; [|split]].
  - intros H1 H2 H3. gcsr_run. rewrite Hg, Hp.
    destruct r; try congruence; reflexivity.
  - intros H1 H2 H3. gcsr_run.
    change (is_guest_mode (set_GCSR r val env)) with (is_guest_mode env).
    rewrite Hg, Hp. unfold set_GCSR. cbn [GCSR with_GCSR]. rewrite bank_set_same.
    destruct r; try congruence; reflexivity.
  - intros old env1 Hw. destruct (gcsrwr_returns _ _ _ _ _ Hw) as [r' [Hp' [-> ->]]].
    rewrite Hp in Hp'. injection Hp' as <-.
    split; [reflexivity|]. split; [reflexivity|]. split; [reflexivity|].
    intros x env2 Hrd. destruct (gcsrrd_returns _ _ _ _ Hrd) as [r' [Hp' [-> ->]]].
    rewrite Hp in Hp'. injection Hp' as <-.
    unfold set_GCSR. cbn [GCSR with_GCSR]. rewrite bank_set_same. auto.
  - intros ->. gcsr_run. rewrite Hg, Hp. eexists. reflexivity.
Qed.

(** ** The exit of the second-level translation *)

(** X22: [loongarch_trigger_vm_exit] returns to its caller, it raises
    nothing.  In guest execution context it records the addresses, the guest
    ID and the reason in the exit context (access type 0), puts the
    physical address in [CSR_TRGP], and clears [GSTAT.VM] without copying
    it to [GSTAT.PVM]; the CSR banks and the PC stay, and a second call
    changes nothing.  Outside guest mode it does nothing. *)
Theorem second_level_trigger_vm_exit env reason gpa gva :
  (is_guest_execution_context env = true ->
   exists env',
     loongarch_trigger_vm_exit reason gpa gva env = Done tt env' /\
     vm_exit_ctx env' =
       mkCtx gpa gva (get_guest_id env) reason 0 (reason =? VMEXIT_TLB) /\
     CSR_TRGP env' = gpa /\
     FIELD_EX64 (CSR_GSTAT env') CSR_GSTAT_VM = 0 /\
     FIELD_EX64 (CSR_GSTAT env') CSR_GSTAT_PVM =
       FIELD_EX64 (CSR_GSTAT env) CSR_GSTAT_PVM /\
     get_guest_id env' = get_guest_id env /\
     CSR env' = CSR env /\ GCSR env' = GCSR env /\ pc env' = pc env /\
     tlb env' = tlb env /\
     forall reason' gpa' gva',
       loongarch_trigger_vm_exit reason' gpa' gva' env' = Done tt env') /\
  (is_guest_mode env = false ->
   loongarch_trigger_vm_exit reason gpa gva env = Done tt env).
Proof.
  split.
  - intros Hg. destruct (guest_context_parts env Hg) as [Hl [Hen [Hgm Hvm]]].
    eexists. split.
    { unfold loongarch_trigger_vm_exit, prepare_vm_exit_context. run.
      rewrite Hgm. cbv beta iota delta [negb]. rewrite Hg. reflexivity. }
    cbn [vm_exit_ctx CSR_TRGP CSR_GSTAT CSR GCSR pc tlb
         with_CSR_GSTAT with_CSR_TRGP with_vm_exit_ctx].
    split; [reflexivity|]. split; [reflexivity|].
    split; [apply clear_vm_reads_zero|]. split; [apply clear_vm_keeps_pvm|].
    split; [unfold get_guest_id; cbn; fields; reflexivity|].
    split; [reflexivity|]. split; [reflexivity|]. split; [reflexivity|].
    split; [reflexivity|].
    intros reason' gpa' gva'. unfold loongarch_trigger_vm_exit. run.
    match goal with |- context [is_guest_mode ?e] =>
      assert (Hn : is_guest_mode e = false) end.
    { unfold is_guest_mode. cbn [CSR_GSTAT with_CSR_GSTAT with_CSR_TRGP with_vm_exit_ctx].
      rewrite clear_vm_reads_zero. apply andb_false_r. }
    rewrite Hn. reflexivity.
  - intros Hn. unfold loongarch_trigger_vm_exit. run. rewrite Hn. reflexivity.
Qed.

(** ** Exceptions of a guest *)

(** X23: in guest execution context [helper_guest_exception] delivers the
    exception inside the guest: it returns to its caller, saves [CRMD.PLV]
    and [CRMD.IE] in the guest [PRMD], the given PC in the guest [ERA] and
    the code in the guest [ESTAT.ECODE], and clears [CRMD.IE].  [GSTAT] is
    untouched, so the CPU stays in guest execution context, and [CRMD.PLV]
    keeps its value.  In any other context the helper raises the exception
    and the state is as before. *)
Theorem guest_exception_stays_in_guest env exception epc :
  (is_guest_execution_context env = true ->
   0 <= exception < 64 ->
   exists env',
     helper_guest_exception exception epc env = Done tt env' /\
     CSR_GSTAT env' = CSR_GSTAT env /\
     is_guest_execution_context env' = true /\
     FIELD_EX64 (GCSR env' PRMD) CSR_PRMD_PPLV = FIELD_EX64 (CSR env CRMD) CSR_CRMD_PLV /\
     FIELD_EX64 (GCSR env' PRMD) CSR_PRMD_PIE = FIELD_EX64 (CSR env CRMD) CSR_CRMD_IE /\
     GCSR env' ERA = epc /\
     (f_len CSR_ESTAT_ECODE = 6 ->
      FIELD_EX64 (GCSR env' ESTAT) CSR_ESTAT_ECODE = exception) /\
     FIELD_EX64 (CSR env' CRMD) CSR_CRMD_IE = 0 /\
     FIELD_EX64 (CSR env' CRMD) CSR_CRMD_PLV = FIELD_EX64 (CSR env CRMD) CSR_CRMD_PLV /\
     (forall r, r <> CRMD -> CSR env' r = CSR env r) /\
     vm_exit_ctx env' = vm_exit_ctx env /\ pc env' = pc env) /\
  (is_guest_execution_context env = false ->
   helper_guest_exception exception epc env = Raised exception env).
Proof.
  pose proof layout_width_facts as W.
  split.
  - intros Hg Hx. eexists. split.
    { unfold helper_guest_exception. run. rewrite Hg. reflexivity. }
    unfold set_GCSR, set_CSR.
    cbn [CSR GCSR CSR_GSTAT vm_exit_ctx pc with_CSR with_GCSR]. bank.
    split; [reflexivity|]. split; [exact Hg|]. fields.
    split; [apply FIELD_EX64_fits; [wf | simpl; lia]|].
    split; [apply FIELD_EX64_fits; [wf | simpl; lia]|].
    split; [reflexivity|].
    split; [intros H6; apply land_ones_small; [lia | rewrite H6; exact Hx]|].
    split; [reflexivity|]. split; [reflexivity|].
    split; [intros r Hr; apply bank_set_other; exact Hr|]. auto.
  - intros Hn. unfold helper_guest_exception. run. rewrite Hn. reflexivity.
Qed.
End Properties.

(** * The helpers at the sample states *)

Section Examples.
#[local] Existing Instance la_layout.

Lemma la_layout_ok : layout_ok = true.
Proof. reflexivity. Qed.

(** ** C1 *)

(** C1 as stated fails: guest 3 runs [tlbwr] with [TLBIDX.INDEX = 5] while
    entry 5 is tagged with GID 7; the entry is replaced, its tag becomes
    3. *)
Lemma tlbwr_replaces_foreign_entry :
  is_guest_mode guest3_env = true /\
  get_current_guest_id guest3_env = 3 /\
  tlb guest3_env 5 = mkTLB (7 * 2 ^ 54 + 1) 0 0 /\
  FIELD_EX64 (tlb_misc (tlb guest3_env 5)) TLB_MISC_GID = 7 /\
  entry_after (helper_tlbwr guest3_env) 5 = Some (mkTLB (3 * 2 ^ 54 + 1) 0 0).
Proof. vm_compute. repeat split; reflexivity. Qed.

Lemma tlb_helpers_frame_witness :
  exists env',
    helper_invtlb_all guest3_env = Done tt env' /\
    forall i,
      u8 (FIELD_EX64 (tlb_misc (tlb guest3_env i)) TLB_MISC_GID) <>
      get_current_guest_id guest3_env ->
      tlb env' i = tlb guest3_env i.
Proof.
  exact (proj1 (proj2 (proj2 (proj2 (proj2
           (tlb_helpers_frame la_layout_ok guest3_env eq_refl)))))).
Defined.

(** ** C2 *)

(** C2 at the failing inputs: guest 3 with [GSTAT.VM = 1] and
    [GSTAT.PVM = 0].  The controller leaves [VM = 0] and [PVM = 1]; the
    trap of [hvcl], of a CSR write to [TICLR] (CSR 0x44), of [gtlbclr] and
    of a guest CSR write to [TICLR] leave [VM = 0] and [PVM = 0]. *)
Theorem trap_exits_lose_previous_mode :
  is_guest_execution_context guest3_env = true /\
  FIELD_EX64 (CSR_GSTAT guest3_env) CSR_GSTAT_VM = 1 /\
  FIELD_EX64 (CSR_GSTAT guest3_env) CSR_GSTAT_PVM = 0 /\
  vm_pvm_after (helper_vm_exit_cpu VMEXIT_TIMER guest3_env) = Some (0, 1) /\
  vm_pvm_after (helper_hvcl 66 guest3_env) = Some (0, 0) /\
  raised (helper_hvcl 66 guest3_env) = Some EXCCODE_HVC /\
  vm_pvm_after (helper_csrwr_with_lvz 1 68 guest3_env) = Some (0, 0) /\
  raised (helper_csrwr_with_lvz 1 68 guest3_env) = Some EXCCODE_HVC /\
  vm_pvm_after (helper_gtlbclr guest3_env) = Some (0, 0) /\
  raised (helper_gtlbclr guest3_env) = Some EXCCODE_HVC /\
  vm_pvm_after (helper_gcsrwr 1 68 guest3_env) = Some (0, 0) /\
  raised (helper_gcsrwr 1 68 guest3_env) = Some EXCCODE_HVC.
Proof. vm_compute. repeat split; reflexivity. Qed.

(** ** C3 *)

(** C3 at the failing inputs: guest 3 at [CRMD.PLV = 3], [CRMD.IE = 1] and
    PC [0x1000].  The controller [helper_vm_exit_cpu] leaves [PPLV = 3],
    [PIE = 1], [GCSR_ERA = 0x1000], [ECODE = EXCCODE_HVC] and the host
    [CRMD.PLV] and [CRMD.IE] zero.  The exit of the instruction helpers,
    [helper_vm_exit] (here also through [cpucfg] with index 16), and the
    traps of [hvcl] and of a CSR write to [TICLR] (CSR 0x44) raise
    [EXCCODE_HVC] with the guest [PRMD], [ERA] and [ESTAT] still zero and
    [CRMD] as it was. *)
Theorem vm_exit_paths_skip_guest_context :
  is_guest_execution_context guest3_user_env = true /\
  FIELD_EX64 (CSR guest3_user_env CRMD) CSR_CRMD_PLV = 3 /\
  FIELD_EX64 (CSR guest3_user_env CRMD) CSR_CRMD_IE = 1 /\
  pc guest3_user_env = 4096 /\
  raised (helper_vm_exit_cpu VMEXIT_CPUCFG guest3_user_env) = Some EXCCODE_HVC /\
  mode_regs_after (helper_vm_exit_cpu VMEXIT_CPUCFG guest3_user_env) =
    Some (3, 1, 4096, EXCCODE_HVC, 0, 0) /\
  raised (helper_vm_exit VMEXIT_CPUCFG guest3_user_env) = Some EXCCODE_HVC /\
  mode_regs_after (helper_vm_exit VMEXIT_CPUCFG guest3_user_env) =
    Some (0, 0, 0, 0, 3, 1) /\
  raised (helper_cpucfg_vm 16 guest3_user_env) = Some EXCCODE_HVC /\
  mode_regs_after (helper_cpucfg_vm 16 guest3_user_env) = Some (0, 0, 0, 0, 3, 1) /\
  raised (helper_hvcl 66 guest3_user_env) = Some EXCCODE_HVC /\
  mode_regs_after (helper_hvcl 66 guest3_user_env) = Some (0, 0, 0, 0, 3, 1) /\
  raised (helper_csrwr_with_lvz 1 68 guest3_user_env) = Some EXCCODE_HVC /\
  mode_regs_after (helper_csrwr_with_lvz 1 68 guest3_user_env) =
    Some (0, 0, 0, 0, 3, 1).
Proof. vm_compute. repeat split; reflexivity. Qed.

(** ** C4 *)



(** ** C5 *)

(** C5 at the failing input: after [hvcl 0x42] in guest mode the exit is
    taken ([EXCCODE_HVC]) but the exit context holds no reason, it is 0 as
    before and not [VMEXIT_HYPERCALL], and the code is nowhere: [hvcl 0x43]
    leaves the same state.  The exit of the instruction helpers,
    [helper_vm_exit], records the reason it is given. *)
Theorem hvcl_records_nothing :
  is_guest_mode guest3_env = true /\
  exit_reason (vm_exit_ctx guest3_env) = 0 /\
  raised (helper_hvcl 66 guest3_env) = Some EXCCODE_HVC /\
  exit_reason_after (helper_hvcl 66 guest3_env) = Some 0 /\
  VMEXIT_HYPERCALL <> 0 /\
  helper_hvcl 67 guest3_env = helper_hvcl 66 guest3_env /\
  exit_reason_after (helper_vm_exit VMEXIT_HYPERCALL guest3_env) =
    Some VMEXIT_HYPERCALL.
Proof.
  split; [reflexivity|]. split; [reflexivity|]. split; [reflexivity|].
  split; [reflexivity|]. split; [discriminate|]. split; reflexivity.
Qed.

(** ** C6 *)

(** C6 at the failing input: the guest write [csrwr(TICLR, 1)] (CSR 0x44)
    is trapped ([EXCCODE_HVC], the timer interrupt as it was) but records
    neither reason nor CSR number: the exit context keeps reason 0, not
    [VMEXIT_CSRW], and the write of another value leaves the same state.
    The exit of the instruction helpers, [helper_vm_exit], records the
    reason it is given. *)
Theorem ticlr_trap_records_nothing :
  is_guest_mode guest3_env = true /\
  decode_csr 68 = Some TICLR /\
  exit_reason (vm_exit_ctx guest3_env) = 0 /\
  raised (helper_csrwr_with_lvz 1 68 guest3_env) = Some EXCCODE_HVC /\
  exit_reason_after (helper_csrwr_with_lvz 1 68 guest3_env) = Some 0 /\
  VMEXIT_CSRW <> 0 /\
  option_map timer_irq (final_env (helper_csrwr_with_lvz 1 68 guest3_env)) =
    Some (timer_irq guest3_env) /\
  helper_csrwr_with_lvz 2 68 guest3_env = helper_csrwr_with_lvz 1 68 guest3_env /\
  exit_reason_after (helper_vm_exit VMEXIT_CSRW guest3_env) = Some VMEXIT_CSRW.
Proof.
  split; [reflexivity|]. split; [reflexivity|]. split; [reflexivity|].
  split; [reflexivity|]. split; [reflexivity|]. split; [discriminate|].
  split; [reflexivity|]. split; reflexivity.
Qed.

(** ** C7 *)

(** C7 as stated fails: in a TLB refill [tlbwr] fills the entry from
    [TLBRELO0], not from [TLBELO0]; [tlbrd] then puts 9 where 5 was. *)
Lemma refill_tlbwr_tlbrd_changes_tlbelo0 :
  FIELD_EX64 (get_effective_csr_tlbidx refill_env) CSR_TLBIDX_INDEX = 5 /\
  FIELD_EX64 (get_effective_csr_tlbidx refill_env) CSR_TLBIDX_NE = 0 /\
  get_effective_csr_tlbelo0 refill_env = 5 /\
  option_map get_effective_csr_tlbelo0
    (final_env ((helper_tlbwr ;; helper_tlbrd) refill_env)) = Some 9.
Proof. vm_compute. repeat split; reflexivity. Qed.

Lemma tlbwr_tlbrd_roundtrip_witness :
  exists env1 env3,
    helper_tlbwr guest3_write_env = Done tt env1 /\
    tlb_entry0 (tlb env1 5) = 7 /\
    tlb_entry1 (tlb env1 5) = 9 /\
    helper_tlbrd (overwrite_tlb_regs 0 0 0 env1) = Done tt env3 /\
    get_effective_csr_tlbehi env3 = 32768 /\
    get_effective_csr_tlbelo0 env3 = 7 /\
    get_effective_csr_tlbelo1 env3 = 9.
Proof.
  assert (Hi : FIELD_EX64 (get_effective_csr_tlbidx guest3_write_env) CSR_TLBIDX_INDEX
               < LOONGARCH_TLB_MAX) by (vm_compute; reflexivity).
  destruct (tlbwr_tlbrd_roundtrip la_layout_ok guest3_write_env Hi eq_refl eq_refl)
    as [env1 [_ [H1 [_ [_ [_ [_ [_ [_ [_ [_ [_ [E0 [E1 [_ [_ Hover]]]]]]]]]]]]]]]].
  destruct (Hover 0 0 0) as [env3 [H3 [Rh [R0 [R1 _]]]]].
  exists env1, env3.
  split; [exact H1|]. split; [exact E0|]. split; [exact E1|].
  split; [exact H3|]. split; [exact Rh|]. split; [exact R0 | exact R1].
Defined.

(** ** C8 *)

(** C8 as stated fails: in a TLB refill with every page size equal to
    [STLBPS.PS] and the effective [TLBEHI] zero, [tlbfill] with random value
    0 writes entry [0xab], the set that the address in [TLBREHI] selects;
    the effective [TLBEHI] selects set 0. *)
Lemma refill_tlbfill_uses_tlbrehi :
  FIELD_EX64 (get_effective_csr_tlbidx refill_fill_env) CSR_TLBIDX_PS =
    FIELD_EX64 (CSR refill_fill_env STLBPS) CSR_STLBPS_PS /\
  FIELD_EX64 (CSR refill_fill_env TLBREHI) CSR_TLBREHI_PS =
    FIELD_EX64 (CSR refill_fill_env STLBPS) CSR_STLBPS_PS /\
  get_effective_csr_tlbehi refill_fill_env = 0 /\
  tlbfill_index 0 refill_fill_env = 171 /\
  entry_after (helper_tlbfill 0 refill_fill_env) 171 = Some (mkTLB (171 * 2 ^ 15 + 1) 0 0) /\
  entry_after (helper_tlbfill 0 refill_fill_env) 0 = Some no_entry /\
  (forall way, 0 <= way <= 7 -> 171 <> way * 256 + Z.land 0 255).
Proof.
  split; [vm_compute; reflexivity|]. split; [vm_compute; reflexivity|].
  split; [vm_compute; reflexivity|]. split; [vm_compute; reflexivity|].
  split; [vm_compute; reflexivity|]. split; [vm_compute; reflexivity|].
  intros way Hw. change (Z.land 0 255) with 0. lia.
Qed.

(** ** C9 *)



(** ** C10 *)

Lemma tlbwr_index_unchecked_witness :
  helper_tlbwr index_2112_env = OutOfBounds 2112 /\
  helper_gtlbwr guest_index_2112_env = Done tt guest_index_2112_env.
Proof.
  split.
  - exact (proj1 (tlbwr_index_unchecked la_layout_ok index_2112_env
                    ltac:(vm_compute; discriminate))).
  - exact (proj2 (tlbwr_index_unchecked la_layout_ok guest_index_2112_env
                    ltac:(vm_compute; discriminate)) eq_refl).
Defined.

(** ** Further properties at the sample states *)

Lemma tlb_search_guest_sound_witness :
  0 <= 2050 < LOONGARCH_TLB_MAX /\
  FIELD_EX64 (tlb_misc (tlb hit_env 2050)) TLB_MISC_E = 1 /\
  tlb_entry_matches_guest hit_env (tlb hit_env 2050) = true.
Proof.
  assert (H : loongarch_tlb_search_guest 32768 hit_env = Done (Some 2050) hit_env)
    by (vm_compute; reflexivity).
  exact (proj2 (@tlb_search_guest_sound la_layout 32768 hit_env 2050 hit_env H)).
Defined.

Lemma tlbflush_tlbclr_line_witness :
  exists env',
    helper_tlbflush ne_env = Done tt env' /\
    tlb env' 5 = mkTLB 0 7 9 /\ tlb env' 6 = no_entry.
Proof.
  destruct (tlbflush_tlbclr_line la_layout_ok ne_env) as [[env' [Hr [_ Hk]]] _].
  exists env'. split; [exact Hr|].
  rewrite (Hk 5), (Hk 6). vm_compute. split; reflexivity.
Defined.

Lemma tlbrd_reports_no_entry_witness :
  exists env',
    helper_tlbrd host_env = Done tt env' /\
    FIELD_EX64 (get_effective_csr_tlbidx env') CSR_TLBIDX_NE = 1.
Proof.
  destruct (tlbrd_reports_no_entry la_layout_ok host_env) as [env' [H [_ [_ [Hne _]]]]];
    [vm_compute; reflexivity | left; vm_compute; reflexivity |].
  exists env'. split; [exact H | exact Hne].
Defined.

Lemma tlbwr_ne_disables_entry_witness :
  exists env1 env2,
    helper_tlbwr ne_env = Done tt env1 /\
    tlb env1 5 = mkTLB 0 7 9 /\
    helper_tlbrd env1 = Done tt env2 /\
    get_effective_csr_tlbelo0 env2 = 0.
Proof.
  destruct (tlbwr_ne_disables_entry la_layout_ok ne_env)
    as [env1 [env2 [H1 [He [H2 [_ [_ [_ [H0 _]]]]]]]]];
    [vm_compute; reflexivity | vm_compute; reflexivity |].
  exists env1, env2. split; [exact H1|]. split; [rewrite He; vm_compute; reflexivity|].
  split; [exact H2 | exact H0].
Defined.

Lemma vm_exit_then_enter_witness :
  exists env1 env2,
    helper_vm_exit VMEXIT_TIMER guest3_env = Raised EXCCODE_HVC env1 /\
    helper_vm_enter env1 = Done tt env2 /\
    is_guest_execution_context env2 = true /\
    get_guest_id env2 = 3.
Proof.
  destruct (proj1 (vm_exit_then_enter la_layout_ok guest3_env VMEXIT_TIMER) eq_refl)
    as [env1 [env2 [H1 [_ [_ [_ [_ [H2 [H3 [H4 _]]]]]]]]]].
  exists env1, env2. split; [exact H1|]. split; [exact H2|]. split; [exact H3 | exact H4].
Defined.

Lemma vm_exit_with_fault_context_witness :
  exists env',
    helper_vm_exit_with_fault VMEXIT_MMIO 8192 12288 2 guest3_env =
    Raised EXCCODE_HVC env' /\
    vm_exit_ctx env' = mkCtx 0 4096 3 VMEXIT_MMIO 0 false /\
    CSR env' BADV = 8192 /\ CSR_TRGP env' = 12288.
Proof.
  destruct (@vm_exit_with_fault_context la_layout guest3_env VMEXIT_MMIO 8192 12288 2 eq_refl)
    as [env' [H [Hc [Hb [_ Ht]]]]].
  exists env'. split; [exact H|]. split; [exact Hc|]. split; [exact Hb | exact Ht].
Defined.

Lemma ertn_after_vm_exit_stays_in_host_witness :
  exists env1 env2,
    helper_vm_exit_cpu VMEXIT_TIMER guest3_env = Raised EXCCODE_HVC env1 /\
    helper_ertn env1 = Done tt env2 /\
    is_guest_mode env2 = false.
Proof.
  destruct (ertn_after_vm_exit_stays_in_host la_layout_ok guest3_env VMEXIT_TIMER eq_refl)
    as [env1 [env2 [H1 [H2 [_ [_ [_ [H3 _]]]]]]]].
  exists env1, env2. split; [exact H1|]. split; [exact H2 | exact H3].
Defined.

Lemma vm_context_switch_sets_gid_witness :
  exists env',
    helper_vm_context_switch 263 host_env = Done tt env' /\
    get_guest_id env' = 7.
Proof.
  destruct (proj1 (vm_context_switch_sets_gid la_layout_ok host_env 263) eq_refl)
    as [env' [H [Hg _]]].
  exists env'. split; [exact H | exact Hg].
Defined.

Lemma vm_save_restore_roundtrip_witness :
  exists env1,
    helper_vm_save_state guest3_write_env = Done tt env1 /\
    GCSR env1 EENTRY = 4096 /\ GCSR env1 TLBEHI = 0 /\ GCSR env1 (SAVE 0) = 0.
Proof.
  destruct (@vm_save_restore_roundtrip la_layout guest3_write_env host_env eq_refl)
    as [env1 [H [_ [Hin [Hout _]]]]].
  exists env1. split; [exact H|].
  split; [exact (Hin EENTRY ltac:(simpl; tauto))|].
  split; [exact (Hin TLBEHI ltac:(simpl; tauto))|].
  rewrite (Hout (SAVE 0)); [reflexivity|].
  simpl. intros Hc. repeat (destruct Hc as [Hc | Hc]; [discriminate Hc|]). exact Hc.
Defined.

Lemma cpucfg_vm_hides_lvz_witness :
  exists v,
    helper_cpucfg_vm 2 guest3_env = Done v guest3_env /\
    FIELD_EX32 v CPUCFG2_LVZ = 0 /\
    helper_cpucfg_vm 2 host_env = Done 1024 host_env.
Proof.
  assert (Hc : 0 <= cpucfg guest3_env 2 < 2 ^ 32) by (split; [discriminate | reflexivity]).
  destruct (@cpucfg_vm_hides_lvz la_layout guest3_env 2 Hc) as [Hg _].
  destruct (Hg eq_refl) as [[v [Hv [Hz _]]] _].
  exists v. split; [exact Hv|]. split; [exact Hz|].
  assert (Hh : 0 <= cpucfg host_env 2 < 2 ^ 32) by (split; [discriminate | reflexivity]).
  destruct (@cpucfg_vm_hides_lvz la_layout host_env 2 Hh) as [_ [Hn _]].
  rewrite (Hn eq_refl). reflexivity.
Defined.

Lemma guest_instructions_need_guest_mode_witness :
  helper_gcsrwr 1 0 host_env = Raised EXCCODE_IPE host_env /\
  helper_gtlbwr host_env = Raised EXCCODE_IPE host_env /\
  helper_gtlbfill 5 host_env = Raised EXCCODE_IPE host_env.
Proof.
  destruct (@guest_instructions_need_guest_mode la_layout host_env eq_refl)
    as [_ [Hw [_ [_ [_ [Ht [Hf _]]]]]]].
  split; [apply Hw|]. split; [exact Ht | apply Hf].
Defined.

Lemma gtlbwr_gtlbrd_roundtrip_witness :
  exists env1 env2,
    helper_gtlbwr guest3_write_env = Done tt env1 /\
    helper_gtlbrd env1 = Done tt env2 /\
    GCSR env2 TLBELO0 = 7 /\ GCSR env2 TLBELO1 = 9 /\
    GCSR env2 TLBEHI = 32768 /\ GCSR env2 ASID = 2.
Proof.
  destruct (gtlbwr_gtlbrd_roundtrip la_layout_ok guest3_write_env)
    as [env1 [H1 [_ [_ [_ [_ [Hodd _]]]]]]];
    [reflexivity | vm_compute; reflexivity |].
  destruct (Hodd eq_refl) as [env2 [H2 [_ [H0 [Hl [Hh Ha]]]]]].
  exists env1, env2. split; [exact H1|]. split; [exact H2|].
  split; [exact H0|]. split; [exact Hl|]. split; [exact Hh | exact Ha].
Defined.

Lemma gtlbfill_writes_stlb_witness :
  exists env',
    helper_gtlbfill 4101 guest3_write_env = Done tt env' /\
    FIELD_EX64 (tlb_misc (tlb env' 5)) TLB_MISC_GID = 3 /\
    tlb env' 2050 = no_entry.
Proof.
  destruct (@gtlbfill_writes_stlb la_layout guest3_write_env 4101 eq_refl)
    as [env' [H [_ [_ [Ho [Hg _]]]]]].
  exists env'. split; [exact H|]. split; [exact Hg|].
  rewrite (Ho 2050); [reflexivity | discriminate].
Defined.

Lemma gtlbsrch_result_witness :
  exists env',
    helper_gtlbsrch guest3_write_env = Done tt env' /\
    tlb env' = tlb guest3_write_env /\ GCSR env' TLBEHI = 32768.
Proof.
  destruct (@gtlbsrch_result la_layout guest3_write_env eq_refl)
    as [env' [H [Ht [_ [_ [Hr _]]]]]].
  exists env'. split; [exact H|]. split; [exact Ht|].
  rewrite Hr; [reflexivity | discriminate].
Defined.

Lemma tlb_search_guest_without_lvz_witness :
  loongarch_tlb_search_guest 32768 no_lvz_env = loongarch_tlb_search 32768 no_lvz_env.
Proof. exact (@tlb_search_guest_without_lvz la_layout no_lvz_env 32768 eq_refl). Defined.

Lemma bitswap_reverses_each_byte_witness :
  Z.testbit (helper_bitswap 0x0102) 7 = Z.testbit 0x0102 0 /\
  helper_bitswap (helper_bitswap 0x0102) = 0x0102.
Proof.
  assert (Hr : 0 <= 0x0102 < 2 ^ 64) by (split; [discriminate | reflexivity]).
  destruct (bitswap_reverses_each_byte 0x0102 Hr) as [Hb [_ Hi]].
  split; [exact (Hb 7 ltac:(lia)) | exact Hi].
Defined.


Lemma gcsr_write_then_read_witness :
  helper_gcsrwr 99 48 guest3_write_env = Done 0 (set_GCSR (SAVE 0) 99 guest3_write_env) /\
  helper_gcsrrd 48 (set_GCSR (SAVE 0) 99 guest3_write_env) =
  Done 99 (set_GCSR (SAVE 0) 99 guest3_write_env).
Proof.
  destruct (@gcsr_write_then_read la_layout guest3_write_env 48 99 (SAVE 0)
              eq_refl eq_refl) as [Hw [Hr _]].
  split; [apply Hw; discriminate | apply Hr; discriminate].
Defined.

Lemma second_level_trigger_vm_exit_witness :
  exists env',
    loongarch_trigger_vm_exit VMEXIT_MMIO 12288 8192 guest3_env = Done tt env' /\
    vm_exit_ctx env' = mkCtx 12288 8192 3 VMEXIT_MMIO 0 false /\
    is_guest_mode env' = false.
Proof.
  destruct (proj1 (second_level_trigger_vm_exit la_layout_ok guest3_env VMEXIT_MMIO
                     12288 8192) eq_refl)
    as [env' [H [Hc [_ [Hvm _]]]]].
  exists env'. split; [exact H|]. split; [exact Hc|].
  unfold is_guest_mode. rewrite Hvm. apply andb_false_r.
Defined.

Lemma guest_exception_stays_in_guest_witness :
  exists env',
    helper_guest_exception 11 4100 guest3_env = Done tt env' /\
    is_guest_execution_context env' = true /\
    GCSR env' ERA = 4100 /\
    FIELD_EX64 (GCSR env' ESTAT) CSR_ESTAT_ECODE = 11.
Proof.
  destruct (proj1 (guest_exception_stays_in_guest la_layout_ok guest3_env 11 4100)
              eq_refl ltac:(lia))
    as [env' [H [_ [Hg [_ [_ [He [Hc _]]]]]]]].
  exists env'. split; [exact H|]. split; [exact Hg|]. split; [exact He|].
  apply Hc. reflexivity.
Defined.

Lemma vm_exit_saves_guest_context_witness :
  exists env',
    helper_vm_exit_with_fault VMEXIT_MMIO 4096 8192 2 guest3_env =
    Raised EXCCODE_HVC env' /\
    GCSR env' ERA = pc guest3_env /\
    FIELD_EX64 (GCSR env' ESTAT) CSR_ESTAT_ECODE = EXCCODE_HVC.
Proof.
  destruct (vm_exit_saves_guest_context la_layout_ok guest3_env
              VMEXIT_MMIO 4096 8192 2 _ eq_refl (or_intror eq_refl))
    as [env' [H [_ [_ [He [Hc _]]]]]].
  exists env'. split; [exact H | split; [exact He | exact Hc]].
Defined.

Lemma hvcl_exit_or_illegal_witness :
  (exists env',
     helper_hvcl 66 guest3_env = Raised EXCCODE_HVC env' /\
     FIELD_EX64 (CSR_GSTAT env') CSR_GSTAT_VM = 0) /\
  helper_hvcl 66 host_env = Raised EXCCODE_INE host_env.
Proof.
  destruct (hvcl_exit_or_illegal la_layout_ok guest3_env 66) as [Hg _].
  destruct (Hg eq_refl) as [env' [H [Hv _]]].
  destruct (hvcl_exit_or_illegal la_layout_ok host_env 66) as [_ Hh].
  split; [exists env'; split; [exact H | exact Hv] | exact (Hh (or_introl eq_refl))].
Defined.

Lemma guest_ticlr_write_traps_witness :
  exists env',
    helper_csrwr_with_lvz 1 68 guest3_env = Raised EXCCODE_HVC env' /\
    timer_irq env' = 1.
Proof.
  destruct (guest_ticlr_write_traps la_layout_ok guest3_env 68 1 eq_refl eq_refl)
    as [env' [H [_ [_ [Ht _]]]]].
  exists env'. split; [exact H | exact Ht].
Defined.
End Examples.
